(** * Routing State Manager of the Twin Boss Agent API (src/api/app.py)

    A shallow embedding of the state store, the record upsert logic of the
    mutation handlers and the Traefik dynamic-configuration generator,
    followed by the properties of the specification that concern them.

    Modelling conventions.
    - Text is ASCII: a Python [str] is a [string]; [str.lower],
      [str.isalnum] and [str.strip] are the ASCII restrictions of the
      Python methods. Beyond ASCII the Python methods follow the Unicode
      database, which is not modelled: a property whose outcome depends
      on the class or the case of a character is stated for ASCII text
      ([ascii_text]) only.
    - A JSON object with a fixed schema (domain record, agent record,
      storage profile, meta block) is a record whose fields are [slot]s: a
      key can be absent, hold [null], or hold a value of the schema type.
      A JSON object used as a map (the agent registry, the storage table,
      the per-service URL sets of the generator) is a [gmap].
    - [_now_iso()] and [time.time()] are inputs: every handler call takes a
      [clock] holding the values the calls would read.
    - An uncaught Python exception is the response [Crash]; an
      [HTTPException(400, ...)] is the response [Rejected]. *)

From Stdlib Require Import ZArith Ascii String List Bool Lia DecimalString.
From stdpp Require Import base option strings list gmap sorting.

Open Scope string_scope.
Open Scope list_scope.
Open Scope Z_scope.

(** ** Python string primitives (ASCII) *)

Module Py.

Definition nl : string := String (ascii_of_nat 10) "".
Definition dquote : string := String (ascii_of_nat 34) "".

Definition code (c : ascii) : nat := nat_of_ascii c.

Definition is_upper (c : ascii) : bool :=
  (65 <=? code c)%nat && (code c <=? 90)%nat.
Definition is_lower (c : ascii) : bool :=
  (97 <=? code c)%nat && (code c <=? 122)%nat.
Definition is_digit (c : ascii) : bool :=
  (48 <=? code c)%nat && (code c <=? 57)%nat.
Definition is_alpha (c : ascii) : bool := is_upper c || is_lower c.

(** [char.isalnum()] *)
Definition isalnum (c : ascii) : bool := is_alpha c || is_digit c.

(** [str.isspace()] on one character: TAB, LF, VT, FF, CR, FS, GS, RS,
    US and SPACE. *)
Definition isspace (c : ascii) : bool :=
  ((9 <=? code c)%nat && (code c <=? 13)%nat)
  || ((28 <=? code c)%nat && (code c <=? 32)%nat).

Definition lower_char (c : ascii) : ascii :=
  if is_upper c then ascii_of_nat (code c + 32) else c.

Fixpoint map_chars (f : ascii -> ascii) (s : string) : string :=
  match s with
  | EmptyString => EmptyString
  | String c s' => String (f c) (map_chars f s')
  end.

(** [s.lower()] *)
Definition lower (s : string) : string := map_chars lower_char s.

(** [s.lstrip(chars)], the characters given by a predicate. *)
Fixpoint lstrip_by (p : ascii -> bool) (s : string) : string :=
  match s with
  | EmptyString => EmptyString
  | String c s' => if p c then lstrip_by p s' else s
  end.

(** [s.rstrip(chars)] *)
Fixpoint rstrip_by (p : ascii -> bool) (s : string) : string :=
  match s with
  | EmptyString => EmptyString
  | String c s' =>
      match rstrip_by p s' with
      | EmptyString => if p c then EmptyString else String c EmptyString
      | r => String c r
      end
  end.

(** [s.strip()] *)
Definition strip (s : string) : string :=
  rstrip_by isspace (lstrip_by isspace s).

(** [s.rstrip("/")] *)
Definition rstrip_slash (s : string) : string :=
  rstrip_by (Ascii.eqb "/") s.

(** [s.replace(".", "-")] and the like, for one-character arguments. *)
Definition replace_char (a b : ascii) (s : string) : string :=
  map_chars (fun c => if Ascii.eqb c a then b else c) s.

(** [s.replace(c, "")] *)
Fixpoint remove_char (p : ascii -> bool) (s : string) : string :=
  match s with
  | EmptyString => EmptyString
  | String c s' => if p c then remove_char p s' else String c (remove_char p s')
  end.

(** [sub in s] *)
Fixpoint contains (sub s : string) : bool :=
  String.prefix sub s
  || match s with
     | EmptyString => false
     | String _ s' => contains sub s'
     end.

(** [c in s] for one character. *)
Fixpoint has_char (c : ascii) (s : string) : bool :=
  match s with
  | EmptyString => false
  | String d s' => Ascii.eqb c d || has_char c s'
  end.

(** [s.split(sep)] for a one-character separator: never the empty list. *)
Fixpoint split (sep : ascii) (s : string) : list string :=
  match s with
  | EmptyString => [EmptyString]
  | String c s' =>
      if Ascii.eqb c sep then EmptyString :: split sep s'
      else match split sep s' with
           | [] => [String c EmptyString]
           | w :: ws => String c w :: ws
           end
  end.

(** [sep.join(parts)] *)
Fixpoint join (sep : string) (parts : list string) : string :=
  match parts with
  | [] => EmptyString
  | [w] => w
  | w :: ws => w +:+ sep +:+ join sep ws
  end.

(** [s.partition(sep)] for a one-character separator: the text before the
    first [sep], whether [sep] was found, and the text after it. *)
Fixpoint partition (sep : ascii) (s : string) : string * bool * string :=
  match s with
  | EmptyString => (EmptyString, false, EmptyString)
  | String c s' =>
      if Ascii.eqb c sep then (EmptyString, true, s')
      else let '(a, found, b) := partition sep s' in (String c a, found, b)
  end.

(** The last component of [s.rpartition(sep)]: the text after the last
    [sep], or all of [s] when there is none. *)
Fixpoint rpartition_tail (sep : ascii) (s : string) : string :=
  match s with
  | EmptyString => EmptyString
  | String c s' =>
      if has_char sep s' then rpartition_tail sep s'
      else if Ascii.eqb c sep then s' else s
  end.

(** [str(n)] for an [int]. *)
Definition str_int (n : Z) : string := NilZero.string_of_int (Z.to_int n).

(** Truth value of a [str]: the empty string is false. *)
Definition nonempty (s : string) : bool :=
  match s with EmptyString => false | _ => true end.

End Py.

(** ** Results of fallible code *)

(** A Python call that either returns or raises [ValueError(msg)]. *)
Inductive outcome (A : Type) : Type :=
| Returns (a : A)
| ValueError (msg : string).
Arguments Returns {A} a.
Arguments ValueError {A} msg.

(** What a handler hands back to its caller. *)
Inductive response (A : Type) : Type :=
| Ok (a : A)                  (* the handler returned its body *)
| Rejected (detail : string)  (* HTTPException(400, detail) *)
| Crash.                      (* an uncaught exception *)
Arguments Ok {A} a.
Arguments Rejected {A} detail.
Arguments Crash {A}.

Definition is_ok {A} (r : response A) : bool :=
  match r with Ok _ => true | _ => false end.

(** ** Keys of a JSON object with a schema *)

Inductive slot (A : Type) : Type :=
| Absent         (* the key is not in the dict *)
| Null           (* the key holds None *)
| Val (a : A).   (* the key holds a value *)
Arguments Absent {A}.
Arguments Null {A}.
Arguments Val {A} a.

(** [d.get(k)]: Python's [None] is Rocq's [None]. *)
Definition get {A} (s : slot A) : option A :=
  match s with Val a => Some a | _ => None end.

(** [d.get(k, default)] *)
Definition get_default {A} (d : A) (s : slot A) : option A :=
  match s with Absent => Some d | Null => None | Val a => Some a end.

(** [d[k] = v] where [v] may be [None]. *)
Definition put {A} (v : option A) : slot A :=
  match v with Some a => Val a | None => Null end.

(** Truth values, [x or y], and f-string formatting of optional values. *)
Definition truthy_str (v : option string) : bool :=
  match v with Some s => Py.nonempty s | None => false end.
Definition truthy_int (v : option Z) : bool :=
  match v with Some n => negb (n =? 0) | None => false end.
Definition truthy_bool (v : option bool) : bool :=
  match v with Some b => b | None => false end.

Definition or_str (a b : option string) : option string :=
  if truthy_str a then a else b.
Definition or_int (a b : option Z) : option Z :=
  if truthy_int a then a else b.

Definition fmt_str (v : option string) : string :=
  match v with Some s => s | None => "None" end.
Definition fmt_int (v : option Z) : string :=
  match v with Some n => Py.str_int n | None => "None" end.

(** ** Sorting *)

(** [sorted(l, key=key)] and [l.sort(key=key)] on string keys: the stable
    sort, here by insertion from the right. *)
Fixpoint insert_by {A} (key : A -> string) (x : A) (l : list A) : list A :=
  match l with
  | [] => [x]
  | y :: l' =>
      if String.leb (key x) (key y) then x :: y :: l'
      else y :: insert_by key x l'
  end.

Definition sorted_by {A} (key : A -> string) (l : list A) : list A :=
  foldr (insert_by key) [] l.

(** [sorted(s)] for a set of strings. *)
Definition sorted_set (s : gset string) : list string :=
  sorted_by id (elements s).

(** [list(dict.fromkeys(l))]: the first occurrence of each element, in
    order. *)
Fixpoint fromkeys_go (seen : gset string) (l : list string) : list string :=
  match l with
  | [] => []
  | x :: l' =>
      if decide (x ∈ seen) then fromkeys_go seen l'
      else x :: fromkeys_go ({[x]} ∪ seen) l'
  end.
Definition dict_fromkeys (l : list string) : list string := fromkeys_go ∅ l.

(** ** Constants *)

(** [SERVICE_DEFAULT_PORTS.get(name, default)] *)
Definition SERVICE_DEFAULT_PORTS_get (name : option string) (default : Z) : Z :=
  match name with
  | Some "twinboss_api" => 9000
  | Some "fastmcp" => 8080
  | Some "mcpjungle" => 4000
  | Some "docker_mcp" => 8090
  | _ => default
  end.

(** ** The data model *)

(** One entry of a record's history log. Agent entries have no target. *)
Record event : Type := {
  action : string;
  at_time : string;
  target : slot string
}.

Record DomainRecord : Type := {
  d_domain : slot string;
  d_id : slot string;
  d_created_at : slot string;
  d_history : slot (list event);
  d_target_service : slot string;
  d_target_port : slot Z;
  d_target_scheme : slot string;
  d_target_url : slot string;
  d_entrypoint : slot string;
  d_auto_ssl : slot bool;
  d_redirect_to_https : slot bool;
  d_notes : slot string;
  d_updated_at : slot string;
  d_service_name : slot string;
  d_router_name : slot string
}.

Record AgentRecord : Type := {
  a_created_at : slot string;
  a_history : slot (list event);
  a_name : slot string;
  a_slug : slot string;
  a_role : slot string;
  a_rights : slot string;
  a_status : slot string;
  a_endpoint : slot string;
  a_capabilities : slot (list string);
  a_domains : slot (list string);
  a_updated_at : slot string
}.

Record StorageProfile : Type := {
  s_created_at : slot string;
  s_storage_engine : slot string;
  s_primary_region : slot string;
  s_replicas : slot Z;
  s_retention_days : slot Z;
  s_backup_regions : slot (list string);
  s_analytics : slot bool;
  s_encryption : slot bool;
  s_notes : slot string;
  s_status : slot string;
  s_updated_at : slot string
}.

Record Meta : Type := {
  m_created_at : slot string;
  m_updated_at : slot string;
  m_revision : slot Z;
  m_domain_count : slot Z;
  m_agent_count : slot Z;
  m_date_storage_status : slot string
}.

(** The state document. A top-level key may be missing from a document
    that was not written by this program; [None] is the missing key. *)
Record State : Type := {
  meta : option Meta;
  domains : option (list DomainRecord);
  storage : option (gmap string StorageProfile);
  agents : option (gmap string AgentRecord)
}.

(** [{}] for the record kinds, and the truth value of a dict. *)
Definition empty_meta : Meta :=
  {| m_created_at := Absent; m_updated_at := Absent; m_revision := Absent;
     m_domain_count := Absent; m_agent_count := Absent;
     m_date_storage_status := Absent |}.

Definition empty_profile : StorageProfile :=
  {| s_created_at := Absent; s_storage_engine := Absent;
     s_primary_region := Absent; s_replicas := Absent;
     s_retention_days := Absent; s_backup_regions := Absent;
     s_analytics := Absent; s_encryption := Absent; s_notes := Absent;
     s_status := Absent; s_updated_at := Absent |}.

Definition empty_agent : AgentRecord :=
  {| a_created_at := Absent; a_history := Absent; a_name := Absent;
     a_slug := Absent; a_role := Absent; a_rights := Absent;
     a_status := Absent; a_endpoint := Absent; a_capabilities := Absent;
     a_domains := Absent; a_updated_at := Absent |}.

Definition present {A} (s : slot A) : bool :=
  match s with Absent => false | _ => true end.

Definition profile_truthy (r : StorageProfile) : bool :=
  present (s_created_at r) || present (s_storage_engine r)
  || present (s_primary_region r) || present (s_replicas r)
  || present (s_retention_days r) || present (s_backup_regions r)
  || present (s_analytics r) || present (s_encryption r)
  || present (s_notes r) || present (s_status r) || present (s_updated_at r).

Definition agent_truthy (r : AgentRecord) : bool :=
  present (a_created_at r) || present (a_history r) || present (a_name r)
  || present (a_slug r) || present (a_role r) || present (a_rights r)
  || present (a_status r) || present (a_endpoint r)
  || present (a_capabilities r) || present (a_domains r)
  || present (a_updated_at r).

(** The values the clock calls of one handler invocation return. *)
Record clock : Type := {
  t_handler : string;  (* [_now_iso()] in the handler body *)
  t_boot : string;     (* [_now_iso()] in [_default_state], when it runs *)
  t_commit : string;   (* [_now_iso()] in [update_state] *)
  t_unix : Z           (* [int(time.time())] *)
}.

(** The state file, by what reading it does:
    - [Missing]: there is no file;
    - [InvalidJson]: the file is there and its text is not valid JSON,
      so that [json.load] raises [json.JSONDecodeError], which
      [_read_state_unlocked] catches;
    - [Undecodable]: the file is there and reading it raises an exception
      that [_read_state_unlocked] does not catch: bytes that are not
      UTF-8 ([UnicodeDecodeError]), nesting beyond the recursion limit
      ([RecursionError]), an integer with more digits than the
      interpreter converts ([ValueError]);
    - [Persisted st]: the file holds the document [st]. *)
Inductive file : Type :=
| Missing
| InvalidJson
| Undecodable
| Persisted (st : State).

(** The two files the program owns. *)
Record World : Type := {
  state_file : file;
  dynamic_file : option string
}.

Definition _default_state (now : string) : State :=
  {| meta := Some {| m_created_at := Val now; m_updated_at := Val now;
                     m_revision := Val 0; m_domain_count := Absent;
                     m_agent_count := Absent;
                     m_date_storage_status := Absent |};
     domains := Some [];
     storage := Some {[ "date_app" :=
       {| s_created_at := Absent; s_storage_engine := Absent;
          s_primary_region := Absent; s_replicas := Absent;
          s_retention_days := Absent; s_backup_regions := Absent;
          s_analytics := Absent; s_encryption := Absent; s_notes := Absent;
          s_status := Val "uninitialized"; s_updated_at := Val now |} ]};
     agents := Some ∅ |}.

(** [_write_state_unlocked]: the temporary file replaces the state file. *)
Definition _write_state_unlocked (st : State) (f : file) : file :=
  Persisted st.

(** [_read_state_unlocked]: the document read, and the file afterwards;
    [None] when the exception raised by the reading is not one of
    [(json.JSONDecodeError, OSError)] and so leaves the function. *)
Definition _read_state_unlocked (now : string) (f : file)
    : option (State * file) :=
  match f with
  | Missing => Some (_default_state now, f)
  | Persisted st => Some (st, f)
  | InvalidJson =>
      let state := _default_state now in
      Some (state, _write_state_unlocked state f)
  | Undecodable => None
  end.

(** [read_state]: [None] when [_read_state_unlocked] raises. *)
Definition read_state (now : string) (w : World) : option (State * World) :=
  match _read_state_unlocked now (state_file w) with
  | Some (st, f) =>
      Some (st, {| state_file := f; dynamic_file := dynamic_file w |})
  | None => None
  end.

(** The counters [update_state] recomputes. *)
Definition revision_of (m : Meta) : option Z :=
  match m_revision m with
  | Absent => Some 0
  | Val n => Some n
  | Null => None   (* None + 1 raises TypeError *)
  end.

Definition date_app_of (st : State) : StorageProfile :=
  default empty_profile (default ∅ (storage st) !! "date_app").

Definition status_of (r : StorageProfile) : slot string :=
  put (get_default "uninitialized" (s_status r)).

(** [update_state(mutator)]. A mutator returns [None] when it raises. The
    result is [None] when the reading, the mutator or the revision
    arithmetic raises: the document is then not written. The file as the
    reading left it is returned in every case. *)
Definition update_state {R} (clk : clock) (mutator : State -> option (State * R))
    (f : file) : option (State * R) * file :=
  match _read_state_unlocked (t_boot clk) f with
  | None => (None, f)
  | Some (state, f1) =>
  match mutator state with
  | None => (None, f1)
  | Some (state, result) =>
      let ts := t_commit clk in
      let m := default empty_meta (meta state) in
      match revision_of m with
      | None => (None, f1)
      | Some rev =>
          let m' :=
            {| m_created_at :=
                 match m_created_at m with Absent => Val ts | c => c end;
               m_updated_at := Val ts;
               m_revision := Val (rev + 1);
               m_domain_count :=
                 Val (Z.of_nat (length (default [] (domains state))));
               m_agent_count :=
                 Val (Z.of_nat (size (default ∅ (agents state))));
               m_date_storage_status := status_of (date_app_of state) |} in
          let state' :=
            {| meta := Some m'; domains := domains state;
               storage := storage state; agents := agents state |} in
          (Some (state', result), _write_state_unlocked state' f1)
      end
  end
  end.

(** ** Requests (the pydantic models, with their declared defaults) *)

Record DomainHostRequest : Type := {
  h_domain : string;
  h_target_service : option string;
  h_target_port : option Z;
  h_target_scheme : string;
  h_target_url : option string;
  h_entrypoint : string;
  h_auto_ssl : bool;
  h_redirect_to_https : bool;
  h_notes : option string
}.

Definition DomainHostRequest_defaults (domain : string) : DomainHostRequest :=
  {| h_domain := domain; h_target_service := None; h_target_port := None;
     h_target_scheme := "http"; h_target_url := None; h_entrypoint := "web";
     h_auto_ssl := true; h_redirect_to_https := true; h_notes := None |}.

Record DateStorageRequest : Type := {
  q_storage_engine : string;
  q_primary_region : string;
  q_replicas : Z;
  q_retention_days : Z;
  q_backup_regions : list string;
  q_analytics : bool;
  q_encryption : bool;
  q_notes : option string
}.

Definition DateStorageRequest_defaults : DateStorageRequest :=
  {| q_storage_engine := "postgres"; q_primary_region := "us-east-1";
     q_replicas := 1; q_retention_days := 365; q_backup_regions := [];
     q_analytics := false; q_encryption := true; q_notes := None |}.

Record AgentRegistration : Type := {
  r_name : string;
  r_role : string;
  r_rights : string;
  r_status : string;
  r_endpoint : option string;
  r_capabilities : list string;
  r_domains : list string
}.

Definition AgentRegistration_defaults (name : string) : AgentRegistration :=
  {| r_name := name; r_role := "generalist"; r_rights := "member";
     r_status := "active"; r_endpoint := None; r_capabilities := [];
     r_domains := [] |}.

Record AgentCreate : Type := { c_name : string }.

Inductive request : Type :=
| HostDomain (p : DomainHostRequest)
| SetupStorage (p : DateStorageRequest)
| RegisterAgent (p : AgentRegistration)
| AgentsCreate (p : AgentCreate).

(** ** The Dynamic Configuration Generator *)

(** The loop state of [_write_domain_dynamic_config]. *)
Record gen_state : Type := {
  lines : list string;
  routers_written : bool;
  service_urls : gmap string (gset string)
}.

(** [domain.replace(".", "-")] *)
Definition dashed (domain : string) : string :=
  Py.replace_char "." "-" domain.

(** The names and the URL the loop body computes for a record whose
    [domain] is the non-empty string [domain]. *)
Definition router_name_of (entry : DomainRecord) (domain : string) : string :=
  fmt_str (or_str (get (d_router_name entry)) (Some (dashed domain))).

Definition service_name_of (entry : DomainRecord) (domain : string) : string :=
  fmt_str
    (or_str (get (d_service_name entry))
       (or_str (get (d_target_service entry))
          (Some ("svc-" +:+
             fmt_str (get_default (router_name_of entry domain) (d_id entry)))))).

Definition entrypoint_of (entry : DomainRecord) : string :=
  fmt_str
    (or_str (get (d_entrypoint entry))
       (Some (if truthy_bool (get (d_auto_ssl entry)) then "websecure"
              else "web"))).

Definition url_of (entry : DomainRecord) : string :=
  let target_url := get (d_target_url entry) in
  if truthy_str target_url then Py.rstrip_slash (fmt_str target_url)
  else
    let scheme := get_default "http" (d_target_scheme entry) in
    let service_host := get_default "twinboss_api" (d_target_service entry) in
    let port :=
      or_int (get (d_target_port entry))
        (Some (SERVICE_DEFAULT_PORTS_get service_host 80)) in
    fmt_str scheme +:+ "://" +:+ fmt_str service_host +:+ ":" +:+ fmt_int port.

(** [service_urls.setdefault(name, set()).add(url)] *)
Definition add_url (name url : string) (m : gmap string (gset string))
    : gmap string (gset string) :=
  <[ name := {[ url ]} ∪ default ∅ (m !! name) ]> m.

(** One iteration of [for entry in domains or []]. *)
Definition gen_step (g : gen_state) (entry : DomainRecord) : gen_state :=
  let domain := get (d_domain entry) in
  if negb (truthy_str domain) then g
  else
    let domain := fmt_str domain in
    let router_name := router_name_of entry domain in
    let service_name := service_name_of entry domain in
    let entrypoint := entrypoint_of entry in
    {| lines :=
         lines g
         ++ [ "    " +:+ router_name +:+ ":";
              "      rule: Host(`" +:+ domain +:+ "`)";
              "      entryPoints:";
              "        - " +:+ entrypoint;
              "      service: " +:+ service_name ]
         ++ (if truthy_bool (get (d_redirect_to_https entry))
                && negb (String.eqb entrypoint "websecure")
             then [ "      middlewares:"; "        - redirect-to-https" ]
             else []);
       routers_written := true;
       service_urls := add_url service_name (url_of entry) (service_urls g) |}.

(** The lines of one backend definition. *)
Definition service_lines (item : string * gset string) : list string :=
  [ "    " +:+ item.1 +:+ ":";
    "      loadBalancer:";
    "        servers:" ]
  ++ map (fun url => "          - url: " +:+ Py.dquote +:+ url +:+ Py.dquote)
       (sorted_set item.2).

(** [sorted(service_urls.items())]: the names are distinct, so the order
    of the pairs is the order of the names. *)
Definition sorted_items (m : gmap string (gset string))
    : list (string * gset string) :=
  sorted_by fst (map_to_list m).

Definition middleware_needed (domains : list DomainRecord) : bool :=
  existsb (fun d => truthy_bool (get (d_redirect_to_https d))) domains.

(** [for entry in domains or []: ...], from the lines written so far. *)
Definition gen_loop (header : list string) (domains : list DomainRecord)
    : gen_state :=
  fold_left gen_step domains
    {| lines := header; routers_written := false; service_urls := ∅ |}.

Definition gen_lines (domains : list DomainRecord) : list string :=
  let header :=
    [ "http:" ]
    ++ (if middleware_needed domains
        then [ "  middlewares:";
               "    redirect-to-https:";
               "      redirectScheme:";
               "        scheme: https";
               "        permanent: true" ]
        else [])
    ++ [ "  routers:" ] in
  let g := gen_loop header domains in
  lines g
  ++ (if routers_written g then []
      else [ "    placeholder:";
             "      rule: HostRegexp(`{any:.+}`)";
             "      service: noop" ])
  ++ [ "  services:" ]
  ++ (if decide (service_urls g = ∅)
      then [ "    noop:";
             "      loadBalancer:";
             "        servers:";
             "          - url: " +:+ Py.dquote +:+ "http://127.0.0.1:9000"
               +:+ Py.dquote ]
      else concat (map service_lines (sorted_items (service_urls g)))).

(** [_write_domain_dynamic_config]: the text written to the artifact. *)
Definition _write_domain_dynamic_config (domains : list DomainRecord) : string :=
  Py.join Py.nl (gen_lines domains) +:+ Py.nl.

(** ** The Domain Normalizer *)

(** [_slugify]: the hyphen-joined alphanumeric segments of the lowercased
    name, or a name made from the time when there is none. The classes
    and the lowercasing are those of ASCII: the definition is the source
    function on ASCII names ([ascii_text]), which is where the properties
    of slugs are stated. *)
Definition slug_core (name : string) : string :=
  let slug :=
    Py.map_chars (fun c => if Py.isalnum c then c else "-"%char)
      (Py.lower name) in
  let parts := filter (fun seg => Py.nonempty seg = true) (Py.split "-" slug) in
  Py.join "-" parts.

Definition _slugify (now : Z) (name : string) : string :=
  let core := slug_core name in
  if Py.nonempty core then core else "agent-" +:+ Py.str_int now.

Section Model.

(** [hashlib.blake2s(s.encode("utf-8"), digest_size=6).hexdigest()] *)
Variable blake2s_hex6 : string -> string.

(** The check [urllib.parse] makes on a network location that holds both
    brackets (an IP literal): the message of the [ValueError] it raises,
    if any. *)
Variable check_bracketed_netloc : string -> option string.

(** The network location [urlsplit] extracts (CPython 3.12). *)
Definition scheme_char (c : ascii) : bool :=
  Py.isalnum c || Py.has_char c "+-.".

Fixpoint all_chars (p : ascii -> bool) (s : string) : bool :=
  match s with
  | EmptyString => true
  | String c s' => p c && all_chars p s'
  end.

Fixpoint until_delim (s : string) : string :=
  match s with
  | EmptyString => EmptyString
  | String c s' =>
      if Py.has_char c "/?#" then EmptyString else String c (until_delim s')
  end.

Definition urlsplit_netloc (url : string) : outcome string :=
  let url := Py.lstrip_by (fun c => (Py.code c <=? 32)%nat) url in
  let url :=
    Py.remove_char (fun c => Py.has_char c
      (String (ascii_of_nat 9) (String (ascii_of_nat 13) Py.nl))) url in
  let url :=
    match Py.partition ":" url with
    | (String c pre, true, rest) =>
        if Py.is_alpha c && all_chars scheme_char pre then rest else url
    | _ => url
    end in
  match url with
  | String "/" (String "/" rest) =>
      let netloc := until_delim rest in
      if xorb (Py.has_char "[" netloc) (Py.has_char "]" netloc)
      then ValueError "Invalid IPv6 URL"
      else if Py.has_char "[" netloc
      then match check_bracketed_netloc netloc with
           | Some msg => ValueError msg
           | None => Returns netloc
           end
      else Returns netloc
  | _ => Returns ""
  end.

(** [SplitResult.hostname] *)
Definition hostname_of (netloc : string) : option string :=
  let hostinfo := Py.rpartition_tail "@" netloc in
  let '(_, have_open_br, bracketed) := Py.partition "[" hostinfo in
  let hostname :=
    if have_open_br then (Py.partition "]" bracketed).1.1
    else (Py.partition ":" hostinfo).1.1 in
  if Py.nonempty hostname then
    let '(host, percent, zone) := Py.partition "%" hostname in
    Some (Py.lower host +:+ (if percent then "%" else "") +:+ zone)
  else None.

Definition _normalize_domain (domain : string) : outcome string :=
  if negb (Py.nonempty domain) then ValueError "domain required"
  else
    let candidate := Py.strip domain in
    let candidate :=
      if Py.contains "//" candidate then candidate
      else "http://" +:+ candidate in
    match urlsplit_netloc candidate with
    | ValueError msg => ValueError msg
    | Returns netloc =>
        match hostname_of netloc with
        | None => ValueError ("invalid domain '" +:+ domain +:+ "'")
        | Some host => Returns (Py.lower host)
        end
    end.

Definition _normalize_domains (domains : list string) : list string :=
  let cleaned :=
    omap (fun item =>
            match _normalize_domain item with
            | Returns normalized => Some normalized
            | ValueError _ => None
            end) domains in
  dict_fromkeys (sorted_by id cleaned).

(** ** The mutation handlers *)

(** [domains.sort(key=lambda item: item["domain"])]: [None] when the key
    lookup raises [KeyError], or when two keys are compared and one of
    them is not a string ([TypeError]). *)
Definition domain_key (d : DomainRecord) : string :=
  default "" (get (d_domain d)).

Definition sort_domains (l : list DomainRecord) : option (list DomainRecord) :=
  if negb (forallb (fun d => present (d_domain d)) l) then None
  else if (length l <=? 1)%nat then Some l
  else if forallb (fun d => bool_decide (is_Some (get (d_domain d)))) l
  then Some (sorted_by domain_key l)
  else None.

(** [next((d for d in domains if d.get("domain") == normalized), None)],
    with the position of the record found. *)
Definition find_domain (normalized : string) (l : list DomainRecord)
    : option (nat * DomainRecord) :=
  list_find (fun d => get (d_domain d) = Some normalized) l.

(** [history = record.setdefault("history", []); history.append(e)]:
    [None] when the key holds [null]. *)
Definition append_history (h : slot (list event)) (e : event)
    : option (list event) :=
  match h with
  | Absent => Some [e]
  | Val l => Some (l ++ [e])
  | Null => None
  end.

(** [{"domain": normalized, "id": ..., "created_at": ts, "history": []}] *)
Definition new_domain_record (normalized ts : string) : DomainRecord :=
  {| d_domain := Val normalized;
     d_id := Val (blake2s_hex6 normalized);
     d_created_at := Val ts;
     d_history := Val [];
     d_target_service := Absent; d_target_port := Absent;
     d_target_scheme := Absent; d_target_url := Absent;
     d_entrypoint := Absent; d_auto_ssl := Absent;
     d_redirect_to_https := Absent; d_notes := Absent;
     d_updated_at := Absent; d_service_name := Absent;
     d_router_name := Absent |}.

(** What the mutator of [host_domain] makes of [entry]: the request's
    fields written over it, one history entry appended, and the service
    and router names settled. [None] when a step raises. *)
Definition host_entry (payload : DomainHostRequest) (ts : string)
    (target_service target_url : option string) (target_port : option Z)
    (existing : bool) (entry : DomainRecord) : option DomainRecord :=
  let e :=
    {| action := if existing then "updated" else "provisioned";
       at_time := ts;
       target := put (or_str target_service target_url) |} in
  history ← append_history (d_history entry) e;
  router_name ←
    (if truthy_str (get (d_router_name entry))
     then Some (get (d_router_name entry))
     else match d_domain entry with        (* entry["domain"] *)
          | Val d => Some (Some (dashed d))
          | _ => None
          end);
  Some
    {| d_domain := d_domain entry;
       d_id := d_id entry;
       d_created_at := d_created_at entry;
       d_history := Val history;
       d_target_service := put target_service;
       d_target_port := put target_port;
       d_target_scheme :=
         Val (if Py.nonempty (h_target_scheme payload)
              then h_target_scheme payload else "http");
       d_target_url := put target_url;
       d_entrypoint :=
         Val (if Py.nonempty (h_entrypoint payload)
              then h_entrypoint payload
              else if h_auto_ssl payload then "websecure" else "web");
       d_auto_ssl := Val (h_auto_ssl payload);
       d_redirect_to_https := Val (h_redirect_to_https payload);
       d_notes := put (h_notes payload);
       d_updated_at := Val ts;
       d_service_name :=
         put (or_str target_service (get (d_service_name entry)));
       d_router_name := put router_name |}.

(** The mutator of [host_domain]. The record is built in full before it
    is put in the list: the two assignments the source makes after the
    sort go to the same dict object and leave its sort key alone. A record
    found in the list has a [domain], so it is a non-empty dict and
    [existing or {...}] keeps it. *)
Definition host_domain_mut (payload : DomainHostRequest)
    (normalized ts : string) (target_service target_url : option string)
    (target_port : option Z) (state : State)
    : option (State * DomainRecord) :=
  let doms := default [] (domains state) in
  match find_domain normalized doms with
  | Some (i, existing) =>
      entry ← host_entry payload ts target_service target_url target_port
                true existing;
      doms ← sort_domains (<[ i := entry ]> doms);
      Some ({| meta := meta state; domains := Some doms;
               storage := storage state; agents := agents state |}, entry)
  | None =>
      entry ← host_entry payload ts target_service target_url target_port
                false (new_domain_record normalized ts);
      doms ← sort_domains (doms ++ [entry]);
      Some ({| meta := meta state; domains := Some doms;
               storage := storage state; agents := agents state |}, entry)
  end.

Definition world_with (f : file) (w : World) : World :=
  {| state_file := f; dynamic_file := dynamic_file w |}.

Definition revision_slot (st : State) : slot Z :=
  m_revision (default empty_meta (meta st)).

(** [payload.target_url.rstrip("/") if payload.target_url else None] *)
Definition request_target_url (payload : DomainHostRequest) : option string :=
  if truthy_str (h_target_url payload)
  then Some (Py.rstrip_slash (fmt_str (h_target_url payload)))
  else None.

(** The port the handler settles on: the request's, or the default of the
    target service when a service is named. *)
Definition request_target_port (payload : DomainHostRequest) : option Z :=
  if truthy_str (h_target_service payload)
  then or_int (h_target_port payload)
         (Some (SERVICE_DEFAULT_PORTS_get (h_target_service payload) 80))
  else h_target_port payload.

(** [POST /domains/host] *)
Definition host_domain (clk : clock) (payload : DomainHostRequest)
    (w : World) : response (DomainRecord * slot Z) * World :=
  if negb (truthy_str (h_target_service payload))
     && negb (truthy_str (h_target_url payload))
  then (Rejected "target_service or target_url is required", w)
  else
    match _normalize_domain (h_domain payload) with
    | ValueError msg => (Rejected msg, w)
    | Returns normalized =>
        let target_service := h_target_service payload in
        let target_url := request_target_url payload in
        let target_port := request_target_port payload in
        let ts := t_handler clk in
        match update_state clk
                (host_domain_mut payload normalized ts target_service
                   target_url target_port) (state_file w) with
        | (None, f) => (Crash, world_with f w)
        | (Some (state, record), f) =>
            (Ok (record, revision_slot state),
             {| state_file := f;
                dynamic_file :=
                  Some (_write_domain_dynamic_config
                          (default [] (domains state))) |})
        end
    end.

(** The mutator of [setup_date_storage]. *)
Definition setup_date_storage_mut (payload : DateStorageRequest)
    (ts : string) (state : State) : option (State * StorageProfile) :=
  let storage0 := default ∅ (storage state) in
  let record :=
    match storage0 !! "date_app" with
    | Some r =>
        if profile_truthy r then r
        else {| s_created_at := Val ts; s_storage_engine := Absent;
                s_primary_region := Absent; s_replicas := Absent;
                s_retention_days := Absent; s_backup_regions := Absent;
                s_analytics := Absent; s_encryption := Absent;
                s_notes := Absent; s_status := Absent;
                s_updated_at := Absent |}
    | None =>
        {| s_created_at := Val ts; s_storage_engine := Absent;
           s_primary_region := Absent; s_replicas := Absent;
           s_retention_days := Absent; s_backup_regions := Absent;
           s_analytics := Absent; s_encryption := Absent;
           s_notes := Absent; s_status := Absent;
           s_updated_at := Absent |}
    end in
  let record :=
    {| s_created_at := s_created_at record;
       s_storage_engine := Val (q_storage_engine payload);
       s_primary_region := Val (q_primary_region payload);
       s_replicas := Val (q_replicas payload);
       s_retention_days := Val (q_retention_days payload);
       s_backup_regions := Val (q_backup_regions payload);
       s_analytics := Val (q_analytics payload);
       s_encryption := Val (q_encryption payload);
       s_notes := put (q_notes payload);
       s_status := Val "ready";
       s_updated_at := Val ts |} in
  Some ({| meta := meta state; domains := domains state;
           storage := Some (<[ "date_app" := record ]> storage0);
           agents := agents state |}, record).

(** [POST /storage/date/setup] *)
Definition setup_date_storage (clk : clock) (payload : DateStorageRequest)
    (w : World) : response (StorageProfile * slot Z) * World :=
  let ts := t_handler clk in
  match update_state clk (setup_date_storage_mut payload ts)
          (state_file w) with
  | (None, f) => (Crash, world_with f w)
  | (Some (state, record), f) =>
      (Ok (record, revision_slot state), world_with f w)
  end.

(** [agents.get(slug) or {"created_at": ts, "history": []}] *)
Definition agent_or_new (ts : string) (r : option AgentRecord) : AgentRecord :=
  let fresh :=
    {| a_created_at := Val ts; a_history := Val []; a_name := Absent;
       a_slug := Absent; a_role := Absent; a_rights := Absent;
       a_status := Absent; a_endpoint := Absent;
       a_capabilities := Absent; a_domains := Absent;
       a_updated_at := Absent |} in
  match r with
  | Some r => if agent_truthy r then r else fresh
  | None => fresh
  end.

(** The mutator of [register_agent]. *)
Definition register_agent_mut (payload : AgentRegistration) (now : Z)
    (name ts : string) (capabilities normalized_domains : list string)
    (state : State) : option (State * AgentRecord) :=
  let agents0 := default ∅ (agents state) in
  let slug := _slugify now name in
  let record := agent_or_new ts (agents0 !! slug) in
  history ←
    append_history (a_history record)
      {| action := "registered"; at_time := ts; target := Absent |};
  let record :=
    {| a_created_at := a_created_at record;
       a_history := Val history;
       a_name := Val name;
       a_slug := Val slug;
       a_role := Val (r_role payload);
       a_rights := Val (r_rights payload);
       a_status := Val (r_status payload);
       a_endpoint := put (r_endpoint payload);
       a_capabilities := Val capabilities;
       a_domains := Val normalized_domains;
       a_updated_at := Val ts |} in
  Some ({| meta := meta state; domains := domains state;
           storage := storage state;
           agents := Some (<[ slug := record ]> agents0) |}, record).

(** [sorted(set(cap.strip().lower() for cap in caps if cap.strip()))],
    with the stripping and the lowercasing of ASCII: the source
    expression on ASCII capabilities ([ascii_text]). *)
Definition normalize_capabilities (caps : list string) : list string :=
  sorted_set
    (list_to_set
       (map (fun cap => Py.lower (Py.strip cap))
          (filter (fun cap => Py.nonempty (Py.strip cap) = true) caps))).

(** [POST /agents/register] *)
Definition register_agent (clk : clock) (payload : AgentRegistration)
    (w : World) : response AgentRecord * World :=
  let name := Py.strip (r_name payload) in
  if negb (Py.nonempty name) then (Rejected "name is required", w)
  else
    let normalized_domains := _normalize_domains (r_domains payload) in
    let capabilities := normalize_capabilities (r_capabilities payload) in
    let ts := t_handler clk in
    match update_state clk
            (register_agent_mut payload (t_unix clk) name ts capabilities
               normalized_domains) (state_file w) with
    | (None, f) => (Crash, world_with f w)
    | (Some (_, record), f) => (Ok record, world_with f w)
    end.

(** The mutator of [agents_create]. *)
Definition agents_create_mut (now : Z) (n ts : string) (state : State)
    : option (State * AgentRecord) :=
  let agents0 := default ∅ (agents state) in
  let slug := _slugify now n in
  let record := agent_or_new ts (agents0 !! slug) in
  let record :=                                   (* record.update({...}) *)
    {| a_created_at := a_created_at record;
       a_history := a_history record;
       a_name := Val n;
       a_slug := Val slug;
       a_role := Val "generalist";
       a_rights := Val "admin";
       a_status := Val "ready";
       a_endpoint := a_endpoint record;
       a_capabilities := put (get_default [] (a_capabilities record));
       a_domains := put (get_default [] (a_domains record));
       a_updated_at := Val ts |} in
  history ←
    append_history (a_history record)
      {| action := "ensure-admin"; at_time := ts; target := Absent |};
  let record :=                                   (* history.append(...) *)
    {| a_created_at := a_created_at record;
       a_history := Val history;
       a_name := a_name record;
       a_slug := a_slug record;
       a_role := a_role record;
       a_rights := a_rights record;
       a_status := a_status record;
       a_endpoint := a_endpoint record;
       a_capabilities := a_capabilities record;
       a_domains := a_domains record;
       a_updated_at := a_updated_at record |} in
  Some ({| meta := meta state; domains := domains state;
           storage := storage state;
           agents := Some (<[ slug := record ]> agents0) |}, record).

(** [POST /agents/create] *)
Definition agents_create (clk : clock) (body : AgentCreate) (w : World)
    : response AgentRecord * World :=
  let n :=
    if Py.nonempty (Py.strip (c_name body)) then Py.strip (c_name body)
    else "agent-" +:+ Py.str_int (t_unix clk) in
  let ts := t_handler clk in
  match update_state clk (agents_create_mut (t_unix clk) n ts)
          (state_file w) with
  | (None, f) => (Crash, world_with f w)
  | (Some (_, agent), f) => (Ok agent, world_with f w)
  end.

(** ** Start-up: the state file and the domains of the environment *)

(** [_ensure_state_file]: whatever the reading raises is caught here
    ([except Exception]) and the default document is written. *)
Definition _ensure_state_file (now : string) (f : file) : file :=
  match f with
  | Missing => _write_state_unlocked (_default_state now) f
  | _ =>
      match _read_state_unlocked now f with
      | Some (_, f1) => f1
      | None => _write_state_unlocked (_default_state now) f
      end
  end.

(** The part of [os.environ] the program reads: the value of [DOMAINS]
    and the values of the variables whose names start with [DOMAIN_]. *)
Record environ : Type := {
  env_DOMAINS : string;
  env_DOMAIN_values : list string
}.

(** [_collect_domains_from_env]. The candidate strings form a set, which
    is walked in some order; the result is sorted, so the order does not
    show. *)
Definition _collect_domains_from_env (env : environ) : list string :=
  let stripped (l : list string) : list string :=
    filter (fun host => Py.nonempty host = true) (map Py.strip l) in
  let candidates : gset string :=
    list_to_set (stripped (Py.split "," (env_DOMAINS env)))
    ∪ list_to_set (stripped (env_DOMAIN_values env)) in
  let normalized :=
    omap (fun item =>
            match _normalize_domain item with
            | Returns host => Some host
            | ValueError _ => None
            end) (elements candidates) in
  sorted_by id (dict_fromkeys normalized).

(** The record [seed_domains_from_env] makes for a hostname. *)
Definition seed_entry (ts domain : string) : DomainRecord :=
  {| d_domain := Val domain;
     d_id := Val (blake2s_hex6 domain);
     d_created_at := Val ts;
     d_history :=
       Val [ {| action := "seeded-env"; at_time := ts;
                target := Val "twinboss_api" |} ];
     d_target_service := Val "twinboss_api";
     d_target_port := Val (SERVICE_DEFAULT_PORTS_get (Some "twinboss_api") 9000);
     d_target_scheme := Val "http";
     d_target_url := Null;
     d_entrypoint := Val "web";
     d_auto_ssl := Val true;
     d_redirect_to_https := Val true;
     d_notes := Absent;
     d_updated_at := Val ts;
     d_service_name := Val "twinboss_api";
     d_router_name := Val (dashed domain) |}.

(** The mutator of [seed_domains_from_env]. *)
Definition seed_mut (ts : string) (missing : list string) (state : State)
    : option (State * list string) :=
  let domain_list := default [] (domains state) ++ map (seed_entry ts) missing in
  domain_list ← sort_domains domain_list;
  Some ({| meta := meta state; domains := Some domain_list;
           storage := storage state; agents := agents state |}, missing).

(** The hostnames of the stored records:
    [{entry.get("domain") for entry in ... if entry.get("domain")}] *)
Definition existing_hosts (l : list DomainRecord) : list string :=
  omap (fun entry =>
          if truthy_str (get (d_domain entry)) then get (d_domain entry)
          else None) l.

(** [seed_domains_from_env]. The snapshot is read with the time
    [t_boot]; so is the document [update_state] reads, which is the same
    one. *)
Definition seed_domains_from_env (clk : clock) (env : environ) (w : World)
    : response unit * World :=
  let collected := _collect_domains_from_env env in
  match collected with
  | [] => (Ok (), w)
  | _ =>
      match read_state (t_boot clk) w with
      | None => (Crash, w)
      | Some (snapshot, w) =>
      let existing := existing_hosts (default [] (domains snapshot)) in
      let missing := filter (fun d => d ∉ existing) collected in
      match missing with
      | [] => (Ok (), w)
      | _ =>
          let ts := t_handler clk in
          match update_state clk (seed_mut ts missing) (state_file w) with
          | (None, f) => (Crash, world_with f w)
          | (Some (state, _), f) =>
              (Ok (),
               {| state_file := f;
                  dynamic_file :=
                    Some (_write_domain_dynamic_config
                            (default [] (domains state))) |})
          end
      end
      end
  end.

(** ** The read handlers *)

(** [GET /domains] *)
Definition list_domains (now : string) (w : World)
    : response (list DomainRecord * slot Z) * World :=
  match read_state now w with
  | None => (Crash, w)
  | Some (state, w) =>
      (Ok (default [] (domains state), revision_slot state), w)
  end.

(** [GET /storage/date] *)
Definition get_date_storage (now : string) (w : World)
    : response StorageProfile * World :=
  match read_state now w with
  | None => (Crash, w)
  | Some (state, w) =>
      (Ok (default
             {| s_created_at := Absent; s_storage_engine := Absent;
                s_primary_region := Absent; s_replicas := Absent;
                s_retention_days := Absent; s_backup_regions := Absent;
                s_analytics := Absent; s_encryption := Absent;
                s_notes := Absent;
                s_status := Val "uninitialized"; s_updated_at := Absent |}
             (default ∅ (storage state) !! "date_app")), w)
  end.

(** ** Sequences of mutation requests *)

(** One request: whether it succeeded, and the files afterwards. *)
Definition handle (clk : clock) (rq : request) (w : World) : bool * World :=
  match rq with
  | HostDomain p => let '(r, w') := host_domain clk p w in (is_ok r, w')
  | SetupStorage p =>
      let '(r, w') := setup_date_storage clk p w in (is_ok r, w')
  | RegisterAgent p => let '(r, w') := register_agent clk p w in (is_ok r, w')
  | AgentsCreate p => let '(r, w') := agents_create clk p w in (is_ok r, w')
  end.

(** The requests in order: whether all of them succeeded, and the files
    after the last one. *)
Fixpoint run (rqs : list (clock * request)) (w : World) : bool * World :=
  match rqs with
  | [] => (true, w)
  | (clk, rq) :: rest =>
      let '(ok, w1) := handle clk rq w in
      let '(oks, w2) := run rest w1 in
      (ok && oks, w2)
  end.


(** * Vocabulary of the properties *)

(** Order of two records by their sort keys. *)
Definition key_le {A} (key : A -> string) (a b : A) : Prop :=
  String.le (key a) (key b).

Definition key_lt {A} (key : A -> string) (a b : A) : Prop :=
  strict String.le (key a) (key b).

(** The document a reading works on. When the reading raises there is
    none; the default document stands in, and no result depends on it. *)
Definition document_of (now : string) (f : file) : State :=
  match _read_state_unlocked now f with
  | Some (st, _) => st
  | None => _default_state now
  end.

(** The file as a reading leaves it. *)
Definition file_read (now : string) (f : file) : file :=
  match _read_state_unlocked now f with
  | Some (_, f1) => f1
  | None => f
  end.

(** The collections of the stored document; a missing or unreadable file
    stands for the empty document. *)
Definition file_domains (f : file) : list DomainRecord :=
  match f with
  | Persisted st => default [] (domains st)
  | _ => []
  end.

Definition file_agents (f : file) : gmap string AgentRecord :=
  match f with
  | Persisted st => default ∅ (agents st)
  | _ => ∅
  end.

(** A mutator that leaves the meta block to [update_state]. *)
Definition keeps_meta {R} (mutator : State -> option (State * R)) : Prop :=
  forall s s' r, mutator s = Some (s', r) -> meta s' = meta s.

(** Every record has a hostname, and the hostnames strictly increase. *)
Definition has_host (d : DomainRecord) : Prop := is_Some (get (d_domain d)).

Definition sorted_unique (l : list DomainRecord) : Prop :=
  Forall has_host l /\ StronglySorted (key_lt domain_key) l.

(** The records of a hostname. *)
Definition records_for (host : string) (l : list DomainRecord)
    : list DomainRecord :=
  filter (fun d => get (d_domain d) = Some host) l.

(** ** Sample inputs *)

Definition sample_clock : clock :=
  {| t_handler := "2024-05-01T10:00:01Z"; t_boot := "2024-05-01T10:00:00Z";
     t_commit := "2024-05-01T10:00:02Z"; t_unix := 1714557600 |}.

Definition later_clock : clock :=
  {| t_handler := "2024-05-01T10:00:06Z"; t_boot := "2024-05-01T10:00:05Z";
     t_commit := "2024-05-01T10:00:07Z"; t_unix := 1714557605 |}.

(** Stand-ins for the two library functions the model is parametric in. *)
Definition sample_digest (s : string) : string := "0a1b2c3d4e5f".
Definition no_bracket_error (netloc : string) : option string := None.

Definition fresh_world : World :=
  {| state_file := Missing; dynamic_file := None |}.

Definition booted_world : World :=
  {| state_file := Persisted (_default_state "2024-05-01T09:00:00Z");
     dynamic_file := None |}.

(** [host_domain(domain="shop.example.com", target_service="twinboss_api",
    auto_ssl=true, redirect_to_https=true)], the other fields at their
    declared defaults. *)
Definition shop_request : DomainHostRequest :=
  {| h_domain := "shop.example.com"; h_target_service := Some "twinboss_api";
     h_target_port := None; h_target_scheme := "http"; h_target_url := None;
     h_entrypoint := "web"; h_auto_ssl := true; h_redirect_to_https := true;
     h_notes := None |}.

Definition host_request (domain : string) : DomainHostRequest :=
  {| h_domain := domain; h_target_service := Some "twinboss_api";
     h_target_port := None; h_target_scheme := "http"; h_target_url := None;
     h_entrypoint := "web"; h_auto_ssl := true; h_redirect_to_https := true;
     h_notes := None |}.

Definition sample_requests : list (clock * request) :=
  [ (sample_clock, HostDomain shop_request);
    (later_clock, SetupStorage DateStorageRequest_defaults);
    (later_clock, RegisterAgent (AgentRegistration_defaults "Ops Bot!")) ].

(** [r] with its [updated_at] and [history] replaced, every other field
    kept. *)
Definition touched (ts : string) (h : list event) (r : DomainRecord)
    : DomainRecord :=
  {| d_domain := d_domain r; d_id := d_id r; d_created_at := d_created_at r;
     d_history := Val h;
     d_target_service := d_target_service r;
     d_target_port := d_target_port r;
     d_target_scheme := d_target_scheme r;
     d_target_url := d_target_url r;
     d_entrypoint := d_entrypoint r;
     d_auto_ssl := d_auto_ssl r;
     d_redirect_to_https := d_redirect_to_https r;
     d_notes := d_notes r;
     d_updated_at := Val ts;
     d_service_name := d_service_name r;
     d_router_name := d_router_name r |}.

(** The lines of the artifact that holds only the placeholder router and
    the static default backend, with or without the middleware block. *)
Definition placeholder_lines (middleware : bool) : list string :=
  [ "http:" ]
  ++ (if middleware
      then [ "  middlewares:";
             "    redirect-to-https:";
             "      redirectScheme:";
             "        scheme: https";
             "        permanent: true" ]
      else [])
  ++ [ "  routers:";
       "    placeholder:";
       "      rule: HostRegexp(`{any:.+}`)";
       "      service: noop";
       "  services:";
       "    noop:";
       "      loadBalancer:";
       "        servers:";
       "          - url: " +:+ Py.dquote +:+ "http://127.0.0.1:9000"
         +:+ Py.dquote ].

(** A record the generator skips: no [domain], or an empty one. *)
Definition no_hostname (d : DomainRecord) : Prop :=
  truthy_str (get (d_domain d)) = false.

Definition nameless_record : DomainRecord :=
  {| d_domain := Null; d_id := Absent; d_created_at := Absent;
     d_history := Absent; d_target_service := Val "fastmcp";
     d_target_port := Absent; d_target_scheme := Absent;
     d_target_url := Absent; d_entrypoint := Absent; d_auto_ssl := Absent;
     d_redirect_to_https := Val true; d_notes := Absent;
     d_updated_at := Absent; d_service_name := Absent;
     d_router_name := Absent |}.

(** A state file as the bootstrap finds it: none yet, one whose text is
    not valid JSON (replaced by the default document on the first read),
    or the default document itself. *)
Definition bootstrapped (f : file) : Prop :=
  f = Missing \/ f = InvalidJson
  \/ exists now, f = Persisted (_default_state now).

(** The storage profile of the stored document. *)
Definition file_profile (f : file) : option StorageProfile :=
  match f with
  | Persisted st => default ∅ (storage st) !! "date_app"
  | _ => None
  end.

(** The files after the recovery of a state file that is not valid
    JSON: the default document made at the time of the read is stored. *)
Definition recovered (clk : clock) (w : World) : World :=
  {| state_file := Persisted (_default_state (t_boot clk));
     dynamic_file := dynamic_file w |}.

(** A handler run on [w] answers as it does on [w0], never with an
    uncaught exception, and when it succeeds it leaves the same files. *)
Definition answers_as {A} (h : World -> response A * World) (w w0 : World)
    : Prop :=
  (h w).1 = (h w0).1
  /\ (h w).1 <> Crash
  /\ (is_ok (h w).1 = true -> (h w).2 = (h w0).2).

Definition corrupt_world : World :=
  {| state_file := InvalidJson; dynamic_file := None |}.

(** The union, as a sorted list, of two lists of strings taken as sets. *)
Definition sorted_union (stored supplied : list string) : list string :=
  sorted_set (list_to_set stored ∪ list_to_set supplied).

(** Text of ASCII characters: on it [Py.isalnum], [Py.isspace] and
    [Py.lower] are Python's [str.isalnum], [str.isspace] and
    [str.lower]. *)
Definition ascii_text (s : string) : bool :=
  all_chars (fun c => (Py.code c <? 128)%nat) s.

(** Whether a name has an alphanumeric character. *)
Fixpoint has_alnum (s : string) : bool :=
  match s with
  | EmptyString => false
  | String c s' => Py.isalnum c || has_alnum s'
  end.

Definition registration (name : string) (capabilities domains : list string)
    : AgentRegistration :=
  {| r_name := name; r_role := "generalist"; r_rights := "member";
     r_status := "active"; r_endpoint := None;
     r_capabilities := capabilities; r_domains := domains |}.

(** ** The parts of the artifact *)

(** The router entry the generator writes for one record: nothing for a
    record without a hostname. *)
Definition router_lines (entry : DomainRecord) : list string :=
  let domain := get (d_domain entry) in
  if negb (truthy_str domain) then []
  else
    let domain := fmt_str domain in
    let entrypoint := entrypoint_of entry in
    [ "    " +:+ router_name_of entry domain +:+ ":";
      "      rule: Host(`" +:+ domain +:+ "`)";
      "      entryPoints:";
      "        - " +:+ entrypoint;
      "      service: " +:+ service_name_of entry domain ]
    ++ (if truthy_bool (get (d_redirect_to_https entry))
           && negb (String.eqb entrypoint "websecure")
        then [ "      middlewares:"; "        - redirect-to-https" ]
        else []).

(** What one record adds to the URL sets of the backends. *)
Definition urls_step (m : gmap string (gset string)) (entry : DomainRecord)
    : gmap string (gset string) :=
  let domain := get (d_domain entry) in
  if negb (truthy_str domain) then m
  else add_url (service_name_of entry (fmt_str domain)) (url_of entry) m.

(** The backends of a list of records. *)
Definition backends (l : list DomainRecord) : gmap string (gset string) :=
  fold_left urls_step l ∅.

(** [block] occurs in [l] as a run of consecutive elements. *)
Definition infix_of {A} (block l : list A) : Prop :=
  exists pre post, l = pre ++ block ++ post.

Definition middleware_block : list string :=
  [ "  middlewares:";
    "    redirect-to-https:";
    "      redirectScheme:";
    "        scheme: https";
    "        permanent: true" ].

Definition url_line (url : string) : string :=
  "          - url: " +:+ Py.dquote +:+ url +:+ Py.dquote.

Definition backend_block (name : string) (urls : list string) : list string :=
  [ "    " +:+ name +:+ ":"; "      loadBalancer:"; "        servers:" ]
  ++ map url_line urls.

(** A record as [host_domain] writes it for a service target. *)
Definition service_record (host service : string) (port : Z) : DomainRecord :=
  {| d_domain := Val host; d_id := Val "0a1b2c3d4e5f";
     d_created_at := Val "2024-05-01T10:00:01Z";
     d_history :=
       Val [ {| action := "provisioned"; at_time := "2024-05-01T10:00:01Z";
                target := Val service |} ];
     d_target_service := Val service; d_target_port := Val port;
     d_target_scheme := Val "http"; d_target_url := Null;
     d_entrypoint := Val "web"; d_auto_ssl := Val true;
     d_redirect_to_https := Val true; d_notes := Null;
     d_updated_at := Val "2024-05-01T10:00:01Z";
     d_service_name := Val service; d_router_name := Val (dashed host) |}.

(** The router entry of [shop.example.com] as the scenario request leaves
    it: on the [web] entry point, with the redirect middleware attached. *)
Definition shop_router_block (router_name : string) : list string :=
  [ "    " +:+ router_name +:+ ":";
    "      rule: Host(`shop.example.com`)";
    "      entryPoints:";
    "        - web";
    "      service: twinboss_api";
    "      middlewares:";
    "        - redirect-to-https" ].

(** The artifact after the scenario request on a fresh store. *)
Definition shop_lines : list string :=
  [ "http:" ] ++ middleware_block ++ [ "  routers:" ]
  ++ shop_router_block "shop-example-com"
  ++ [ "  services:" ]
  ++ backend_block "twinboss_api" [ "http://twinboss_api:9000" ].

Definition shop_artifact : string := Py.join Py.nl shop_lines +:+ Py.nl.

Definition record_a : DomainRecord :=
  service_record "a.example.com" "twinboss_api" 9000.
Definition record_b : DomainRecord :=
  service_record "b.example.com" "fastmcp" 8080.

(** ** Classes of characters and strings *)

(** No character of [s] separates a host from a path, a query, a
    fragment or user information. *)
Definition delimiter_free (s : string) : bool :=
  all_chars (fun c => negb (Py.has_char c "/?#@")) s.

(** A hostname of letters, digits, hyphens and dots. *)
Definition host_char (c : ascii) : bool :=
  Py.isalnum c || Py.has_char c "-.".

Definition plain_host (h : string) : bool :=
  Py.nonempty h && all_chars host_char h.

(** A URL scheme: a letter, then letters, digits, [+], [-] and [.]. *)
Definition is_scheme (s : string) : bool :=
  match s with
  | String c pre => Py.is_alpha c && all_chars scheme_char pre
  | EmptyString => false
  end.

(** A path that may follow the host: nothing, or [/] and then characters
    that are neither blank nor control characters. *)
Definition visible (c : ascii) : bool := (33 <=? Py.code c)%nat.

Definition path_tail (t : string) : bool :=
  match t with
  | EmptyString => true
  | String c t' => Ascii.eqb c "/" && all_chars visible t'
  end.

(** ** Counting and the meta block *)

(** How many of the requests, taken in order, succeed. *)
Fixpoint count_ok (rqs : list (clock * request)) (w : World) : nat :=
  match rqs with
  | [] => 0
  | (clk, rq) :: rest =>
      let '(ok, w1) := handle clk rq w in
      ((if ok then 1 else 0) + count_ok rest w1)%nat
  end.

(** The meta block agrees with the document it heads, and was written at
    the time [ts]. *)
Definition meta_consistent (ts : string) (st : State) : Prop :=
  exists m,
    meta st = Some m
    /\ m_updated_at m = Val ts
    /\ m_domain_count m = Val (Z.of_nat (length (default [] (domains st))))
    /\ m_agent_count m = Val (Z.of_nat (size (default ∅ (agents st))))
    /\ m_date_storage_status m = status_of (date_app_of st).

(** The [created_at] of the meta block of a document. *)
Definition meta_created_at (st : State) : slot string :=
  m_created_at (default empty_meta (meta st)).

(** A character of a slug: a lower-case letter, a digit or a hyphen. *)
Definition slug_char (c : ascii) : bool :=
  Py.is_lower c || Py.is_digit c || Ascii.eqb c "-".

(** ** Agents and storage *)

(** The name [agents_create] works with: the stripped name, or a name
    made from the time when that is empty. *)
Definition created_name (clk : clock) (body : AgentCreate) : string :=
  if Py.nonempty (Py.strip (c_name body)) then Py.strip (c_name body)
  else "agent-" +:+ Py.str_int (t_unix clk).

(** The storage table of the stored document. *)
Definition file_storage (f : file) : gmap string StorageProfile :=
  match f with
  | Persisted st => default ∅ (storage st)
  | _ => ∅
  end.

(** A profile with another time of update. *)
Definition retimed (ts : string) (r : StorageProfile) : StorageProfile :=
  {| s_created_at := s_created_at r;
     s_storage_engine := s_storage_engine r;
     s_primary_region := s_primary_region r;
     s_replicas := s_replicas r;
     s_retention_days := s_retention_days r;
     s_backup_regions := s_backup_regions r;
     s_analytics := s_analytics r;
     s_encryption := s_encryption r;
     s_notes := s_notes r;
     s_status := s_status r;
     s_updated_at := Val ts |}.

(** ** Documents the handlers can work with *)

(** The revision is a number (or missing), every domain record has a
    hostname and a history that is a list (or missing), and every agent
    record has a history that is a list (or missing). A missing file and
    a file that is not valid JSON stand for the default document; a file
    whose reading raises is not workable. *)
Definition workable (f : file) : Prop :=
  match f with
  | Persisted st =>
      m_revision (default empty_meta (meta st)) <> Null
      /\ Forall (fun d => has_host d /\ d_history d <> Null)
           (default [] (domains st))
      /\ map_Forall (fun _ a => a_history a <> Null) (default ∅ (agents st))
  | Undecodable => False
  | Missing | InvalidJson => True
  end.

(** The answer is an uncaught exception. *)
Definition crashed {A} (r : response A) : bool :=
  match r with Crash => true | _ => false end.

Definition request_crashes (clk : clock) (rq : request) (w : World) : bool :=
  match rq with
  | HostDomain p => crashed (host_domain clk p w).1
  | SetupStorage p => crashed (setup_date_storage clk p w).1
  | RegisterAgent p => crashed (register_agent clk p w).1
  | AgentsCreate p => crashed (agents_create clk p w).1
  end.

(** The text of a request is ASCII. *)
Definition ascii_opt (o : option string) : bool :=
  match o with Some s => ascii_text s | None => true end.

Definition ascii_request (rq : request) : bool :=
  match rq with
  | HostDomain p =>
      ascii_text (h_domain p) && ascii_opt (h_target_service p)
      && ascii_text (h_target_scheme p) && ascii_opt (h_target_url p)
      && ascii_text (h_entrypoint p) && ascii_opt (h_notes p)
  | SetupStorage p =>
      ascii_text (q_storage_engine p) && ascii_text (q_primary_region p)
      && forallb ascii_text (q_backup_regions p) && ascii_opt (q_notes p)
  | RegisterAgent p =>
      ascii_text (r_name p) && ascii_text (r_role p)
      && ascii_text (r_rights p) && ascii_text (r_status p)
      && ascii_opt (r_endpoint p) && forallb ascii_text (r_capabilities p)
      && forallb ascii_text (r_domains p)
  | AgentsCreate body => ascii_text (c_name body)
  end.

(** None of the requests, taken in order, ends in an uncaught
    exception. *)
Fixpoint crash_free (rqs : list (clock * request)) (w : World) : bool :=
  match rqs with
  | [] => true
  | (clk, rq) :: rest =>
      negb (request_crashes clk rq w) && crash_free rest (handle clk rq w).2
  end.

(** ** The artifact, part by part *)

(** The lines up to the services part, for a list in which some record
    has a hostname: the header, the middleware block when a record asks
    for the redirect, and the router entries in the order of the list. *)
Definition routers_part (l : list DomainRecord) : list string :=
  [ "http:" ]
  ++ (if middleware_needed l then middleware_block else [])
  ++ [ "  routers:" ]
  ++ flat_map router_lines l.

(** The services part that lists the backends [items], each a name with
    its URLs. *)
Definition services_part (items : list (string * list string))
    : list string :=
  [ "  services:" ]
  ++ flat_map (fun item => backend_block item.1 item.2) items.

(** The backends of a map with their URLs, in the order of the
    generator. *)
Definition listed (m : gmap string (gset string))
    : list (string * list string) :=
  map (fun item => (item.1, sorted_set item.2)) (sorted_items m).

(** * Properties *)

(** ** The stable sort *)

Lemma leb_le (s1 s2 : string) : String.leb s1 s2 = true <-> String.le s1 s2.
Proof. unfold String.le. by rewrite Is_true_true. Qed.

Lemma leb_false_le (s1 s2 : string) :
  String.leb s1 s2 = false -> String.le s2 s1.
Proof.
  intros H. destruct (total String.le s1 s2) as [Hle | Hle]; [| done].
  apply leb_le in Hle. congruence.
Qed.

Lemma insert_by_perm {A} (key : A -> string) x l :
  insert_by key x l ≡ₚ x :: l.
Proof.
  induction l as [| y l IH]; simpl; [done |].
  destruct (String.leb (key x) (key y)); [done |].
  rewrite IH. apply Permutation_swap.
Qed.

Lemma sorted_by_perm {A} (key : A -> string) l : sorted_by key l ≡ₚ l.
Proof.
  induction l as [| x l IH]; simpl; [done |].
  unfold sorted_by in *. simpl. rewrite insert_by_perm. by rewrite IH.
Qed.

Lemma insert_by_sorted {A} (key : A -> string) x l :
  StronglySorted (key_le key) l ->
  StronglySorted (key_le key) (insert_by key x l).
Proof.
  induction 1 as [| y l Hs IH Hall]; simpl.
  - repeat constructor.
  - destruct (String.leb (key x) (key y)) eqn:E.
    + apply leb_le in E. constructor; [by constructor |].
      constructor; [done |].
      eapply Forall_impl; [exact Hall |].
      intros z Hz. unfold key_le in *. by etrans.
    + apply leb_false_le in E. constructor; [done |].
      rewrite insert_by_perm. by constructor.
Qed.

Lemma sorted_by_sorted {A} (key : A -> string) l :
  StronglySorted (key_le key) (sorted_by key l).
Proof.
  induction l as [| x l IH]; [constructor |].
  by apply insert_by_sorted.
Qed.

Lemma sorted_by_fixed {A} (key : A -> string) l :
  StronglySorted (key_le key) l -> sorted_by key l = l.
Proof.
  induction 1 as [| x l Hs IH Hall]; [done |].
  unfold sorted_by in *. simpl. rewrite IH.
  destruct l as [| y l]; [done |]. simpl.
  apply Forall_cons in Hall as [Hxy _]. apply leb_le in Hxy.
  by rewrite Hxy.
Qed.

Lemma key_lt_le {A} (key : A -> string) l :
  StronglySorted (key_lt key) l -> StronglySorted (key_le key) l.
Proof.
  induction 1 as [| x l Hs IH Hall]; constructor; [done |].
  eapply Forall_impl; [exact Hall |]. by intros z [Hz _].
Qed.

Lemma key_lt_NoDup {A} (key : A -> string) l :
  StronglySorted (key_lt key) l -> NoDup (map key l).
Proof.
  induction 1 as [| x l Hs IH Hall]; simpl; constructor; [| done].
  intros Hin. apply list_elem_of_fmap in Hin as (y & Heq & Hy).
  rewrite Forall_forall in Hall. destruct (Hall y Hy) as [H1 H2].
  unfold key_lt in *. rewrite Heq in H2. by apply H2.
Qed.

Lemma key_le_NoDup_lt {A} (key : A -> string) l :
  StronglySorted (key_le key) l -> NoDup (map key l) ->
  StronglySorted (key_lt key) l.
Proof.
  induction 1 as [| x l Hs IH Hall]; simpl; intros Hnd; constructor.
  - apply IH. by apply NoDup_cons in Hnd as [_ ?].
  - apply NoDup_cons in Hnd as [Hx _].
    rewrite Forall_forall in *. intros y Hy. split; [by apply Hall |].
    intros Hyx. apply Hx. apply list_elem_of_fmap. exists y. split; [| done].
    apply (anti_symm String.le); [by apply Hall | done].
Qed.



(** ** The state store *)

Lemma update_state_committed {R} clk (mutator : State -> option (State * R))
    f st r f' :
  update_state clk mutator f = (Some (st, r), f') -> f' = Persisted st.
Proof.
  unfold update_state.
  destruct (_read_state_unlocked _ f) as [[s0 f1] |]; [| congruence].
  destruct (mutator s0) as [[s1 r1] |]; [| congruence].
  destruct (revision_of _); [| congruence].
  unfold _write_state_unlocked. congruence.
Qed.

Lemma update_state_failed {R} clk (mutator : State -> option (State * R))
    st f' :
  update_state clk mutator (Persisted st) = (None, f') -> f' = Persisted st.
Proof.
  unfold update_state. simpl.
  destruct (mutator st) as [[s1 r1] |]; [| congruence].
  destruct (revision_of _); congruence.
Qed.

Lemma update_state_revision {R} clk (mutator : State -> option (State * R))
    st n st' r f' :
  keeps_meta mutator ->
  revision_slot st = Val n ->
  update_state clk mutator (Persisted st) = (Some (st', r), f') ->
  revision_slot st' = Val (n + 1).
Proof.
  intros Hk Hn. unfold update_state. simpl.
  destruct (mutator st) as [[s1 r1] |] eqn:Hm; [| congruence].
  apply Hk in Hm. unfold revision_slot in Hn. rewrite <- Hm in Hn.
  unfold revision_of. rewrite Hn. intros [= <- _ _]. reflexivity.
Qed.

(** What a committed [update_state] did: the document read, the mutator's
    result on it, and the meta block recomputed. *)
Lemma update_state_inv {R} clk (mutator : State -> option (State * R))
    f st r f' :
  update_state clk mutator f = (Some (st, r), f') ->
  exists s1,
    mutator (document_of (t_boot clk) f) = Some (s1, r)
    /\ domains st = domains s1 /\ storage st = storage s1
    /\ agents st = agents s1.
Proof.
  unfold update_state, document_of.
  destruct (_read_state_unlocked _ f) as [[s0 f1] |]; [| congruence].
  destruct (mutator s0) as [[s1 r1] |]; [| congruence].
  destruct (revision_of _); [| congruence].
  intros [= <- <- _]. by exists s1.
Qed.

Lemma host_domain_mut_keeps_meta p host ts tsv turl tport :
  keeps_meta (host_domain_mut p host ts tsv turl tport).
Proof.
  intros s s' r. unfold host_domain_mut. intros H.
  repeat (simplify_option_eq || case_match); done.
Qed.

Lemma setup_date_storage_mut_keeps_meta p ts :
  keeps_meta (setup_date_storage_mut p ts).
Proof. intros s s' r [= <- _]. done. Qed.

Lemma register_agent_mut_keeps_meta p now name ts caps doms :
  keeps_meta (register_agent_mut p now name ts caps doms).
Proof.
  intros s s' r. unfold register_agent_mut. intros H.
  by simplify_option_eq.
Qed.

Lemma agents_create_mut_keeps_meta now n ts :
  keeps_meta (agents_create_mut now n ts).
Proof.
  intros s s' r. unfold agents_create_mut. intros H.
  by simplify_option_eq.
Qed.

(** A successful request on a stored document stores a document whose
    revision is one more. *)
Lemma handle_ok_revision clk rq w w' st n :
  state_file w = Persisted st -> revision_slot st = Val n ->
  handle clk rq w = (true, w') ->
  exists st', state_file w' = Persisted st' /\ revision_slot st' = Val (n + 1).
Proof.
  intros Hf Hn. destruct rq as [p | p | p | p]; simpl.
  - unfold host_domain.
    destruct (_ && _); [by intros [= ]|].
    destruct (_normalize_domain _) as [host | msg]; [| by intros [=]].
    rewrite Hf.
    destruct (update_state _ _ _) as [[[st' r] |] f'] eqn:Hu; [| by intros [=]].
    intros [= <-]. simpl. exists st'. split.
    + by apply update_state_committed in Hu.
    + eapply update_state_revision; [| exact Hn | exact Hu].
      apply host_domain_mut_keeps_meta.
  - unfold setup_date_storage. rewrite Hf.
    destruct (update_state _ _ _) as [[[st' r] |] f'] eqn:Hu; [| by intros [=]].
    intros [= <-]. simpl. exists st'. split.
    + by apply update_state_committed in Hu.
    + eapply update_state_revision; [| exact Hn | exact Hu].
      apply setup_date_storage_mut_keeps_meta.
  - unfold register_agent.
    destruct (negb _); [by intros [=] |]. rewrite Hf.
    destruct (update_state _ _ _) as [[[st' r] |] f'] eqn:Hu; [| by intros [=]].
    intros [= <-]. simpl. exists st'. split.
    + by apply update_state_committed in Hu.
    + eapply update_state_revision; [| exact Hn | exact Hu].
      apply register_agent_mut_keeps_meta.
  - unfold agents_create. rewrite Hf.
    destruct (update_state _ _ _) as [[[st' r] |] f'] eqn:Hu; [| by intros [=]].
    intros [= <-]. simpl. exists st'. split.
    + by apply update_state_committed in Hu.
    + eapply update_state_revision; [| exact Hn | exact Hu].
      apply agents_create_mut_keeps_meta.
Qed.

(** C1. Revision monotonicity: [N] requests that all succeed, issued in
    order on a stored document of revision [R], leave a stored document of
    revision [R + N] (so each successful request adds exactly one); and a
    [host_domain] request that names neither a target service nor a target
    URL is rejected and leaves both files as they were. *)
Theorem revision_monotonicity :
  (forall rqs w w' st R,
      state_file w = Persisted st -> revision_slot st = Val R ->
      run rqs w = (true, w') ->
      exists st', state_file w' = Persisted st'
                  /\ revision_slot st' = Val (R + Z.of_nat (length rqs)))
  /\ (forall clk p w,
         truthy_str (h_target_service p) = false ->
         truthy_str (h_target_url p) = false ->
         exists detail, host_domain clk p w = (Rejected detail, w)).
Proof.
  split.
  - induction rqs as [| [clk rq] rqs IH]; intros w w' st R Hf HR; simpl.
    + intros [= <-]. exists st. split; [done |]. by rewrite Z.add_0_r.
    + destruct (handle clk rq w) as [ok w1] eqn:Hh.
      destruct (run rqs w1) as [oks w2] eqn:Hr.
      intros [= Hok <-]. apply andb_true_iff in Hok as [-> ->].
      destruct (handle_ok_revision _ _ _ _ _ _ Hf HR Hh) as (st1 & Hf1 & HR1).
      destruct (IH _ _ _ _ Hf1 HR1 Hr) as (st2 & Hf2 & HR2).
      exists st2. split; [done |]. rewrite HR2. f_equal. lia.
  - intros clk p w Hs Hu. unfold host_domain.
    rewrite Hs, Hu. simpl. eauto.
Qed.

(** ** The domain collection *)

Lemma host_entry_domain p ts tsv turl tport ex d r :
  host_entry p ts tsv turl tport ex d = Some r -> d_domain r = d_domain d.
Proof. unfold host_entry. intros H. by simplify_option_eq. Qed.

Lemma find_domain_Some host l i d :
  find_domain host l = Some (i, d) -> l !! i = Some d /\ d_domain d = Val host.
Proof.
  unfold find_domain. intros (Hi & Hd & _)%list_find_Some. split; [done |].
  destruct (d_domain d); simpl in Hd; congruence.
Qed.

Lemma find_domain_None host l :
  find_domain host l = None <-> records_for host l = [].
Proof.
  unfold find_domain, records_for. rewrite list_find_None.
  induction l as [| x l IH]; [done |].
  rewrite Forall_cons, filter_cons. case_decide as Hx.
  - split; [by intros [? _] | done].
  - rewrite IH. tauto.
Qed.

Lemma sort_domains_Some l l' x :
  sort_domains l = Some l' -> x ∈ l -> has_host x ->
  l' = sorted_by domain_key l /\ Forall has_host l.
Proof.
  unfold sort_domains. intros H Hx Hh.
  destruct (forallb _ l) eqn:Hp; simpl in H; [| done].
  destruct (length l <=? 1)%nat eqn:Hlen.
  - injection H as <-. apply Nat.leb_le in Hlen.
    destruct l as [| y [| z l]]; simpl in Hlen; [by inv Hx | | lia].
    apply list_elem_of_singleton in Hx as <-. split; [done |].
    by constructor.
  - destruct (forallb _ l) eqn:Hall in H; [| done].
    injection H as <-. split; [done |].
    apply Is_true_true_2, forallb_True in Hall.
    eapply Forall_impl; [exact Hall |].
    intros d Hd. by apply bool_decide_unpack in Hd.
Qed.

(** What a successful [host_domain] mutator did to the document. *)
Lemma host_domain_mut_inv p host ts tsv turl tport st st' r :
  host_domain_mut p host ts tsv turl tport st = Some (st', r) ->
  d_domain r = Val host
  /\ storage st' = storage st /\ agents st' = agents st
  /\ exists l,
      Forall has_host l
      /\ domains st' = Some (sorted_by domain_key l)
      /\ match find_domain host (default [] (domains st)) with
         | Some (i, d) =>
             l = <[ i := r ]> (default [] (domains st))
             /\ host_entry p ts tsv turl tport true d = Some r
         | None =>
             l = default [] (domains st) ++ [r]
             /\ host_entry p ts tsv turl tport false
                  (new_domain_record host ts) = Some r
         end.
Proof.
  unfold host_domain_mut.
  destruct (find_domain host _) as [[i d] |] eqn:Hfind.
  - destruct (host_entry _ _ _ _ _ _ _) as [entry |] eqn:He; [| done].
    simpl. destruct (sort_domains _) as [l' |] eqn:Hs; [| done].
    simpl. intros [= <- <-]. simpl.
    apply find_domain_Some in Hfind as [Hi Hd].
    assert (d_domain entry = Val host) as Hdom.
    { apply host_entry_domain in He. congruence. }
    split; [done |]. split; [done |]. split; [done |].
    eapply sort_domains_Some in Hs as [-> Hall].
    + eexists. split; [exact Hall |]. done.
    + apply list_elem_of_lookup. exists i. apply list_lookup_insert_eq.
      by eapply lookup_lt_Some.
    + unfold has_host. by rewrite Hdom.
  - destruct (host_entry _ _ _ _ _ _ _) as [entry |] eqn:He; [| done].
    simpl. destruct (sort_domains _) as [l' |] eqn:Hs; [| done].
    simpl. intros [= <- <-]. simpl.
    assert (d_domain entry = Val host) as Hdom.
    { apply host_entry_domain in He. by rewrite He. }
    split; [done |]. split; [done |]. split; [done |].
    eapply sort_domains_Some in Hs as [-> Hall].
    + eexists. split; [exact Hall |]. done.
    + apply elem_of_app. right. by apply list_elem_of_singleton.
    + unfold has_host. by rewrite Hdom.
Qed.

Lemma domain_key_eq d1 d2 :
  d_domain d1 = d_domain d2 -> domain_key d1 = domain_key d2.
Proof. unfold domain_key. by intros ->. Qed.

Lemma domain_key_host d host : d_domain d = Val host -> domain_key d = host.
Proof. unfold domain_key. by intros ->. Qed.

Lemma has_host_key d : has_host d -> get (d_domain d) = Some (domain_key d).
Proof. unfold has_host, domain_key. by intros [h ->]. Qed.

(** Replacing a record by one of the same key keeps the list in order. *)
Lemma sorted_insert_same_key (l : list DomainRecord) i x d :
  l !! i = Some d -> domain_key x = domain_key d ->
  StronglySorted (key_lt domain_key) l ->
  StronglySorted (key_lt domain_key) (<[ i := x ]> l).
Proof.
  intros Hi Hk Hs. revert i Hi.
  induction Hs as [| y l Hs IH Hall]; intros i Hi; [done |].
  destruct i as [| i]; simpl in *.
  - injection Hi as ->. constructor; [done |].
    eapply Forall_impl; [exact Hall |]. intros z. unfold key_lt.
    by rewrite Hk.
  - constructor; [by apply IH |].
    apply Forall_insert; [done |].
    rewrite Forall_forall in Hall. unfold key_lt in *. rewrite Hk.
    apply Hall. by eapply list_elem_of_lookup_2.
Qed.

Lemma records_for_key host l :
  Forall has_host l ->
  records_for host l = filter (fun d => domain_key d = host) l.
Proof.
  unfold records_for. induction 1 as [| d l Hd Hall IH]; [done |].
  rewrite !filter_cons, IH. rewrite (has_host_key d Hd).
  repeat case_decide; congruence.
Qed.

(** At most one record per hostname in a list in strict order. *)
Lemma sorted_unique_at_most_one l host :
  sorted_unique l -> (length (records_for host l) <= 1)%nat.
Proof.
  intros [Hall Hs]. rewrite records_for_key by done. clear Hall.
  induction Hs as [| x l Hs IH Hx]; [simpl; lia |].
  rewrite filter_cons. case_decide as Hk; [| done].
  assert (filter (fun d => domain_key d = host) l = []) as ->; [| simpl; lia].
  clear IH Hs. induction Hx as [| y l [_ Hxy] Hx IHl]; [done |].
  rewrite filter_cons. case_decide as Hy; [| done].
  exfalso. apply Hxy. by rewrite Hk, Hy.
Qed.

(** The mutator of [host_domain] keeps the collection in strict order. *)
Lemma host_domain_mut_sorted p host ts tsv turl tport st st' r :
  sorted_unique (default [] (domains st)) ->
  host_domain_mut p host ts tsv turl tport st = Some (st', r) ->
  sorted_unique (default [] (domains st')).
Proof.
  intros [Hall Hs] H. apply host_domain_mut_inv in H
    as (Hdom & _ & _ & l & Hl & -> & Hcase).
  simpl. split.
  { by rewrite sorted_by_perm. }
  destruct (find_domain host _) as [[i d] |] eqn:Hfind.
  - destruct Hcase as [-> He].
    apply find_domain_Some in Hfind as [Hi Hd].
    assert (StronglySorted (key_lt domain_key)
              (<[ i := r ]> (default [] (domains st)))) as Hs'.
    { eapply sorted_insert_same_key; [exact Hi | | exact Hs].
      apply domain_key_eq. congruence. }
    rewrite sorted_by_fixed; [done |]. by apply key_lt_le.
  - destruct Hcase as [-> He].
    apply key_le_NoDup_lt; [apply sorted_by_sorted |].
    rewrite sorted_by_perm. rewrite map_app. simpl.
    rewrite Permutation_app_comm. simpl. constructor.
    + intros Hin. apply list_elem_of_fmap in Hin as (y & Hy & Hin).
      apply find_domain_None in Hfind.
      rewrite records_for_key in Hfind by done.
      refine (filter_nil_not_elem_of _ _ y Hfind _ Hin).
      rewrite <- Hy. by apply domain_key_host.
    + by apply key_lt_NoDup.
Qed.

Lemma read_domains now f :
  default [] (domains (document_of now f)) = file_domains f.
Proof. by destruct f. Qed.

Lemma read_file_domains now f :
  file_domains (file_read now f) = file_domains f.
Proof. by destruct f. Qed.

(** A property of the domain collection that every outcome of the mutator
    keeps is kept by [update_state], whether it commits or not. *)
Lemma update_state_domains {R} clk (mutator : State -> option (State * R))
    f res f' (P : list DomainRecord -> Prop) :
  (forall s s' r, mutator s = Some (s', r) ->
     P (default [] (domains s)) -> P (default [] (domains s'))) ->
  P (file_domains f) -> update_state clk mutator f = (res, f') ->
  P (file_domains f').
Proof.
  intros Hm HP. unfold update_state.
  pose proof (read_domains (t_boot clk) f) as Hd.
  pose proof (read_file_domains (t_boot clk) f) as Hf.
  unfold document_of, file_read in Hd, Hf.
  destruct (_read_state_unlocked _ f) as [[s0 f1] |];
    [| by intros [= _ <-]].
  destruct (mutator s0) as [[s1 r1] |] eqn:Hmut.
  - destruct (revision_of _).
    + intros [= _ <-]. simpl. eapply Hm; [exact Hmut |]. by rewrite Hd.
    + intros [= _ <-]. by rewrite Hf.
  - intros [= _ <-]. by rewrite Hf.
Qed.

Lemma host_domain_sorted clk p w :
  sorted_unique (file_domains (state_file w)) ->
  sorted_unique (file_domains (state_file (host_domain clk p w).2)).
Proof.
  intros Hinv. unfold host_domain.
  destruct (_ && _); [done |].
  destruct (_normalize_domain _) as [host | msg]; [| done].
  destruct (update_state _ _ _) as [res f'] eqn:Hu.
  assert (sorted_unique (file_domains f')) as Hf'.
  { eapply update_state_domains; [| exact Hinv | exact Hu].
    intros s s' r Hm Hs. by eapply host_domain_mut_sorted. }
  by destruct res as [[st' r] |].
Qed.

Lemma setup_date_storage_domains clk p w :
  file_domains (state_file (setup_date_storage clk p w).2)
  = file_domains (state_file w).
Proof.
  unfold setup_date_storage.
  destruct (update_state _ _ _) as [res f'] eqn:Hu.
  assert (file_domains f' = file_domains (state_file w)) as Hf'.
  { eapply (update_state_domains _ _ _ _ _
              (fun l => l = file_domains (state_file w))); [| done | exact Hu].
    by intros s s' r [= <- _]. }
  by destruct res as [[st' r] |].
Qed.

Lemma register_agent_domains clk p w :
  file_domains (state_file (register_agent clk p w).2)
  = file_domains (state_file w).
Proof.
  unfold register_agent. destruct (negb _); [done |].
  destruct (update_state _ _ _) as [res f'] eqn:Hu.
  assert (file_domains f' = file_domains (state_file w)) as Hf'.
  { eapply (update_state_domains _ _ _ _ _
              (fun l => l = file_domains (state_file w))); [| done | exact Hu].
    intros s s' r. unfold register_agent_mut. intros H.
    by simplify_option_eq. }
  by destruct res as [[st' r] |].
Qed.

Lemma agents_create_domains clk p w :
  file_domains (state_file (agents_create clk p w).2)
  = file_domains (state_file w).
Proof.
  unfold agents_create.
  destruct (update_state _ _ _) as [res f'] eqn:Hu.
  assert (file_domains f' = file_domains (state_file w)) as Hf'.
  { eapply (update_state_domains _ _ _ _ _
              (fun l => l = file_domains (state_file w))); [| done | exact Hu].
    intros s s' r. unfold agents_create_mut. intros H.
    by simplify_option_eq. }
  by destruct res as [[st' r] |].
Qed.

Lemma handle_sorted clk rq w :
  sorted_unique (file_domains (state_file w)) ->
  sorted_unique (file_domains (state_file (handle clk rq w).2)).
Proof.
  intros Hinv. destruct rq as [p | p | p | p]; simpl.
  - pose proof (host_domain_sorted clk p w Hinv) as H.
    by destruct (host_domain clk p w).
  - pose proof (setup_date_storage_domains clk p w) as H.
    destruct (setup_date_storage clk p w). simpl in *. by rewrite H.
  - pose proof (register_agent_domains clk p w) as H.
    destruct (register_agent clk p w). simpl in *. by rewrite H.
  - pose proof (agents_create_domains clk p w) as H.
    destruct (agents_create clk p w). simpl in *. by rewrite H.
Qed.

Lemma run_sorted rqs w :
  sorted_unique (file_domains (state_file w)) ->
  sorted_unique (file_domains (state_file (run rqs w).2)).
Proof.
  revert w. induction rqs as [| [clk rq] rqs IH]; intros w Hinv; [done |].
  simpl. pose proof (handle_sorted clk rq w Hinv) as H.
  destruct (handle clk rq w) as [ok w1]. simpl in H.
  specialize (IH w1 H). by destruct (run rqs w1).
Qed.

(** What a successful [host_domain] call did. *)
Lemma host_domain_ok_inv clk p w r v w' :
  host_domain clk p w = (Ok (r, v), w') ->
  exists host s1 st',
    _normalize_domain (h_domain p) = Returns host
    /\ host_domain_mut p host (t_handler clk) (h_target_service p)
         (request_target_url p) (request_target_port p)
         (document_of (t_boot clk) (state_file w)) = Some (s1, r)
    /\ state_file w' = Persisted st'
    /\ domains st' = domains s1
    /\ dynamic_file w'
       = Some (_write_domain_dynamic_config (default [] (domains st'))).
Proof.
  unfold host_domain.
  destruct (_ && _); [done |].
  destruct (_normalize_domain _) as [host | msg]; [| done].
  destruct (update_state _ _ _) as [[[st' r'] |] f'] eqn:Hu; [| done].
  intros [= <- <- <-]. simpl.
  pose proof (update_state_committed _ _ _ _ _ _ Hu) as ->.
  apply update_state_inv in Hu as (s1 & Hm & Hd & _).
  exists host, s1, st'. done.
Qed.

(** After a successful [host_domain] call the collection holds a record of
    the canonical hostname, and the record returned has that hostname. *)
Lemma host_domain_ok_present clk p w r v w' host :
  _normalize_domain (h_domain p) = Returns host ->
  host_domain clk p w = (Ok (r, v), w') ->
  d_domain r = Val host /\ r ∈ records_for host (file_domains (state_file w')).
Proof.
  intros Hn (host' & s1 & st' & Hn' & Hm & Hf & Hd & _)%host_domain_ok_inv.
  assert (host' = host) as -> by congruence.
  apply host_domain_mut_inv in Hm as (Hdom & _ & _ & l & _ & Hl & Hcase).
  split; [done |]. rewrite Hf. simpl. rewrite Hd, Hl. simpl.
  unfold records_for. apply list_elem_of_filter. split; [by rewrite Hdom |].
  rewrite sorted_by_perm.
  destruct (find_domain host _) as [[i d] |] eqn:Hfind.
  - destruct Hcase as [-> _]. apply find_domain_Some in Hfind as [Hi _].
    apply list_elem_of_lookup. exists i. apply list_lookup_insert_eq.
    by eapply lookup_lt_Some.
  - destruct Hcase as [-> _]. apply elem_of_app. right.
    by apply list_elem_of_singleton.
Qed.

(** ** Seeding from the environment *)

Lemma partition_nonempty sep s a found b :
  Py.partition sep s = (a, found, b) -> Py.nonempty s = true ->
  Py.nonempty a = true \/ found = true.
Proof.
  destruct s as [| c s]; [done |]. simpl.
  destruct (Ascii.eqb c sep).
  - intros [= <- <- <-]. by right.
  - destruct (Py.partition sep s) as [[a' f'] b']. intros [= <- <- <-].
    by left.
Qed.

Lemma lower_nonempty s : Py.nonempty (Py.lower s) = Py.nonempty s.
Proof. by destruct s. Qed.

Lemma append_nonempty_l s t :
  Py.nonempty s = true -> Py.nonempty (s +:+ t) = true.
Proof. by destruct s. Qed.

(** A canonical hostname is never the empty string. *)
Lemma _normalize_domain_nonempty raw host :
  _normalize_domain raw = Returns host -> Py.nonempty host = true.
Proof.
  unfold _normalize_domain. destruct (negb _); [done |].
  destruct (urlsplit_netloc _) as [netloc | msg]; [| done].
  unfold hostname_of.
  destruct (Py.partition "[" _) as [[pre have_open_br] bracketed].
  set (hostname := if have_open_br then _ else _).
  destruct (Py.nonempty hostname) eqn:Hne; [| done].
  destruct (Py.partition "%" hostname) as [[h percent] zone] eqn:Hp.
  intros [= <-]. rewrite lower_nonempty.
  destruct (partition_nonempty _ _ _ _ _ Hp Hne) as [Hh | ->].
  - apply append_nonempty_l. by rewrite lower_nonempty.
  - by destruct (Py.lower h).
Qed.

Lemma fromkeys_go_spec seen l :
  NoDup (fromkeys_go seen l)
  /\ forall x, x ∈ fromkeys_go seen l -> (x ∉ seen) /\ (x ∈ l).
Proof.
  revert seen. induction l as [| y l IH]; intros seen; simpl.
  - split; [constructor |]. intros x Hx. by inv Hx.
  - destruct (decide (y ∈ seen)) as [Hy | Hy].
    + destruct (IH seen) as [Hnd Hin]. split; [done |].
      intros x Hx. destruct (Hin x Hx). split; [done | by right].
    + destruct (IH ({[y]} ∪ seen)) as [Hnd Hin]. split.
      * constructor; [| done]. intros Hx. apply Hin in Hx as [Hx _].
        apply Hx. apply elem_of_union. left. by apply elem_of_singleton.
      * intros x [-> | Hx]%elem_of_cons; [split; [done | by left] |].
        destruct (Hin x Hx) as [Hns Hl]. split; [| by right].
        intros Hs. apply Hns. apply elem_of_union. by right.
Qed.

Lemma _collect_domains_from_env_spec env :
  NoDup (_collect_domains_from_env env)
  /\ Forall (fun host => Py.nonempty host = true)
       (_collect_domains_from_env env).
Proof.
  unfold _collect_domains_from_env.
  set (normalized := omap _ _).
  destruct (fromkeys_go_spec ∅ normalized) as [Hnd Hin].
  split; [by rewrite sorted_by_perm |].
  rewrite sorted_by_perm. apply Forall_forall. intros host Hh.
  apply Hin in Hh as [_ Hh]. unfold normalized in Hh.
  apply list_elem_of_omap in Hh as (raw & _ & Hraw).
  destruct (_normalize_domain raw) as [h | msg] eqn:Hn; [| done].
  injection Hraw as ->. by eapply _normalize_domain_nonempty.
Qed.

(** As [update_state_domains], for a property that need only be kept
    from the collection the file holds. *)
Lemma update_state_domains_from {R} clk
    (mutator : State -> option (State * R)) f res f'
    (P : list DomainRecord -> Prop) :
  (forall s s' r, mutator s = Some (s', r) ->
     default [] (domains s) = file_domains f ->
     P (default [] (domains s'))) ->
  P (file_domains f) -> update_state clk mutator f = (res, f') ->
  P (file_domains f').
Proof.
  intros Hm HP. unfold update_state.
  pose proof (read_domains (t_boot clk) f) as Hd.
  pose proof (read_file_domains (t_boot clk) f) as Hf.
  unfold document_of, file_read in Hd, Hf.
  destruct (_read_state_unlocked _ f) as [[s0 f1] |];
    [| by intros [= _ <-]].
  destruct (mutator s0) as [[s1 r1] |] eqn:Hmut.
  - destruct (revision_of _).
    + intros [= _ <-]. simpl. by eapply Hm.
    + intros [= _ <-]. by rewrite Hf.
  - intros [= _ <-]. by rewrite Hf.
Qed.

Lemma existing_hosts_key l host :
  Forall has_host l -> Py.nonempty host = true ->
  host ∈ map domain_key l -> host ∈ existing_hosts l.
Proof.
  intros Hall Hne (d & -> & Hd)%list_elem_of_fmap.
  unfold existing_hosts. apply list_elem_of_omap. exists d. split; [done |].
  rewrite Forall_forall in Hall. rewrite (has_host_key d) by auto.
  simpl. by rewrite Hne.
Qed.

(** The mutator of the seeding keeps the collection in strict order when
    the hostnames it adds are new, distinct and not empty. *)
Lemma seed_mut_sorted ts missing st st' r :
  sorted_unique (default [] (domains st)) ->
  missing <> [] -> NoDup missing ->
  Forall (fun host => Py.nonempty host = true) missing ->
  Forall (fun host => host ∉ existing_hosts (default [] (domains st))) missing ->
  seed_mut ts missing st = Some (st', r) ->
  sorted_unique (default [] (domains st')).
Proof.
  intros [Hall Hs] Hnil Hnd Hne Hnew. unfold seed_mut.
  destruct (sort_domains _) as [l' |] eqn:Hsort; [| done].
  simpl. intros [= <- _]. simpl.
  destruct missing as [| m missing]; [done |].
  eapply (sort_domains_Some _ _ (seed_entry ts m)) in Hsort as [-> Hall'].
  2: { apply elem_of_app. right. by left. }
  2: { by eexists. }
  split; [by rewrite sorted_by_perm |].
  apply key_le_NoDup_lt; [apply sorted_by_sorted |].
  rewrite sorted_by_perm, map_app, map_map.
  assert (map (fun x => domain_key (seed_entry ts x)) (m :: missing)
          = m :: missing) as ->.
  { clear. induction (m :: missing) as [| x l IH]; [done |].
    simpl. by rewrite IH. }
  apply NoDup_app. split; [by apply key_lt_NoDup |]. split; [| done].
  intros host Hin Hm. rewrite Forall_forall in Hne, Hnew.
  apply (Hnew host Hm). apply existing_hosts_key; auto.
Qed.

Lemma seed_domains_from_env_sorted clk env w :
  sorted_unique (file_domains (state_file w)) ->
  sorted_unique
    (file_domains (state_file (seed_domains_from_env clk env w).2)).
Proof.
  intros Hinv. unfold seed_domains_from_env.
  destruct (_collect_domains_from_env_spec env) as [Hnd Hne].
  destruct (_collect_domains_from_env env) as [| c collected] eqn:Hc;
    [done |].
  unfold read_state.
  pose proof (read_domains (t_boot clk) (state_file w)) as Hd.
  pose proof (read_file_domains (t_boot clk) (state_file w)) as Hf.
  unfold document_of, file_read in Hd, Hf.
  destruct (_read_state_unlocked _ _) as [[snapshot f1] |]; [| done].
  rewrite Hd. rewrite <- Hf in Hinv |- *.
  set (missing := filter _ (c :: collected)).
  assert (NoDup missing) as Hnd' by (by apply NoDup_filter).
  assert (Forall (fun host => Py.nonempty host = true) missing) as Hne'.
  { apply Forall_forall. intros host Hh.
    apply list_elem_of_filter in Hh as [_ Hh].
    rewrite Forall_forall in Hne. by apply Hne. }
  assert (Forall (fun host => host ∉ existing_hosts (file_domains f1)) missing)
    as Hnew.
  { apply Forall_forall. intros host Hh.
    by apply list_elem_of_filter in Hh as [? _]. }
  destruct missing as [| m missing'] eqn:Hmiss; [done |].
  cbn [state_file].
  destruct (update_state _ _ f1) as [res f'] eqn:Hu.
  assert (sorted_unique (file_domains f')) as Hf'.
  { eapply update_state_domains_from; [| exact Hinv | exact Hu].
    intros s s' r Hm Hs. eapply seed_mut_sorted; [| | | | | exact Hm];
      rewrite ?Hs; done. }
  by destruct res as [[st' r] |].
Qed.

(** C3. The domain collection stays sorted by canonical hostname with at
    most one record per hostname: the property holds of the empty
    collection of a fresh store, and every request and the seeding from
    the environment keep it, whatever their outcome. Two successful
    [host_domain] requests whose domain strings
    normalize to the same hostname leave exactly one record of that
    hostname, the one the second request returns; and
    [HTTPS://A.example.com/] and [a.example.com] both normalize to
    [a.example.com]. *)
Theorem domains_sorted_unique :
  (sorted_unique (file_domains Missing)
   /\ sorted_unique (file_domains InvalidJson)
   /\ forall now, sorted_unique (file_domains (Persisted (_default_state now))))
  /\ (forall rqs w,
        sorted_unique (file_domains (state_file w)) ->
        sorted_unique (file_domains (state_file (run rqs w).2))
        /\ forall host,
            (length (records_for host
                       (file_domains (state_file (run rqs w).2))) <= 1)%nat)
  /\ (forall clk env w,
        sorted_unique (file_domains (state_file w)) ->
        sorted_unique
          (file_domains (state_file (seed_domains_from_env clk env w).2)))
  /\ (forall clk1 clk2 p1 p2 w r1 v1 w1 r2 v2 w2 host,
        sorted_unique (file_domains (state_file w)) ->
        _normalize_domain (h_domain p1) = Returns host ->
        _normalize_domain (h_domain p2) = Returns host ->
        host_domain clk1 p1 w = (Ok (r1, v1), w1) ->
        host_domain clk2 p2 w1 = (Ok (r2, v2), w2) ->
        records_for host (file_domains (state_file w2)) = [r2]
        /\ d_domain r2 = Val host)
  /\ _normalize_domain "HTTPS://A.example.com/" = Returns "a.example.com"
  /\ _normalize_domain "a.example.com" = Returns "a.example.com".
Proof.
  assert (sorted_unique []) as Hnil by (split; constructor).
  split; [done |]. split; [| split; [| split; [| split; reflexivity]]].
  - intros rqs w Hinv. pose proof (run_sorted rqs w Hinv) as Hs.
    split; [done |]. intros host. by apply sorted_unique_at_most_one.
  - intros clk env w Hinv. by apply seed_domains_from_env_sorted.
  - intros clk1 clk2 p1 p2 w r1 v1 w1 r2 v2 w2 host Hinv Hn1 Hn2 H1 H2.
    pose proof (host_domain_sorted clk1 p1 w Hinv) as Hs1.
    rewrite H1 in Hs1. simpl in Hs1.
    pose proof (host_domain_sorted clk2 p2 w1 Hs1) as Hs2.
    rewrite H2 in Hs2. simpl in Hs2.
    destruct (host_domain_ok_present _ _ _ _ _ _ _ Hn2 H2) as [Hd Hin].
    split; [| done].
    pose proof (sorted_unique_at_most_one _ host Hs2) as Hlen.
    destruct (records_for host _) as [| x [| y l]]; simpl in Hlen.
    + by inv Hin.
    + apply list_elem_of_singleton in Hin. by subst.
    + lia.
Qed.

(** ** Idempotent upsert *)

Lemma filter_insert_singleton {A} (P : A -> Prop) `{!forall x, Decision (P x)}
    (l : list A) i d x :
  filter P l = [d] -> l !! i = Some d -> P x -> filter P (<[ i := x ]> l) = [x].
Proof.
  revert i. induction l as [| y l IH]; intros i Hf Hi Hx; [done |].
  assert (P d) as Hd.
  { assert (d ∈ filter P (y :: l)) as Hin by (rewrite Hf; by left).
    by apply list_elem_of_filter in Hin as [? _]. }
  destruct i as [| i]; simpl in *.
  - injection Hi as ->. rewrite filter_cons_True in Hf by done.
    injection Hf as Hf. by rewrite filter_cons_True, Hf.
  - rewrite filter_cons in Hf. rewrite filter_cons.
    destruct (decide (P y)) as [Hy | Hy].
    + injection Hf as -> Hf. exfalso.
      by apply (filter_nil_not_elem_of P l d Hf Hd),
        (list_elem_of_lookup_2 _ i).
    + by apply IH.
Qed.

Lemma records_for_sorted_by host l :
  records_for host (sorted_by domain_key l) ≡ₚ records_for host l.
Proof. unfold records_for. by rewrite sorted_by_perm. Qed.

(** The same request applied to the record it made changes nothing but
    the time of the update and the history, which gains one entry. *)
Lemma host_entry_again p ts1 ts2 tsv turl tport host r1 r2 :
  host_entry p ts1 tsv turl tport false (new_domain_record host ts1)
  = Some r1 ->
  host_entry p ts2 tsv turl tport true r1 = Some r2 ->
  exists e1 e2,
    d_history r1 = Val [e1] /\ r2 = touched ts2 [e1; e2] r1
    /\ action e1 = "provisioned" /\ action e2 = "updated".
Proof.
  unfold host_entry. simpl. intros [= <-]. simpl.
  destruct (Py.nonempty (dashed host)); simpl; intros [= <-];
    do 2 eexists; (split; [reflexivity |]);
    (split;
       [ unfold touched; simpl; f_equal; unfold or_str;
         destruct (truthy_str tsv) eqn:E; simpl; try done;
         destruct tsv; simpl; try done; by rewrite E
       | split; reflexivity ]).
Qed.

(** C2. Idempotent upsert: a [host_domain] request for a hostname that has
    no record yet, issued twice with the same input, leaves exactly one
    record of that hostname; its history has the two entries
    [provisioned] and [updated], and it is the record of the first call
    in every field but [updated_at] and the history. *)
Theorem host_domain_idempotent clk1 clk2 p w r1 v1 w1 r2 v2 w2 host :
  _normalize_domain (h_domain p) = Returns host ->
  records_for host (file_domains (state_file w)) = [] ->
  host_domain clk1 p w = (Ok (r1, v1), w1) ->
  host_domain clk2 p w1 = (Ok (r2, v2), w2) ->
  records_for host (file_domains (state_file w1)) = [r1]
  /\ records_for host (file_domains (state_file w2)) = [r2]
  /\ exists e1 e2,
      d_history r1 = Val [e1] /\ d_history r2 = Val [e1; e2]
      /\ r2 = touched (t_handler clk2) [e1; e2] r1
      /\ action e1 = "provisioned" /\ action e2 = "updated".
Proof.
  intros Hn Hfresh
    (h1 & s1 & st1 & Hn1 & Hm1 & Hf1 & Hd1 & _)%host_domain_ok_inv
    (h2 & s2 & st2 & Hn2 & Hm2 & Hf2 & Hd2 & _)%host_domain_ok_inv.
  assert (h1 = host) as -> by congruence.
  assert (h2 = host) as -> by congruence.
  apply host_domain_mut_inv in Hm1 as (Hdom1 & _ & _ & l1 & _ & Hl1 & Hc1).
  rewrite read_domains in Hc1.
  apply find_domain_None in Hfresh as Hnone. rewrite Hnone in Hc1.
  destruct Hc1 as [-> He1].
  assert (records_for host (file_domains (state_file w1)) = [r1]) as Hone.
  { rewrite Hf1. simpl. rewrite Hd1, Hl1. simpl.
    apply Permutation_singleton_r. rewrite records_for_sorted_by.
    unfold records_for in *. rewrite filter_app, Hfresh. simpl.
    rewrite filter_cons_True by (by rewrite Hdom1). done. }
  apply host_domain_mut_inv in Hm2 as (Hdom2 & _ & _ & l2 & _ & Hl2 & Hc2).
  rewrite read_domains in Hc2.
  destruct (find_domain host (file_domains (state_file w1)))
    as [[i d] |] eqn:Hfind.
  2: { apply find_domain_None in Hfind. congruence. }
  destruct Hc2 as [-> He2].
  pose proof Hfind as [Hi Hd]%find_domain_Some.
  assert (d = r1) as ->.
  { assert (d ∈ records_for host (file_domains (state_file w1))) as Hin.
    { apply list_elem_of_filter. split; [by rewrite Hd |].
      by eapply list_elem_of_lookup_2. }
    rewrite Hone in Hin. by apply list_elem_of_singleton in Hin. }
  split; [done |]. split.
  - rewrite Hf2. simpl. rewrite Hd2, Hl2. simpl.
    apply Permutation_singleton_r. rewrite records_for_sorted_by.
    unfold records_for in *.
    erewrite filter_insert_singleton; [done | exact Hone | exact Hi |].
    by rewrite Hdom2.
  - destruct (host_entry_again _ _ _ _ _ _ _ _ _ He1 He2)
      as (e1 & e2 & Hh1 & -> & Ha1 & Ha2).
    by exists e1, e2.
Qed.

(** ** The generator on records without a hostname *)

Lemma gen_step_skip g d : no_hostname d -> gen_step g d = g.
Proof. unfold no_hostname, gen_step. by intros ->. Qed.

Lemma fold_gen_step_skip l g : Forall no_hostname l -> fold_left gen_step l g = g.
Proof.
  induction 1 as [| d l Hd Hl IH]; [done |].
  simpl. by rewrite gen_step_skip.
Qed.

(** C9. When the list given to the generator is empty or holds only
    records without a hostname, the artifact is the placeholder artifact:
    the one catch-all router [placeholder] bound to the service [noop],
    whose only server is [http://127.0.0.1:9000], and no other router. *)
Theorem placeholder_artifact (l : list DomainRecord) :
  Forall no_hostname l ->
  gen_lines l = placeholder_lines (middleware_needed l)
  /\ _write_domain_dynamic_config l
     = Py.join Py.nl (placeholder_lines (middleware_needed l)) +:+ Py.nl.
Proof.
  intros Hl.
  assert (gen_lines l = placeholder_lines (middleware_needed l)) as Hg.
  { unfold gen_lines, gen_loop. rewrite fold_gen_step_skip by done. simpl.
    unfold placeholder_lines. by destruct (middleware_needed l). }
  split; [done |]. unfold _write_domain_dynamic_config. by rewrite Hg.
Qed.

(** ** The storage profile *)

Lemma default_state_date_app now :
  default ∅ (storage (_default_state now)) !! "date_app"
  = Some {| s_created_at := Absent; s_storage_engine := Absent;
            s_primary_region := Absent; s_replicas := Absent;
            s_retention_days := Absent; s_backup_regions := Absent;
            s_analytics := Absent; s_encryption := Absent; s_notes := Absent;
            s_status := Val "uninitialized"; s_updated_at := Val now |}.
Proof. simpl. apply lookup_singleton_eq. Qed.

Lemma setup_date_storage_mut_created_at p ts st st' r :
  setup_date_storage_mut p ts st = Some (st', r) ->
  s_status r = Val "ready"
  /\ default ∅ (storage st') !! "date_app" = Some r
  /\ s_created_at r
     = match default ∅ (storage st) !! "date_app" with
       | Some old => if profile_truthy old then s_created_at old else Val ts
       | None => Val ts
       end.
Proof.
  unfold setup_date_storage_mut. intros [= <- <-]. simpl.
  split; [done |]. split; [apply lookup_insert_eq |].
  destruct (_ !! "date_app") as [old |]; [| done].
  by destruct (profile_truthy old).
Qed.

(** C10. On a freshly bootstrapped store the first [setup_storage] call
    succeeds and returns (and stores) a profile whose status is [ready]
    and which has no [created_at]: the default profile occupies the
    [date_app] slot and carries none. In general [created_at] is set to
    the time of the call only when the slot is missing or an empty
    object; a profile found in the slot keeps whatever it had. *)
Theorem first_setup_has_no_created_at :
  (forall clk p w,
      bootstrapped (state_file w) ->
      exists r v w',
        setup_date_storage clk p w = (Ok (r, v), w')
        /\ s_status r = Val "ready"
        /\ s_created_at r = Absent
        /\ file_profile (state_file w') = Some r)
  /\ (forall p ts st st' r,
        setup_date_storage_mut p ts st = Some (st', r) ->
        s_status r = Val "ready"
        /\ s_created_at r
           = match default ∅ (storage st) !! "date_app" with
             | Some old =>
                 if profile_truthy old then s_created_at old else Val ts
             | None => Val ts
             end).
Proof.
  split.
  - intros clk p w Hb. unfold setup_date_storage, update_state.
    assert (exists now f1,
               _read_state_unlocked (t_boot clk) (state_file w)
               = Some (_default_state now, f1)) as (now & f1 & ->).
    { destruct Hb as [-> | [-> | [now ->]]]; simpl; eauto. }
    destruct (setup_date_storage_mut p (t_handler clk) (_default_state now))
      as [[s1 r] |] eqn:Hm; [| done].
    pose proof (setup_date_storage_mut_created_at _ _ _ _ _ Hm)
      as (Hst & Hlook & Hc).
    rewrite default_state_date_app in Hc. simpl in Hc.
    injection Hm as <- <-. simpl.
    do 3 eexists. split; [reflexivity |]. simpl.
    split; [done |]. split; [done |]. apply lookup_insert_eq.
  - intros p ts st st' r Hm.
    by apply setup_date_storage_mut_created_at in Hm as (? & _ & ?).
Qed.

(** ** Recovery from a state file that is not valid JSON *)

Lemma update_state_invalid_json {R} clk (mutator : State -> option (State * R)) :
  update_state clk mutator InvalidJson
  = update_state clk mutator (Persisted (_default_state (t_boot clk))).
Proof. reflexivity. Qed.

Lemma update_state_default {R} clk (mutator : State -> option (State * R)) now :
  keeps_meta mutator ->
  is_Some (mutator (_default_state now)) ->
  exists st r,
    update_state clk mutator (Persisted (_default_state now))
    = (Some (st, r), Persisted st)
    /\ revision_slot st = Val 1.
Proof.
  intros Hk [[s1 r] Hm]. unfold update_state. simpl. rewrite Hm.
  apply Hk in Hm as Hmeta. rewrite Hmeta. simpl.
  eexists _, r. split; reflexivity.
Qed.

Lemma host_domain_mut_default p host ts tsv turl tport now :
  is_Some (host_domain_mut p host ts tsv turl tport (_default_state now)).
Proof. unfold host_domain_mut. simpl. eauto. Qed.

Lemma register_agent_mut_default p t name ts caps doms now :
  is_Some (register_agent_mut p t name ts caps doms (_default_state now)).
Proof.
  unfold register_agent_mut. simpl. rewrite lookup_empty. simpl. eauto.
Qed.

Lemma agents_create_mut_default t n ts now :
  is_Some (agents_create_mut t n ts (_default_state now)).
Proof.
  unfold agents_create_mut. simpl. rewrite lookup_empty. simpl. eauto.
Qed.

(** A state file whose text is not valid JSON is no error for the
    caller. [read_state] returns the default document (revision 0, no
    domains, no agents, storage status [uninitialized]) and stores it.
    Every handler answers as it would on a store that holds that default
    document, and a successful request leaves the same files, the stored
    document at revision 1. *)
Lemma invalid_json_state_recovers :
  (forall now w,
      state_file w = InvalidJson ->
      read_state now w
      = Some (_default_state now,
              {| state_file := Persisted (_default_state now);
                 dynamic_file := dynamic_file w |}))
  /\ (forall now,
         revision_slot (_default_state now) = Val 0
         /\ domains (_default_state now) = Some []
         /\ agents (_default_state now) = Some ∅
         /\ s_status <$> file_profile (Persisted (_default_state now))
            = Some (Val "uninitialized"))
  /\ (forall clk w,
         state_file w = InvalidJson ->
         (forall p, answers_as (host_domain clk p) w (recovered clk w))
         /\ (forall p, answers_as (setup_date_storage clk p) w (recovered clk w))
         /\ (forall p, answers_as (register_agent clk p) w (recovered clk w))
         /\ (forall p, answers_as (agents_create clk p) w (recovered clk w))
         /\ (forall rq,
               (handle clk rq w).1 = true ->
               exists st,
                 state_file (handle clk rq w).2 = Persisted st
                 /\ revision_slot st = Val 1)).
Proof.
  split; [| split].
  - intros now w Hw. unfold read_state. by rewrite Hw.
  - intros now. split; [done |]. split; [done |]. split; [done |].
    simpl. by rewrite lookup_singleton_eq.
  - intros clk [f dyn] Hw. simpl in Hw. subst f.
    assert (forall p, answers_as (host_domain clk p)
              {| state_file := InvalidJson; dynamic_file := dyn |}
              (recovered clk {| state_file := InvalidJson;
                                dynamic_file := dyn |})) as Hhost.
    { intros p. unfold answers_as, host_domain, recovered.
      cbn [state_file dynamic_file].
      destruct (_ && _); [done |].
      destruct (_normalize_domain _) as [host | msg]; [| done].
      rewrite update_state_invalid_json.
      destruct (update_state_default clk
                  (host_domain_mut p host (t_handler clk) (h_target_service p)
                     (request_target_url p) (request_target_port p))
                  (t_boot clk)) as (st & r & -> & _);
        [apply host_domain_mut_keeps_meta | apply host_domain_mut_default |].
      done. }
    assert (forall p, answers_as (setup_date_storage clk p)
              {| state_file := InvalidJson; dynamic_file := dyn |}
              (recovered clk {| state_file := InvalidJson;
                                dynamic_file := dyn |})) as Hsetup.
    { intros p. unfold answers_as, setup_date_storage, recovered.
      cbn [state_file dynamic_file].
      rewrite update_state_invalid_json.
      destruct (update_state_default clk
                  (setup_date_storage_mut p (t_handler clk)) (t_boot clk))
        as (st & r & -> & _);
        [apply setup_date_storage_mut_keeps_meta | by eexists |].
      done. }
    assert (forall p, answers_as (register_agent clk p)
              {| state_file := InvalidJson; dynamic_file := dyn |}
              (recovered clk {| state_file := InvalidJson;
                                dynamic_file := dyn |})) as Hreg.
    { intros p. unfold answers_as, register_agent, recovered.
      cbn [state_file dynamic_file].
      destruct (negb _); [done |].
      rewrite update_state_invalid_json.
      destruct (update_state_default clk
                  (register_agent_mut p (t_unix clk) (Py.strip (r_name p))
                     (t_handler clk) (normalize_capabilities (r_capabilities p))
                     (_normalize_domains (r_domains p))) (t_boot clk))
        as (st & r & -> & _);
        [apply register_agent_mut_keeps_meta
        | apply register_agent_mut_default |].
      done. }
    assert (forall p, answers_as (agents_create clk p)
              {| state_file := InvalidJson; dynamic_file := dyn |}
              (recovered clk {| state_file := InvalidJson;
                                dynamic_file := dyn |})) as Hcreate.
    { intros p. unfold answers_as, agents_create, recovered.
      cbn [state_file dynamic_file].
      rewrite update_state_invalid_json.
      destruct (update_state_default clk
                  (agents_create_mut (t_unix clk)
                     (if Py.nonempty (Py.strip (c_name p))
                      then Py.strip (c_name p)
                      else "agent-" +:+ Py.str_int (t_unix clk))
                     (t_handler clk)) (t_boot clk))
        as (st & r & -> & _);
        [apply agents_create_mut_keeps_meta
        | apply agents_create_mut_default |].
      done. }
    split; [done |]. split; [done |]. split; [done |]. split; [done |].
    intros rq Hok.
    set (w := {| state_file := InvalidJson; dynamic_file := dyn |}) in *.
    assert ((handle clk rq w).2 = (handle clk rq (recovered clk w)).2
            /\ (handle clk rq (recovered clk w)).1 = true) as [Hw Hok'].
    { destruct rq as [p | p | p | p]; simpl in *.
      - destruct (Hhost p) as (H1 & _ & H2).
        destruct (host_domain clk p w) as [r1 w1].
        destruct (host_domain clk p (recovered clk w)) as [r2 w2].
        simpl in *. subst r2. auto.
      - destruct (Hsetup p) as (H1 & _ & H2).
        destruct (setup_date_storage clk p w) as [r1 w1].
        destruct (setup_date_storage clk p (recovered clk w)) as [r2 w2].
        simpl in *. subst r2. auto.
      - destruct (Hreg p) as (H1 & _ & H2).
        destruct (register_agent clk p w) as [r1 w1].
        destruct (register_agent clk p (recovered clk w)) as [r2 w2].
        simpl in *. subst r2. auto.
      - destruct (Hcreate p) as (H1 & _ & H2).
        destruct (agents_create clk p w) as [r1 w1].
        destruct (agents_create clk p (recovered clk w)) as [r2 w2].
        simpl in *. subst r2. auto. }
    rewrite Hw.
    destruct (handle clk rq (recovered clk w)) as [ok w'] eqn:Hh.
    simpl in Hok'. subst ok.
    eapply (handle_ok_revision _ _ _ _ _ 0) in Hh; [exact Hh | | ];
      reflexivity.
Qed.

(** C8. The claim fails on a state file whose reading raises an
    exception other than [json.JSONDecodeError] and [OSError], such as a
    file of bytes that are not UTF-8. [read_state] and both read
    handlers raise; no mutation request succeeds, the scenario requests
    end in the uncaught exception, and the file is left as it is. Only
    [_ensure_state_file], which catches every exception, replaces such a
    file by the default document. On a file whose text is not valid JSON
    the reading does recover as the claim says. *)
Theorem undecodable_state_raises (dyn : option string) :
  let w := {| state_file := Undecodable; dynamic_file := dyn |} in
  (forall now,
      read_state now w = None
      /\ list_domains now w = (Crash, w)
      /\ get_date_storage now w = (Crash, w))
  /\ (forall clk rq, handle clk rq w = (false, w))
  /\ (forall clk,
        host_domain clk shop_request w = (Crash, w)
        /\ register_agent clk (registration "Ops Bot" [] []) w = (Crash, w)
        /\ (forall p, setup_date_storage clk p w = (Crash, w))
        /\ (forall body, agents_create clk body w = (Crash, w))
        /\ (forall env,
              _collect_domains_from_env env <> [] ->
              seed_domains_from_env clk env w = (Crash, w)))
  /\ (forall now,
        _ensure_state_file now Undecodable = Persisted (_default_state now))
  /\ (forall now,
        read_state now {| state_file := InvalidJson; dynamic_file := dyn |}
        = Some (_default_state now,
                {| state_file := Persisted (_default_state now);
                   dynamic_file := dyn |})).
Proof.
  cbn zeta. split; [done |]. split.
  - intros clk [p | p | p | p]; simpl.
    + unfold host_domain. destruct (_ && _); [done |].
      by destruct (_normalize_domain _).
    + done.
    + unfold register_agent. by destruct (negb _).
    + done.
  - split; [| done]. intros clk.
    split; [reflexivity |]. split; [reflexivity |].
    split; [done |]. split; [done |].
    intros env Hne. unfold seed_domains_from_env.
    by destruct (_collect_domains_from_env env).
Qed.

(** ** The agent registry *)

Lemma read_agents now f :
  default ∅ (agents (document_of now f)) = file_agents f.
Proof. by destruct f. Qed.

(** What a successful [register_agent] call did. *)
Lemma register_agent_ok_inv clk p w r w' :
  register_agent clk p w = (Ok r, w') ->
  let name := Py.strip (r_name p) in
  let slug := _slugify (t_unix clk) name in
  let old := agent_or_new (t_handler clk) (file_agents (state_file w) !! slug) in
  exists h,
    append_history (a_history old)
      {| action := "registered"; at_time := t_handler clk; target := Absent |}
    = Some h
    /\ r = {| a_created_at := a_created_at old;
              a_history := Val h;
              a_name := Val name;
              a_slug := Val slug;
              a_role := Val (r_role p);
              a_rights := Val (r_rights p);
              a_status := Val (r_status p);
              a_endpoint := put (r_endpoint p);
              a_capabilities := Val (normalize_capabilities (r_capabilities p));
              a_domains := Val (_normalize_domains (r_domains p));
              a_updated_at := Val (t_handler clk) |}
    /\ file_agents (state_file w') = <[ slug := r ]> (file_agents (state_file w)).
Proof.
  unfold register_agent. destruct (negb _); [done |].
  destruct (update_state _ _ _) as [[[st' r'] |] f'] eqn:Hu; [| done].
  intros [= <- <-]. simpl.
  pose proof (update_state_committed _ _ _ _ _ _ Hu) as ->.
  apply update_state_inv in Hu as (s1 & Hm & _ & _ & Ha).
  unfold register_agent_mut in Hm. rewrite read_agents in Hm.
  destruct (append_history _ _) as [h |] eqn:Hh; [| done].
  simpl in Hm. injection Hm as <- <-. simpl in Ha.
  exists h. split; [done |]. split; [done |]. simpl. by rewrite Ha.
Qed.

(** C6 (as amended). [register_agent] replaces the capabilities and the
    domains of an agent, like its other request fields: whatever the
    registry held for the agent, the record returned and stored has the
    normalized capabilities and the normalized domains of the request and
    nothing else; only [created_at] and the history log survive from the
    stored record. *)
Theorem register_agent_replaces clk p w r w' :
  register_agent clk p w = (Ok r, w') ->
  a_capabilities r = Val (normalize_capabilities (r_capabilities p))
  /\ a_domains r = Val (_normalize_domains (r_domains p))
  /\ a_name r = Val (Py.strip (r_name p))
  /\ a_role r = Val (r_role p) /\ a_rights r = Val (r_rights p)
  /\ a_status r = Val (r_status p) /\ a_endpoint r = put (r_endpoint p)
  /\ file_agents (state_file w')
       !! _slugify (t_unix clk) (Py.strip (r_name p)) = Some r.
Proof.
  intros (h & _ & -> & Hw)%register_agent_ok_inv. simpl.
  repeat (split; [reflexivity |]). rewrite Hw. apply lookup_insert_eq.
Qed.

(** ** Slugs *)

Lemma slug_char_dash c :
  Ascii.eqb
    (if Py.isalnum (Py.lower_char c) then Py.lower_char c else "-"%char)
    "-"%char
  = negb (Py.isalnum c).
Proof. destruct c as [[] [] [] [] [] [] [] []]; reflexivity. Qed.

Lemma join_cons_nonempty sep w ws :
  Py.nonempty w = true -> Py.nonempty (Py.join sep (w :: ws)) = true.
Proof. destruct w; [done |]. by destruct ws. Qed.

(** The slug has a segment exactly when the name has an alphanumeric
    character. *)
Lemma slug_core_nonempty s : Py.nonempty (slug_core s) = has_alnum s.
Proof.
  unfold slug_core, Py.lower.
  induction s as [| c s IH]; [done |].
  cbn [Py.map_chars Py.split has_alnum].
  rewrite slug_char_dash. destruct (Py.isalnum c); cbn [negb orb].
  - destruct (Py.split _ _) as [| w ws].
    + rewrite filter_cons_True by done. by apply join_cons_nonempty.
    + rewrite filter_cons_True by done. by apply join_cons_nonempty.
  - rewrite filter_cons_False by done. exact IH.
Qed.

(** For a name with an alphanumeric character the slug does not depend on
    the time. *)
Lemma _slugify_core now s : has_alnum s = true -> _slugify now s = slug_core s.
Proof. intros H. unfold _slugify. by rewrite slug_core_nonempty, H. Qed.

Lemma agent_or_new_truthy ts r :
  agent_truthy r = true -> agent_or_new ts (Some r) = r.
Proof. unfold agent_or_new. by intros ->. Qed.

(** C7 (as amended). For an ASCII name that has an alphanumeric
    character the slug is a function of the name alone: the hyphen-joined
    alphanumeric segments of the lowercased name, [ops-bot] for both
    [Ops Bot!] and [ops bot]. For an ASCII name that has none, the slug
    is [agent-] followed by the time of the call. Two successive
    successful [register_agent] calls whose ASCII names have the same
    slug of the first kind write one record: the second call adds no key
    to the registry, and its record is the first one updated in place
    (same slug, same [created_at], the history one entry longer). *)
Theorem slug_stable_single_record :
  (forall now now' name,
      ascii_text name = true -> has_alnum name = true ->
      _slugify now name = slug_core name
      /\ _slugify now name = _slugify now' name)
  /\ (forall now name,
        ascii_text name = true -> has_alnum name = false ->
        _slugify now name = "agent-" +:+ Py.str_int now)
  /\ (slug_core "Ops Bot!" = "ops-bot" /\ slug_core "ops bot" = "ops-bot")
  /\ (forall clk1 clk2 p1 p2 w r1 w1 r2 w2,
        ascii_text (r_name p1) = true -> ascii_text (r_name p2) = true ->
        has_alnum (Py.strip (r_name p1)) = true ->
        slug_core (Py.strip (r_name p1)) = slug_core (Py.strip (r_name p2)) ->
        register_agent clk1 p1 w = (Ok r1, w1) ->
        register_agent clk2 p2 w1 = (Ok r2, w2) ->
        let slug := slug_core (Py.strip (r_name p1)) in
        a_slug r1 = Val slug /\ a_slug r2 = Val slug
        /\ dom (file_agents (state_file w1))
           = {[ slug ]} ∪ dom (file_agents (state_file w))
        /\ dom (file_agents (state_file w2)) = dom (file_agents (state_file w1))
        /\ file_agents (state_file w2) !! slug = Some r2
        /\ a_created_at r2 = a_created_at r1
        /\ exists h e,
            a_history r1 = Val h /\ a_history r2 = Val (h ++ [e])).
Proof.
  split; [| split; [| split; [split; reflexivity |]]].
  - intros now now' name _ H. by rewrite !_slugify_core.
  - intros now name _ H. unfold _slugify. by rewrite slug_core_nonempty, H.
  - intros clk1 clk2 p1 p2 w r1 w1 r2 w2 _ _ Hal Hcore
      (h1 & Hh1 & Hr1 & Hw1)%register_agent_ok_inv
      (h2 & Hh2 & Hr2 & Hw2)%register_agent_ok_inv.
    assert (has_alnum (Py.strip (r_name p2)) = true) as Hal2.
    { by rewrite <- slug_core_nonempty, <- Hcore, slug_core_nonempty. }
    rewrite _slugify_core in Hh1, Hr1, Hw1 by done.
    rewrite _slugify_core in Hh2, Hr2, Hw2 by done.
    rewrite <- Hcore in Hh2, Hr2, Hw2.
    set (slug := slug_core (Py.strip (r_name p1))) in *.
    rewrite Hw1, lookup_insert_eq in Hh2, Hr2.
    assert (agent_truthy r1 = true) as Ht.
    { rewrite Hr1. unfold agent_truthy. simpl.
      by rewrite orb_true_r. }
    rewrite agent_or_new_truthy in Hh2, Hr2 by done.
    assert (a_history r1 = Val h1) as Hhist1 by (by rewrite Hr1).
    rewrite Hhist1 in Hh2. simpl in Hh2. injection Hh2 as <-.
    cbn zeta. split; [by rewrite Hr1 |]. split; [by rewrite Hr2 |].
    split; [by rewrite Hw1, dom_insert_L |].
    split;
      [by rewrite Hw2, Hw1, !dom_insert_L, (assoc_L (∪)), (idemp_L (∪)) |].
    split; [rewrite Hw2; apply lookup_insert_eq |].
    split; [by rewrite Hr2 |].
    exists h1, {| action := "registered"; at_time := t_handler clk2;
                  target := Absent |}.
    split; [done |]. by rewrite Hr2.
Qed.

(** ** The generator loop *)

Lemma gen_step_lines g d : lines (gen_step g d) = lines g ++ router_lines d.
Proof.
  unfold gen_step, router_lines.
  destruct (negb _); simpl; [by rewrite app_nil_r | done].
Qed.

Lemma gen_step_urls g d :
  service_urls (gen_step g d) = urls_step (service_urls g) d.
Proof. unfold gen_step, urls_step. by destruct (negb _). Qed.

Lemma gen_step_written g d :
  routers_written (gen_step g d)
  = routers_written g || truthy_str (get (d_domain d)).
Proof.
  unfold gen_step. destruct (truthy_str _); simpl;
    [by rewrite orb_true_r | by rewrite orb_false_r].
Qed.

Lemma fold_gen_step_lines l g :
  lines (fold_left gen_step l g) = lines g ++ flat_map router_lines l.
Proof.
  revert g. induction l as [| d l IH]; intros g; simpl.
  - by rewrite app_nil_r.
  - by rewrite IH, gen_step_lines, <- app_assoc.
Qed.

Lemma fold_gen_step_urls l g :
  service_urls (fold_left gen_step l g) = fold_left urls_step l (service_urls g).
Proof.
  revert g. induction l as [| d l IH]; intros g; simpl; [done |].
  by rewrite IH, gen_step_urls.
Qed.

Lemma fold_gen_step_written l g :
  routers_written (fold_left gen_step l g)
  = routers_written g || existsb (fun d => truthy_str (get (d_domain d))) l.
Proof.
  revert g. induction l as [| d l IH]; intros g; simpl.
  - by rewrite orb_false_r.
  - by rewrite IH, gen_step_written, orb_assoc.
Qed.





(** The lines of the artifact, part by part. *)
Lemma gen_lines_parts l :
  gen_lines l
  = [ "http:" ]
    ++ (if middleware_needed l then middleware_block else [])
    ++ [ "  routers:" ]
    ++ flat_map router_lines l
    ++ (if existsb (fun d => truthy_str (get (d_domain d))) l then []
        else [ "    placeholder:";
               "      rule: HostRegexp(`{any:.+}`)";
               "      service: noop" ])
    ++ [ "  services:" ]
    ++ (if decide (backends l = ∅)
        then backend_block "noop" [ "http://127.0.0.1:9000" ]
        else concat (map service_lines (sorted_items (backends l)))).
Proof.
  unfold gen_lines, gen_loop.
  rewrite fold_gen_step_lines, fold_gen_step_urls, fold_gen_step_written.
  cbn [lines routers_written service_urls orb]. fold (backends l).
  rewrite <- !app_assoc. reflexivity.
Qed.



(** ** Blocks of lines *)

Lemma infix_of_app_l {A} (b l k : list A) : infix_of b l -> infix_of b (l ++ k).
Proof.
  intros (pre & post & ->). exists pre, (post ++ k).
  by rewrite <- !app_assoc.
Qed.

Lemma infix_of_app_r {A} (b l k : list A) : infix_of b l -> infix_of b (k ++ l).
Proof.
  intros (pre & post & ->). exists (k ++ pre), post.
  by rewrite <- !app_assoc.
Qed.

Lemma infix_of_refl {A} (b : list A) : infix_of b b.
Proof. exists [], []. by rewrite app_nil_r. Qed.

Lemma infix_of_flat_map {A B} (f : A -> list B) (l : list A) x :
  x ∈ l -> infix_of (f x) (flat_map f l).
Proof.
  intros (l1 & l2 & ->)%list_elem_of_split.
  rewrite flat_map_app. simpl.
  apply infix_of_app_r, infix_of_app_l, infix_of_refl.
Qed.

Lemma infix_of_concat {A} (ls : list (list A)) x :
  x ∈ ls -> infix_of x (concat ls).
Proof.
  intros (l1 & l2 & ->)%list_elem_of_split.
  rewrite concat_app. simpl.
  apply infix_of_app_r, infix_of_app_l, infix_of_refl.
Qed.

(** ** The backend of a record *)

Lemma urls_step_keeps m d n (S : gset string) u :
  m !! n = Some S -> u ∈ S ->
  exists S', urls_step m d !! n = Some S' /\ u ∈ S'.
Proof.
  intros Hm Hu. unfold urls_step. destruct (negb _); [eauto |].
  unfold add_url. destruct (decide (service_name_of d (fmt_str (get (d_domain d))) = n))
    as [<- | Hne].
  - rewrite lookup_insert_eq, Hm. simpl. eexists. split; [done |].
    set_solver.
  - rewrite lookup_insert_ne by done. eauto.
Qed.

Lemma fold_urls_step_keeps l m n (S : gset string) u :
  m !! n = Some S -> u ∈ S ->
  exists S', fold_left urls_step l m !! n = Some S' /\ u ∈ S'.
Proof.
  revert m S. induction l as [| d l IH]; intros m S Hm Hu; simpl; [eauto |].
  destruct (urls_step_keeps m d n S u Hm Hu) as (S1 & H1 & Hu1).
  by eapply IH.
Qed.

(** Every record with a hostname has its URL in the set of its backend. *)
Lemma backends_member l d :
  d ∈ l -> truthy_str (get (d_domain d)) = true ->
  exists S,
    backends l !! service_name_of d (fmt_str (get (d_domain d))) = Some S
    /\ url_of d ∈ S.
Proof.
  unfold backends. generalize (∅ : gmap string (gset string)).
  induction l as [| x l IH]; intros m Hin Ht; [by inv Hin |].
  apply elem_of_cons in Hin as [-> | Hin]; simpl.
  - eapply fold_urls_step_keeps.
    + unfold urls_step. rewrite Ht. simpl. unfold add_url.
      apply lookup_insert_eq.
    + set_solver.
  - by apply IH.
Qed.

Lemma sorted_set_elem (S : gset string) u : u ∈ sorted_set S <-> u ∈ S.
Proof. unfold sorted_set. rewrite sorted_by_perm. apply elem_of_elements. Qed.

(** The backend block of a backend is in the services part. *)
Lemma backend_block_rendered (m : gmap string (gset string)) n S :
  m !! n = Some S ->
  infix_of (backend_block n (sorted_set S))
    (concat (map service_lines (sorted_items m))).
Proof.
  intros Hm. apply (infix_of_concat _ (service_lines (n, S))).
  apply (list_elem_of_fmap_2 service_lines). unfold sorted_items.
  rewrite sorted_by_perm. by apply elem_of_map_to_list.
Qed.

(** ** The scenario request *)

Lemma host_entry_shop ts ex d r :
  d_domain d = Val "shop.example.com" ->
  host_entry shop_request ts (Some "twinboss_api") None (Some 9000) ex d
  = Some r ->
  truthy_str (get (d_domain r)) = true
  /\ truthy_bool (get (d_redirect_to_https r)) = true
  /\ service_name_of r (fmt_str (get (d_domain r))) = "twinboss_api"
  /\ url_of r = "http://twinboss_api:9000"
  /\ router_lines r
     = shop_router_block (router_name_of r "shop.example.com").
Proof.
  intros Hd. unfold host_entry.
  destruct (append_history _ _) as [h |]; [| done]. simpl.
  destruct (if truthy_str (get (d_router_name d)) then _ else _)
    as [rn |]; [| done].
  simpl. intros [= <-]. unfold router_lines. rewrite Hd. simpl.
  repeat split.
Qed.

Lemma middleware_needed_member l d :
  d ∈ l -> truthy_bool (get (d_redirect_to_https d)) = true ->
  middleware_needed l = true.
Proof.
  intros Hin Ht. unfold middleware_needed. apply existsb_exists.
  exists d. split; [by apply list_elem_of_In | done].
Qed.

Lemma has_hostname_member l d :
  d ∈ l -> truthy_str (get (d_domain d)) = true ->
  existsb (fun d => truthy_str (get (d_domain d))) l = true.
Proof.
  intros Hin Ht. apply existsb_exists.
  exists d. split; [by apply list_elem_of_In | done].
Qed.

(** C5 (as amended). After
    [host_domain(domain="shop.example.com", target_service="twinboss_api",
    auto_ssl=true, redirect_to_https=true)], the other request fields at
    their declared defaults (so [entrypoint="web"]), the regenerated
    artifact holds the redirect-to-https middleware block, a router with
    the rule [Host(`shop.example.com`)] bound to the entry point [web]
    with the redirect middleware attached, and the backend [twinboss_api]
    whose server list has [http://twinboss_api:9000]. On a fresh store the
    request succeeds and the artifact is exactly [shop_artifact]. *)
Theorem shop_scenario :
  (forall clk w,
      bootstrapped (state_file w) ->
      exists r v w',
        host_domain clk shop_request w = (Ok (r, v), w')
        /\ dynamic_file w' = Some shop_artifact)
  /\ (forall clk w r v w',
        host_domain clk shop_request w = (Ok (r, v), w') ->
        exists lines0 router_name urls,
          dynamic_file w' = Some (Py.join Py.nl lines0 +:+ Py.nl)
          /\ infix_of middleware_block lines0
          /\ infix_of (shop_router_block router_name) lines0
          /\ infix_of (backend_block "twinboss_api" urls) lines0
          /\ "http://twinboss_api:9000" ∈ urls).
Proof.
  split.
  - intros clk [f dyn] Hb. simpl in Hb.
    destruct Hb as [-> | [-> | [now ->]]];
      (do 3 eexists; split; [reflexivity | vm_compute; reflexivity]).
  - intros clk w r v w'
      (host & s1 & st' & Hn & Hm & Hf & Hd & Hdyn)%host_domain_ok_inv.
    assert (host = "shop.example.com") as ->.
    { simpl in Hn. by injection Hn as <-. }
    apply host_domain_mut_inv in Hm as (Hdom & _ & _ & l & _ & Hl & Hcase).
    assert (r ∈ l
            /\ exists ex d, d_domain d = Val "shop.example.com"
                 /\ host_entry shop_request (t_handler clk)
                      (Some "twinboss_api") None (Some 9000) ex d = Some r)
      as [Hin (ex & d & Hdd & He)].
    { destruct (find_domain _ _) as [[i d] |] eqn:Hfind.
      - destruct Hcase as [-> He].
        apply find_domain_Some in Hfind as [Hi Hdd]. split; [| eauto].
        apply list_elem_of_lookup. exists i. apply list_lookup_insert_eq.
        by eapply lookup_lt_Some.
      - destruct Hcase as [-> He]. split.
        + apply elem_of_app. right. by apply list_elem_of_singleton.
        + by exists false, (new_domain_record "shop.example.com" (t_handler clk)). }
    destruct (host_entry_shop _ _ _ _ Hdd He) as (Ht & Hre & Hsn & Hurl & Hrl).
    rewrite Hd, Hl in Hdyn. simpl in Hdyn.
    set (L := sorted_by domain_key l) in *.
    assert (r ∈ L) as HinL by (unfold L; by rewrite sorted_by_perm).
    destruct (backends_member L r HinL Ht) as (S & HS & HuS).
    rewrite Hsn in HS. rewrite Hurl in HuS.
    exists (gen_lines L), (router_name_of r "shop.example.com"),
      (sorted_set S).
    split; [exact Hdyn |].
    rewrite gen_lines_parts.
    rewrite (middleware_needed_member L r HinL Hre).
    rewrite (has_hostname_member L r HinL Ht).
    destruct (decide (backends L = ∅)) as [Hempty | _].
    { rewrite Hempty in HS. by rewrite lookup_empty in HS. }
    split; [| split; [| split]].
    + apply infix_of_app_r, infix_of_app_l, infix_of_refl.
    + do 3 apply infix_of_app_r. apply infix_of_app_l.
      rewrite <- Hrl. by apply infix_of_flat_map.
    + do 6 apply infix_of_app_r. by apply backend_block_rendered.
    + by apply sorted_set_elem.
Qed.

(** * Further properties of the code *)

(** ** Strings *)

Lemma all_chars_app p a b :
  all_chars p (a +:+ b) = all_chars p a && all_chars p b.
Proof.
  induction a as [| c a IH]; [done |]. simpl. by rewrite IH, andb_assoc.
Qed.

Lemma all_chars_impl (p q : ascii -> bool) s :
  (forall c, p c = true -> q c = true) ->
  all_chars p s = true -> all_chars q s = true.
Proof.
  intros Hpq. induction s as [| c s IH]; [done |]. simpl.
  intros [Hc Hs]%andb_true_iff. by rewrite (Hpq c Hc), IH.
Qed.

Lemma all_chars_map_chars (p : ascii -> bool) f s :
  (forall c, p c = true -> p (f c) = true) ->
  all_chars p s = true -> all_chars p (Py.map_chars f s) = true.
Proof.
  intros Hf. induction s as [| c s IH]; [done |]. simpl.
  intros [Hc Hs]%andb_true_iff. by rewrite (Hf c Hc), IH.
Qed.

Lemma append_cons c s t : String c s +:+ t = String c (s +:+ t).
Proof. reflexivity. Qed.

Lemma append_empty_r s : s +:+ "" = s.
Proof. induction s as [| c s IH]; [done |]. rewrite append_cons. by f_equal. Qed.

Lemma append_assoc a b c : (a +:+ b) +:+ c = a +:+ (b +:+ c).
Proof.
  induction a as [| x a IH]; [done |]. rewrite !append_cons. by f_equal.
Qed.

Lemma lower_char_idem c : Py.lower_char (Py.lower_char c) = Py.lower_char c.
Proof. destruct c as [[] [] [] [] [] [] [] []]; reflexivity. Qed.

Lemma lower_idem s : Py.lower (Py.lower s) = Py.lower s.
Proof.
  unfold Py.lower. induction s as [| c s IH]; [done |]. simpl.
  by rewrite lower_char_idem, IH.
Qed.

Lemma lower_app a b : Py.lower (a +:+ b) = Py.lower a +:+ Py.lower b.
Proof.
  unfold Py.lower. induction a as [| c a IH]; [done |].
  rewrite append_cons. simpl. rewrite append_cons. by f_equal.
Qed.

Lemma lower_char_delimiter c :
  Py.has_char (Py.lower_char c) "/?#@" = Py.has_char c "/?#@".
Proof. destruct c as [[] [] [] [] [] [] [] []]; reflexivity. Qed.

Lemma until_delim_free s :
  all_chars (fun c => negb (Py.has_char c "/?#")) (until_delim s) = true.
Proof.
  induction s as [| c s IH]; [done |]. cbn [until_delim].
  destruct (Py.has_char c "/?#") eqn:E; [done |]. cbn [all_chars].
  by rewrite E, IH.
Qed.

Lemma rpartition_tail_chars p sep s :
  all_chars p s = true -> all_chars p (Py.rpartition_tail sep s) = true.
Proof.
  induction s as [| c s IH]; [done |]. simpl.
  intros [Hc Hs]%andb_true_iff.
  destruct (Py.has_char sep s); [by apply IH |].
  destruct (Ascii.eqb c sep); [done |]. simpl. by rewrite Hc, Hs.
Qed.

Lemma rpartition_tail_no_sep sep s :
  Py.has_char sep (Py.rpartition_tail sep s) = false.
Proof.
  induction s as [| c s IH]; [done |]. simpl.
  destruct (Py.has_char sep s) eqn:Hs; [done |].
  destruct (Ascii.eqb c sep) eqn:Hc; [done |]. simpl.
  by rewrite Ascii.eqb_sym, Hc, Hs.
Qed.

Lemma partition_chars p sep s a found b :
  Py.partition sep s = (a, found, b) -> all_chars p s = true ->
  all_chars p a = true /\ all_chars p b = true.
Proof.
  revert a found b. induction s as [| c s IH]; intros a found b; simpl.
  - intros [= <- <- <-]. done.
  - intros H [Hc Hs]%andb_true_iff. destruct (Ascii.eqb c sep).
    + injection H as <- <- <-. done.
    + destruct (Py.partition sep s) as [[a' f'] b'].
      injection H as <- <- <-. destruct (IH _ _ _ eq_refl Hs) as [Ha Hb].
      simpl. by rewrite Hc, Ha, Hb.
Qed.

Lemma no_char_all_chars sep s :
  Py.has_char sep s = false ->
  all_chars (fun c => negb (Ascii.eqb c sep)) s = true.
Proof.
  induction s as [| c s IH]; [done |]. simpl.
  intros [Hc Hs]%orb_false_iff. rewrite Ascii.eqb_sym, Hc. simpl. by apply IH.
Qed.

Lemma all_chars_and (p q : ascii -> bool) s :
  all_chars p s = true -> all_chars q s = true ->
  all_chars (fun c => p c && q c) s = true.
Proof.
  induction s as [| c s IH]; [done |]. simpl.
  intros [Hp Hps]%andb_true_iff [Hq Hqs]%andb_true_iff.
  by rewrite Hp, Hq, IH.
Qed.

(** ** The Domain Normalizer *)

(** The network location is empty or runs up to the first delimiter. *)
Lemma urlsplit_netloc_free url netloc :
  urlsplit_netloc url = Returns netloc ->
  all_chars (fun c => negb (Py.has_char c "/?#")) netloc = true.
Proof.
  unfold urlsplit_netloc. cbv zeta.
  match goal with
  | |- context [match ?u with EmptyString => _ | String _ _ => _ end] =>
      generalize u
  end.
  intros u. destruct u as [| c1 [| c2 rest]]; [by intros [= <-] | |].
  - destruct c1 as [[] [] [] [] [] [] [] []]; by intros [= <-].
  - destruct c1 as [[] [] [] [] [] [] [] []]; try by intros [= <-].
    destruct c2 as [[] [] [] [] [] [] [] []]; try by intros [= <-].
    destruct (xorb _ _); [done |].
    destruct (Py.has_char "[" _).
    + destruct (check_bracketed_netloc _); [done |].
      intros [= <-]. apply until_delim_free.
    + intros [= <-]. apply until_delim_free.
Qed.

Lemma hostname_of_chars (p : ascii -> bool) netloc host :
  (forall c, p c = true -> p (Py.lower_char c) = true) ->
  p "%"%char = true ->
  hostname_of netloc = Some host ->
  all_chars p netloc = true -> all_chars p host = true.
Proof.
  intros Hlow Hpct. unfold hostname_of. intros H Hn.
  pose proof (rpartition_tail_chars p "@" netloc Hn) as Hi.
  destruct (Py.partition "[" _) as [[pre have_open_br] bracketed] eqn:Hb.
  destruct (partition_chars p _ _ _ _ _ Hb Hi) as [_ Hbr].
  set (hostname := if have_open_br then _ else _) in H.
  assert (all_chars p hostname = true) as Hh.
  { unfold hostname. destruct have_open_br.
    - destruct (Py.partition "]" bracketed) as [[x f] y] eqn:Hx.
      by destruct (partition_chars p _ _ _ _ _ Hx Hbr).
    - destruct (Py.partition ":" _) as [[x f] y] eqn:Hx.
      by destruct (partition_chars p _ _ _ _ _ Hx Hi). }
  destruct (Py.nonempty hostname); [| done].
  destruct (Py.partition "%" hostname) as [[h percent] zone] eqn:Hp.
  destruct (partition_chars p _ _ _ _ _ Hp Hh) as [Hh1 Hz].
  injection H as <-. rewrite !all_chars_app. unfold Py.lower.
  rewrite (all_chars_map_chars p Py.lower_char h Hlow Hh1), Hz.
  destruct percent; simpl; by rewrite ?Hpct.
Qed.

Lemma hostname_of_no_at netloc host :
  hostname_of netloc = Some host ->
  all_chars (fun c => negb (Ascii.eqb c "@")) host = true.
Proof.
  unfold hostname_of. intros H.
  pose proof (no_char_all_chars "@" _ (rpartition_tail_no_sep "@" netloc))
    as Hi.
  set (p := fun c => negb (Ascii.eqb c "@")) in *.
  destruct (Py.partition "[" _) as [[pre have_open_br] bracketed] eqn:Hb.
  destruct (partition_chars p _ _ _ _ _ Hb Hi) as [_ Hbr].
  set (hostname := if have_open_br then _ else _) in H.
  assert (all_chars p hostname = true) as Hh.
  { unfold hostname. destruct have_open_br.
    - destruct (Py.partition "]" bracketed) as [[x f] y] eqn:Hx.
      by destruct (partition_chars p _ _ _ _ _ Hx Hbr).
    - destruct (Py.partition ":" _) as [[x f] y] eqn:Hx.
      by destruct (partition_chars p _ _ _ _ _ Hx Hi). }
  destruct (Py.nonempty hostname); [| done].
  destruct (Py.partition "%" hostname) as [[h percent] zone] eqn:Hp.
  destruct (partition_chars p _ _ _ _ _ Hp Hh) as [Hh1 Hz].
  injection H as <-. rewrite !all_chars_app. unfold Py.lower.
  rewrite (all_chars_map_chars p Py.lower_char h), Hz; [| | done].
  - by destruct percent.
  - intros c. unfold p. by destruct c as [[] [] [] [] [] [] [] []].
Qed.

Lemma delimiter_split c :
  negb (Py.has_char c "/?#@")
  = negb (Py.has_char c "/?#") && negb (Ascii.eqb c "@").
Proof. destruct c as [[] [] [] [] [] [] [] []]; reflexivity. Qed.

(** X1. A canonical hostname is never empty, is in lower case, and holds
    none of the characters that end a host or introduce it ([/], [?],
    [#], [@]). *)
Theorem normalize_canonical raw host :
  _normalize_domain raw = Returns host ->
  Py.nonempty host = true
  /\ Py.lower host = host
  /\ delimiter_free host = true.
Proof.
  intros H. split; [by eapply _normalize_domain_nonempty |].
  unfold _normalize_domain in H. destruct (negb _); [done |].
  destruct (urlsplit_netloc _) as [netloc | msg] eqn:Hu; [| done].
  destruct (hostname_of netloc) as [h |] eqn:Hh; [| done].
  injection H as <-. split; [apply lower_idem |].
  unfold delimiter_free, Py.lower. apply all_chars_map_chars.
  { intros c. by rewrite lower_char_delimiter. }
  apply (all_chars_impl
           (fun c => negb (Py.has_char c "/?#") && negb (Ascii.eqb c "@"))).
  { intros c. by rewrite delimiter_split. }
  apply all_chars_and.
  - eapply (hostname_of_chars _ netloc); [| done | exact Hh |].
    + intros c. by destruct c as [[] [] [] [] [] [] [] []].
    + by eapply urlsplit_netloc_free.
  - by eapply hostname_of_no_at.
Qed.

Lemma lstrip_by_all p s : all_chars p s = true -> Py.lstrip_by p s = "".
Proof.
  induction s as [| c s IH]; [done |]. simpl.
  intros [-> Hs]%andb_true_iff. by apply IH.
Qed.

(** X2. The normalizer rejects the empty string with [domain required],
    and a string of blanks only as an invalid domain, naming the string
    as it was given. *)
Theorem normalize_rejects_blank :
  _normalize_domain "" = ValueError "domain required"
  /\ forall raw,
      Py.nonempty raw = true -> all_chars Py.isspace raw = true ->
      _normalize_domain raw = ValueError ("invalid domain '" +:+ raw +:+ "'").
Proof.
  split; [reflexivity |]. intros raw Hne Hb. unfold _normalize_domain.
  rewrite Hne. simpl. unfold Py.strip. rewrite (lstrip_by_all _ _ Hb).
  reflexivity.
Qed.

Lemma host_char_facts c :
  host_char c = true ->
  visible c = true
  /\ Py.has_char c "/?#" = false
  /\ Py.has_char c "@:[]%" = false.
Proof. destruct c as [[] [] [] [] [] [] [] []]; vm_compute; auto. Qed.

Lemma scheme_char_facts c :
  scheme_char c = true -> visible c = true /\ Ascii.eqb ":" c = false.
Proof. destruct c as [[] [] [] [] [] [] [] []]; vm_compute; auto. Qed.

Lemma is_alpha_scheme_char c : Py.is_alpha c = true -> scheme_char c = true.
Proof. destruct c as [[] [] [] [] [] [] [] []]; vm_compute; auto. Qed.

Lemma visible_facts c :
  visible c = true ->
  Py.isspace c = false
  /\ (Py.code c <=? 32)%nat = false
  /\ Py.has_char c (String (ascii_of_nat 9) (String (ascii_of_nat 13) Py.nl))
     = false.
Proof. destruct c as [[] [] [] [] [] [] [] []]; vm_compute; auto. Qed.

Lemma all_chars_no_char (p : ascii -> bool) sep s :
  (forall c, p c = true -> Ascii.eqb sep c = false) ->
  all_chars p s = true -> Py.has_char sep s = false.
Proof.
  intros Hp. induction s as [| c s IH]; [done |]. simpl.
  intros [Hc Hs]%andb_true_iff. by rewrite (Hp c Hc), IH.
Qed.

Lemma lstrip_by_none p s :
  all_chars (fun c => negb (p c)) s = true -> Py.lstrip_by p s = s.
Proof.
  destruct s as [| c s]; [done |]. simpl.
  intros [Hc _]%andb_true_iff. by apply negb_true_iff in Hc as ->.
Qed.

Lemma rstrip_by_none p s :
  all_chars (fun c => negb (p c)) s = true -> Py.rstrip_by p s = s.
Proof.
  induction s as [| c s IH]; [done |]. simpl.
  intros [Hc Hs]%andb_true_iff. rewrite (IH Hs).
  apply negb_true_iff in Hc as ->. by destruct s.
Qed.

Lemma remove_char_none p s :
  all_chars (fun c => negb (p c)) s = true -> Py.remove_char p s = s.
Proof.
  induction s as [| c s IH]; [done |]. simpl.
  intros [Hc Hs]%andb_true_iff. apply negb_true_iff in Hc as ->.
  by rewrite (IH Hs).
Qed.

Lemma partition_none sep s :
  Py.has_char sep s = false -> Py.partition sep s = (s, false, "").
Proof.
  induction s as [| c s IH]; [done |]. simpl.
  intros [Hc Hs]%orb_false_iff. rewrite Ascii.eqb_sym, Hc. by rewrite (IH Hs).
Qed.

Lemma partition_append sep a b :
  Py.has_char sep a = false ->
  Py.partition sep (a +:+ String sep b) = (a, true, b).
Proof.
  induction a as [| c a IH]; simpl.
  - intros _. by rewrite Ascii.eqb_refl.
  - intros [Hc Ha]%orb_false_iff. rewrite Ascii.eqb_sym, Hc.
    by rewrite (IH Ha).
Qed.

Lemma rpartition_tail_none sep s :
  Py.has_char sep s = false -> Py.rpartition_tail sep s = s.
Proof.
  destruct s as [| c s]; [done |]. simpl.
  intros [Hc Hs]%orb_false_iff. by rewrite Hs, Ascii.eqb_sym, Hc.
Qed.

Lemma contains_append sub a b :
  Py.contains sub b = true -> Py.contains sub (a +:+ b) = true.
Proof.
  intros Hb. induction a as [| c a IH]; [done |].
  rewrite append_cons. simpl. rewrite IH. apply orb_true_r.
Qed.

Lemma contains_slashes_prefix r : Py.contains "//" ("//" +:+ r) = true.
Proof.
  change ("//" +:+ r) with (String "/" (String "/" r)). cbn [Py.contains].
  assert (String.prefix "//" (String "/" (String "/" r)) = true) as ->
    by (destruct r; reflexivity).
  reflexivity.
Qed.

Lemma contains_slashes_none s :
  Py.has_char "/" s = false -> Py.contains "//" s = false.
Proof.
  induction s as [| c s IH]; [done |]. simpl.
  intros [Hc Hs]%orb_false_iff. rewrite (IH Hs).
  destruct c as [[] [] [] [] [] [] [] []]; try done.
Qed.

Lemma until_delim_app h t :
  all_chars (fun c => negb (Py.has_char c "/?#")) h = true ->
  path_tail t = true -> until_delim (h +:+ t) = h.
Proof.
  intros Hh Ht. induction h as [| c h IH].
  - destruct t as [| c t]; [done |]. simpl in Ht.
    apply andb_true_iff in Ht as [Hc _]. apply Ascii.eqb_eq in Hc as ->.
    reflexivity.
  - rewrite append_cons. cbn [until_delim all_chars] in *.
    apply andb_true_iff in Hh as [Hc Hh]. apply negb_true_iff in Hc.
    rewrite Hc. f_equal. by apply IH.
Qed.

Ltac ascii_cases c :=
  destruct c as [[] [] [] [] [] [] [] []]; vm_compute; auto.

Lemma plain_host_facts h :
  plain_host h = true ->
  Py.nonempty h = true
  /\ all_chars visible h = true
  /\ all_chars (fun c => negb (Py.has_char c "/?#")) h = true
  /\ Py.has_char "/" h = false /\ Py.has_char "@" h = false
  /\ Py.has_char ":" h = false /\ Py.has_char "[" h = false
  /\ Py.has_char "]" h = false /\ Py.has_char "%" h = false.
Proof.
  intros [Hne Hh]%andb_true_iff. split; [done |].
  split; [eapply all_chars_impl; [| exact Hh]; intros c; ascii_cases c |].
  split; [eapply all_chars_impl; [| exact Hh]; intros c; ascii_cases c |].
  repeat split;
    (eapply all_chars_no_char; [| exact Hh]; intros c; ascii_cases c).
Qed.

Lemma path_tail_visible t : path_tail t = true -> all_chars visible t = true.
Proof.
  destruct t as [| c t]; [done |]. simpl.
  intros [Hc Ht]%andb_true_iff. apply Ascii.eqb_eq in Hc as ->. exact Ht.
Qed.

(** The network location of [scheme://host] and what follows the host. *)
Lemma urlsplit_plain s h t :
  is_scheme s = true -> plain_host h = true -> path_tail t = true ->
  Py.strip (s +:+ "://" +:+ h +:+ t) = s +:+ "://" +:+ h +:+ t
  /\ Py.contains "//" (s +:+ "://" +:+ h +:+ t) = true
  /\ urlsplit_netloc (s +:+ "://" +:+ h +:+ t) = Returns h.
Proof.
  intros Hs Hh Ht.
  destruct (plain_host_facts h Hh)
    as (Hne & Hvh & Hdel & Hsl & Hat & Hco & Hob & Hcb & Hpc).
  destruct s as [| c pre]; [done |]. simpl in Hs.
  apply andb_true_iff in Hs as [Hc Hpre].
  assert (all_chars scheme_char (String c pre) = true) as Hsch.
  { simpl. by rewrite (is_alpha_scheme_char c Hc), Hpre. }
  set (cand := String c pre +:+ "://" +:+ h +:+ t).
  assert (all_chars visible cand = true) as Hvis.
  { unfold cand. rewrite !all_chars_app.
    rewrite (all_chars_impl scheme_char visible (String c pre)); [| | done].
    - by rewrite Hvh, (path_tail_visible t Ht).
    - intros x Hx. by destruct (scheme_char_facts x Hx). }
  assert (Py.has_char ":" (String c pre) = false) as Hnc.
  { eapply all_chars_no_char; [| exact Hsch].
    intros x Hx. by destruct (scheme_char_facts x Hx). }
  split; [| split].
  - unfold Py.strip. rewrite lstrip_by_none, rstrip_by_none; try done;
      (eapply all_chars_impl; [| exact Hvis]; intros x Hx;
       by destruct (visible_facts x Hx) as (-> & _ & _)).
  - unfold cand.
    change ("://" +:+ h +:+ t) with (":" +:+ ("//" +:+ h +:+ t)).
    rewrite <- append_assoc. apply contains_append, contains_slashes_prefix.
  - unfold urlsplit_netloc. cbv zeta. fold cand.
    rewrite (lstrip_by_none _ cand).
    2: { eapply all_chars_impl; [| exact Hvis]. intros x Hx.
         by destruct (visible_facts x Hx) as (_ & -> & _). }
    rewrite (remove_char_none _ cand).
    2: { eapply all_chars_impl; [| exact Hvis]. intros x Hx.
         by destruct (visible_facts x Hx) as (_ & _ & ->). }
    assert (Py.partition ":" cand
            = (String c pre, true, "//" +:+ h +:+ t)) as ->.
    { unfold cand.
      change ("://" +:+ h +:+ t) with (String ":" ("//" +:+ h +:+ t)).
      by apply partition_append. }
    rewrite Hc, Hpre. cbn [andb].
    change ("//" +:+ h +:+ t) with (String "/" (String "/" (h +:+ t))).
    cbv iota beta. rewrite (until_delim_app h t Hdel Ht).
    by rewrite Hob, Hcb.
Qed.

Lemma hostname_of_plain h :
  plain_host h = true -> hostname_of h = Some (Py.lower h).
Proof.
  intros Hh.
  destruct (plain_host_facts h Hh)
    as (Hne & Hvh & Hdel & Hsl & Hat & Hco & Hob & Hcb & Hpc).
  unfold hostname_of. rewrite (rpartition_tail_none "@" h Hat).
  rewrite (partition_none "[" h Hob), (partition_none ":" h Hco).
  cbn [fst]. rewrite Hne, (partition_none "%" h Hpc).
  by rewrite !append_empty_r.
Qed.

(** X3. For a hostname of letters, digits, hyphens and dots the
    normalizer ignores letter case, the scheme and what follows the host:
    the bare hostname, and the hostname after any [scheme://] and before
    an optional path, all give the hostname in lower case. *)
Theorem normalize_plain_host h :
  plain_host h = true ->
  _normalize_domain h = Returns (Py.lower h)
  /\ (forall s t,
        is_scheme s = true -> path_tail t = true ->
        _normalize_domain (s +:+ "://" +:+ h +:+ t) = Returns (Py.lower h))
  /\ (forall h',
        plain_host h' = true -> Py.lower h' = Py.lower h ->
        _normalize_domain h' = _normalize_domain h).
Proof.
  intros Hh.
  assert (forall s t,
             is_scheme s = true -> path_tail t = true ->
             _normalize_domain (s +:+ "://" +:+ h +:+ t)
             = Returns (Py.lower h)) as Hgen.
  { intros s t Hs Ht.
    destruct (urlsplit_plain s h t Hs Hh Ht) as (Hstrip & Hcont & Hnet).
    unfold _normalize_domain.
    assert (Py.nonempty (s +:+ "://" +:+ h +:+ t) = true) as ->
      by (by destruct s).
    cbn [negb]. rewrite Hstrip, Hcont, Hnet, (hostname_of_plain h Hh).
    by rewrite lower_idem. }
  assert (forall g, plain_host g = true ->
            _normalize_domain g = Returns (Py.lower g)) as Hplain.
  { intros g Hg.
    destruct (plain_host_facts g Hg)
      as (Hne & Hvh & Hdel & Hsl & Hat & Hco & Hob & Hcb & Hpc).
    destruct (urlsplit_plain "http" g "" eq_refl Hg eq_refl)
      as (_ & _ & Hnet).
    rewrite append_empty_r in Hnet.
    change ("http" +:+ "://" +:+ g) with ("http://" +:+ g) in Hnet.
    unfold _normalize_domain. rewrite Hne. cbn [negb].
    assert (Py.strip g = g) as ->.
    { unfold Py.strip. rewrite lstrip_by_none, rstrip_by_none; try done;
        (eapply all_chars_impl; [| exact Hvh]; intros x Hx;
         by destruct (visible_facts x Hx) as (-> & _ & _)). }
    rewrite (contains_slashes_none g Hsl), Hnet, (hostname_of_plain g Hg).
    by rewrite lower_idem. }
  split; [by apply Hplain |]. split; [exact Hgen |].
  intros h' Hh' Hlow. by rewrite (Hplain h' Hh'), (Hplain h Hh), Hlow.
Qed.

(** ** Lists of hostnames *)

Lemma fromkeys_go_complete seen l x :
  x ∈ l -> x ∉ seen -> x ∈ fromkeys_go seen l.
Proof.
  revert seen. induction l as [| y l IH]; intros seen Hx Hs; [by inv Hx |].
  simpl. destruct (decide (y ∈ seen)) as [Hy | Hy].
  - apply elem_of_cons in Hx as [-> | Hx]; [done | by apply IH].
  - destruct (decide (x = y)) as [-> | Hne]; [by left |]. right.
    apply elem_of_cons in Hx as [-> | Hx]; [done |]. apply IH; [done |].
    intros [Hxy | Hxs]%elem_of_union; [| done].
    by apply elem_of_singleton in Hxy.
Qed.

Lemma dict_fromkeys_elem l x : x ∈ dict_fromkeys l <-> x ∈ l.
Proof.
  unfold dict_fromkeys. split.
  - intros Hx. by apply (fromkeys_go_spec ∅ l).
  - intros Hx. apply fromkeys_go_complete; [done |]. apply not_elem_of_empty.
Qed.

Lemma fromkeys_go_sorted (R : relation string) seen l :
  StronglySorted R l -> StronglySorted R (fromkeys_go seen l).
Proof.
  intros Hs. revert seen.
  induction Hs as [| y l Hs IH Hall]; intros seen; simpl; [constructor |].
  destruct (decide (y ∈ seen)); [apply IH |].
  constructor; [apply IH |]. apply Forall_forall. intros x Hx.
  rewrite Forall_forall in Hall. apply Hall.
  by apply (fromkeys_go_spec ({[y]} ∪ seen) l).
Qed.

Lemma sorted_strings (l : list string) :
  StronglySorted String.le (sorted_by id l).
Proof. exact (sorted_by_sorted id l). Qed.

Lemma sorted_nodup_strict (l : list string) :
  StronglySorted String.le l -> NoDup l -> StronglySorted (strict String.le) l.
Proof.
  intros Hs Hnd. apply (key_le_NoDup_lt id l); [exact Hs |].
  by rewrite map_id.
Qed.

(** X4. The bulk normalizer returns the canonical hostnames of the
    entries that normalize, each once and in ascending order; entries
    that fail to normalize leave no trace. *)
Theorem normalize_domains_spec (l : list string) :
  StronglySorted (strict String.le) (_normalize_domains l)
  /\ forall host,
      host ∈ _normalize_domains l
      <-> exists raw, raw ∈ l /\ _normalize_domain raw = Returns host.
Proof.
  unfold _normalize_domains. set (cleaned := omap _ l). split.
  - apply sorted_nodup_strict.
    + apply fromkeys_go_sorted, sorted_strings.
    + apply (fromkeys_go_spec ∅).
  - intros host. rewrite dict_fromkeys_elem, sorted_by_perm.
    unfold cleaned. rewrite list_elem_of_omap. split.
    + intros (raw & Hraw & Hn). exists raw. split; [done |].
      destruct (_normalize_domain raw); congruence.
    + intros (raw & Hraw & Hn). exists raw. split; [done |]. by rewrite Hn.
Qed.

(** X5. The hostnames collected from the environment are the canonical
    hostnames of the non-blank entries of [DOMAINS] (split at commas) and
    of the non-blank [DOMAIN_*] values that normalize, each once and in
    ascending order. *)
Theorem collect_domains_spec (env : environ) :
  StronglySorted (strict String.le) (_collect_domains_from_env env)
  /\ forall host,
      host ∈ _collect_domains_from_env env
      <-> exists raw,
            (raw ∈ Py.split "," (env_DOMAINS env)
             \/ raw ∈ env_DOMAIN_values env)
            /\ Py.nonempty (Py.strip raw) = true
            /\ _normalize_domain (Py.strip raw) = Returns host.
Proof.
  split.
  - apply sorted_nodup_strict; [apply sorted_strings |].
    apply _collect_domains_from_env_spec.
  - intros host. unfold _collect_domains_from_env.
    rewrite sorted_by_perm, dict_fromkeys_elem, list_elem_of_omap.
    split.
    + intros (item & Hitem & Hn).
      apply elem_of_elements, elem_of_union in Hitem.
      assert (exists raw,
                 (raw ∈ Py.split "," (env_DOMAINS env)
                  \/ raw ∈ env_DOMAIN_values env)
                 /\ Py.nonempty (Py.strip raw) = true
                 /\ item = Py.strip raw) as (raw & Hraw & Hne & ->).
      { destruct Hitem as [Hi | Hi];
          apply elem_of_list_to_set, list_elem_of_filter in Hi as [Hne Hi];
          apply list_elem_of_fmap in Hi as (raw & -> & Hraw);
          exists raw; auto. }
      exists raw. split; [done |]. split; [done |].
      destruct (_normalize_domain (Py.strip raw)); congruence.
    + intros (raw & Hraw & Hne & Hn). exists (Py.strip raw).
      split; [| by rewrite Hn].
      apply elem_of_elements, elem_of_union.
      destruct Hraw as [Hraw | Hraw]; [left | right];
        apply elem_of_list_to_set, list_elem_of_filter;
        (split; [done |]); by apply list_elem_of_fmap_2.
Qed.

(** ** Seeding is idempotent *)

Lemma existing_hosts_elem l h :
  h ∈ existing_hosts l
  <-> exists d, d ∈ l /\ get (d_domain d) = Some h /\ Py.nonempty h = true.
Proof.
  unfold existing_hosts. rewrite list_elem_of_omap. split.
  - intros (d & Hd & Hh). exists d. split; [done |].
    destruct (get (d_domain d)) as [x |]; simpl in Hh; [| done].
    destruct (Py.nonempty x) eqn:Hx; [| done]. by injection Hh as ->.
  - intros (d & Hd & Hg & Hne). exists d. split; [done |].
    rewrite Hg. simpl. by rewrite Hne.
Qed.

Lemma existing_hosts_seeded ts D missing h :
  Forall (fun host => Py.nonempty host = true) missing ->
  h ∈ existing_hosts (sorted_by domain_key (D ++ map (seed_entry ts) missing))
  <-> h ∈ existing_hosts D \/ h ∈ missing.
Proof.
  intros Hne. rewrite !existing_hosts_elem. split.
  - intros (d & Hd & Hg & Hh). rewrite sorted_by_perm in Hd.
    apply elem_of_app in Hd as [Hd | Hd]; [left; eauto |]. right.
    apply list_elem_of_fmap in Hd as (m & -> & Hm). simpl in Hg.
    by injection Hg as <-.
  - intros [(d & Hd & Hg & Hh) | Hm].
    + exists d. rewrite sorted_by_perm. split; [| done].
      apply elem_of_app. by left.
    + exists (seed_entry ts h). rewrite sorted_by_perm. split.
      * apply elem_of_app. right. by apply list_elem_of_fmap_2.
      * split; [done |]. rewrite Forall_forall in Hne. by apply Hne.
Qed.

Lemma filter_nil_all {A} (P : A -> Prop) `{!forall x, Decision (P x)}
    (l : list A) :
  (forall x, x ∈ l -> ~ P x) -> filter P l = [].
Proof.
  induction l as [| x l IH]; intros Hall; [done |].
  rewrite filter_cons_False; [| apply Hall; by left].
  apply IH. intros y Hy. apply Hall. by right.
Qed.

Lemma filter_nil_none {A} (P : A -> Prop) `{!forall x, Decision (P x)}
    (l : list A) x :
  filter P l = [] -> x ∈ l -> ~ P x.
Proof. intros Hf Hx HP. by apply (filter_nil_not_elem_of P l x Hf HP). Qed.

(** What a seeding that returns did: nothing to collect; nothing
    missing; or the missing hostnames added and the collection sorted. *)
Lemma seed_ok_inv clk env w w1 :
  seed_domains_from_env clk env w = (Ok (), w1) ->
  let collected := _collect_domains_from_env env in
  let D := file_domains (state_file w) in
  let missing := filter (fun d => d ∉ existing_hosts D) collected in
  (collected = [] /\ w1 = w)
  \/ (collected <> [] /\ missing = []
      /\ w1 = world_with (file_read (t_boot clk) (state_file w)) w
      /\ state_file w <> Undecodable)
  \/ (missing <> []
      /\ file_domains (state_file w1)
         = sorted_by domain_key (D ++ map (seed_entry (t_handler clk)) missing)
      /\ exists st, state_file w1 = Persisted st).
Proof.
  unfold seed_domains_from_env.
  destruct (_collect_domains_from_env env) as [| c collected] eqn:Hc.
  { intros [= <-]. by left. }
  unfold read_state.
  pose proof (read_domains (t_boot clk) (state_file w)) as Hd.
  pose proof (read_file_domains (t_boot clk) (state_file w)) as Hf.
  assert (_read_state_unlocked (t_boot clk) (state_file w) = None
          \/ state_file w <> Undecodable) as Hund.
  { destruct (state_file w); simpl; auto. }
  unfold document_of, file_read in *.
  destruct (_read_state_unlocked _ _) as [[snapshot f1] |] eqn:Hread;
    [| done].
  destruct Hund as [? | Hund]; [done |].
  rewrite Hd. cbn zeta.
  destruct (filter _ (c :: collected)) as [| m missing] eqn:Hm.
  { intros [= <-]. right. left. done. }
  cbn [state_file].
  destruct (update_state _ _ f1) as [[[st r] |] f'] eqn:Hu; [| done].
  intros [= <-]. right. right. split; [done |]. cbn [state_file].
  pose proof (update_state_committed _ _ _ _ _ _ Hu) as ->.
  split; [| by eexists].
  apply update_state_inv in Hu as (s1 & Hmut & Hdom & _). simpl.
  rewrite Hdom. unfold seed_mut in Hmut.
  pose proof (read_domains (t_boot clk) f1) as Hd1. rewrite Hf in Hd1.
  rewrite Hd1 in Hmut.
  destruct (sort_domains _) as [l' |] eqn:Hs; [| done].
  simpl in Hmut. injection Hmut as <- _. simpl.
  eapply (sort_domains_Some _ _ (seed_entry (t_handler clk) m)) in Hs
    as [-> _]; [done | | by eexists].
  apply elem_of_app. right. by left.
Qed.

Lemma file_read_settled now now' f :
  file_read now' (file_read now f) = file_read now f.
Proof. by destruct f. Qed.

Lemma read_state_file_read now w :
  state_file w <> Undecodable ->
  read_state now w
  = Some (document_of now (state_file w),
          world_with (file_read now (state_file w)) w).
Proof. unfold read_state, document_of, file_read. by destruct (state_file w). Qed.

(** X6. Seeding from the environment is idempotent: after a seeding that
    returns, a second seeding of the same environment finds nothing
    missing and leaves both files as they are. The hostnames of the
    collection are then those it had together with the collected ones. *)
Theorem seed_idempotent clk clk' env w w1 :
  seed_domains_from_env clk env w = (Ok (), w1) ->
  seed_domains_from_env clk' env w1 = (Ok (), w1)
  /\ forall host,
      host ∈ existing_hosts (file_domains (state_file w1))
      <-> host ∈ existing_hosts (file_domains (state_file w))
          \/ host ∈ _collect_domains_from_env env.
Proof.
  intros H. pose proof (seed_ok_inv _ _ _ _ H) as Hinv. cbn zeta in Hinv.
  destruct (_collect_domains_from_env_spec env) as [_ Hne].
  set (collected := _collect_domains_from_env env) in *.
  set (D := file_domains (state_file w)) in *.
  set (missing := filter (fun d => d ∉ existing_hosts D) collected) in *.
  assert (forall host,
             host ∈ existing_hosts (file_domains (state_file w1))
             <-> host ∈ existing_hosts D \/ host ∈ collected) as Hhosts.
  { intros host.
    destruct Hinv as [[Hc ->] | [(Hc & Hm & -> & _) | (Hm & Hf & _)]].
    - rewrite Hc. fold D. split; [auto |]. intros [? | Hx]; [done | by inv Hx].
    - assert (file_domains
                (state_file
                   (world_with (file_read (t_boot clk) (state_file w)) w))
              = D) as ->.
      { unfold D. simpl. apply read_file_domains. }
      split; [auto |]. intros [? | Hx]; [done |].
      destruct (decide (host ∈ existing_hosts D)) as [? | Hn]; [done |].
      exfalso. by apply (filter_nil_none _ collected host Hm Hx).
    - rewrite Hf. rewrite existing_hosts_seeded.
      2: { apply Forall_forall. intros x Hx.
           apply list_elem_of_filter in Hx as [_ Hx].
           rewrite Forall_forall in Hne. by apply Hne. }
      split.
      + intros [? | Hx]; [by left |]. right.
        by apply list_elem_of_filter in Hx as [_ ?].
      + intros [? | Hx]; [by left |].
        destruct (decide (host ∈ existing_hosts D)) as [? | Hn]; [by left |].
        right. by apply list_elem_of_filter. }
  split; [| exact Hhosts].
  unfold seed_domains_from_env. fold collected.
  destruct collected as [| c rest] eqn:Hc.
  { reflexivity. }
  assert (exists snapshot,
             read_state (t_boot clk') w1 = Some (snapshot, w1)
             /\ file_domains (state_file w1) = default [] (domains snapshot))
    as (snapshot & -> & Hd1).
  { destruct Hinv
      as [[? _] | [(_ & _ & -> & Hund) | (_ & _ & st & Hst)]]; [done | |].
    - unfold read_state, file_read. destruct w as [f dyn]. simpl in *.
      destruct f; [by eexists | by eexists | done | by eexists].
    - unfold read_state. destruct w1 as [f dyn]. simpl in Hst. subst f.
      by eexists. }
  rewrite <- Hd1.
  rewrite filter_nil_all; [done |].
  intros host Hx Hn. apply Hn. apply Hhosts. by right.
Qed.

(** ** Requests that do not succeed, and the meta block *)

Lemma world_with_same w : world_with (state_file w) w = w.
Proof. by destruct w. Qed.

Lemma update_state_failed_world {R} clk
    (mutator : State -> option (State * R)) w st f' :
  state_file w = Persisted st ->
  update_state clk mutator (state_file w) = (None, f') ->
  world_with f' w = w.
Proof.
  intros Hw Hu. rewrite Hw in Hu. apply update_state_failed in Hu as ->.
  rewrite <- Hw. apply world_with_same.
Qed.

Lemma host_domain_failed clk p w st :
  state_file w = Persisted st ->
  is_ok (host_domain clk p w).1 = false -> (host_domain clk p w).2 = w.
Proof.
  intros Hw. unfold host_domain. destruct (_ && _); [done |].
  destruct (_normalize_domain _) as [host | msg]; [| done].
  destruct (update_state _ _ _) as [[[st' r] |] f'] eqn:Hu; [done |].
  intros _. by eapply update_state_failed_world.
Qed.

Lemma setup_date_storage_failed clk p w st :
  state_file w = Persisted st ->
  is_ok (setup_date_storage clk p w).1 = false ->
  (setup_date_storage clk p w).2 = w.
Proof.
  intros Hw. unfold setup_date_storage.
  destruct (update_state _ _ _) as [[[st' r] |] f'] eqn:Hu; [done |].
  intros _. by eapply update_state_failed_world.
Qed.

Lemma register_agent_failed clk p w st :
  state_file w = Persisted st ->
  is_ok (register_agent clk p w).1 = false -> (register_agent clk p w).2 = w.
Proof.
  intros Hw. unfold register_agent. destruct (negb _); [done |].
  destruct (update_state _ _ _) as [[[st' r] |] f'] eqn:Hu; [done |].
  intros _. by eapply update_state_failed_world.
Qed.

Lemma agents_create_failed clk p w st :
  state_file w = Persisted st ->
  is_ok (agents_create clk p w).1 = false -> (agents_create clk p w).2 = w.
Proof.
  intros Hw. unfold agents_create.
  destruct (update_state _ _ _) as [[[st' r] |] f'] eqn:Hu; [done |].
  intros _. by eapply update_state_failed_world.
Qed.

(** X7. A request that does not succeed, whether it is rejected or ends
    in an uncaught exception, leaves a stored document and the artifact
    exactly as they were. *)
Theorem failed_request_changes_nothing clk rq w st w' :
  state_file w = Persisted st ->
  handle clk rq w = (false, w') ->
  w' = w.
Proof.
  intros Hw. destruct rq as [p | p | p | p]; simpl.
  - pose proof (host_domain_failed clk p w st Hw) as H.
    destruct (host_domain clk p w) as [r w1]. intros [= Hr <-]. by apply H.
  - pose proof (setup_date_storage_failed clk p w st Hw) as H.
    destruct (setup_date_storage clk p w) as [r w1].
    intros [= Hr <-]. by apply H.
  - pose proof (register_agent_failed clk p w st Hw) as H.
    destruct (register_agent clk p w) as [r w1]. intros [= Hr <-]. by apply H.
  - pose proof (agents_create_failed clk p w st Hw) as H.
    destruct (agents_create clk p w) as [r w1]. intros [= Hr <-]. by apply H.
Qed.

(** One request on a stored document: the revision goes up by one if it
    succeeds and stays if it does not. *)
Lemma handle_revision_step clk rq w st n :
  state_file w = Persisted st -> revision_slot st = Val n ->
  exists st',
    state_file (handle clk rq w).2 = Persisted st'
    /\ revision_slot st'
       = Val (n + (if (handle clk rq w).1 then 1 else 0)).
Proof.
  intros Hw Hn. destruct (handle clk rq w) as [[] w'] eqn:Hh; simpl.
  - by apply (handle_ok_revision clk rq w w' st n).
  - assert (w' = w) as ->.
    { destruct rq as [p | p | p | p]; simpl in Hh.
      + pose proof (host_domain_failed clk p w st Hw) as H.
        destruct (host_domain clk p w) as [r w1]. injection Hh as Hr <-.
        by apply H.
      + pose proof (setup_date_storage_failed clk p w st Hw) as H.
        destruct (setup_date_storage clk p w) as [r w1].
        injection Hh as Hr <-. by apply H.
      + pose proof (register_agent_failed clk p w st Hw) as H.
        destruct (register_agent clk p w) as [r w1]. injection Hh as Hr <-.
        by apply H.
      + pose proof (agents_create_failed clk p w st Hw) as H.
        destruct (agents_create clk p w) as [r w1]. injection Hh as Hr <-.
        by apply H. }
    exists st. split; [done |]. by rewrite Z.add_0_r.
Qed.

Lemma count_ok_le rqs w : (count_ok rqs w <= length rqs)%nat.
Proof.
  revert w. induction rqs as [| [clk rq] rqs IH]; intros w; simpl; [lia |].
  destruct (handle clk rq w) as [ok w1]. specialize (IH w1).
  destruct ok; lia.
Qed.

(** X8. Whatever the outcomes of a sequence of requests on a stored
    document of revision [R], the document stored at the end has revision
    [R] plus the number of requests that succeeded: the revision never
    goes down, never skips, and moves by at most the number of
    requests. *)
Theorem revision_counts_successes rqs w st R :
  state_file w = Persisted st -> revision_slot st = Val R ->
  exists st',
    state_file (run rqs w).2 = Persisted st'
    /\ revision_slot st' = Val (R + Z.of_nat (count_ok rqs w))
    /\ (count_ok rqs w <= length rqs)%nat.
Proof.
  revert w st R. induction rqs as [| [clk rq] rqs IH]; intros w st R Hw HR.
  - simpl. exists st. split; [done |]. split; [| lia]. by rewrite Z.add_0_r.
  - destruct (handle_revision_step clk rq w st R Hw HR) as (st1 & Hw1 & HR1).
    pose proof (count_ok_le ((clk, rq) :: rqs) w) as Hle.
    simpl in *. destruct (handle clk rq w) as [ok w1]. simpl in Hw1, HR1.
    destruct (IH w1 st1 _ Hw1 HR1) as (st2 & Hw2 & HR2 & _).
    destruct (run rqs w1) as [oks w2]. simpl in *.
    exists st2. split; [done |]. split; [| done].
    rewrite HR2. f_equal. destruct ok; lia.
Qed.

(** A request that succeeds is one committed [update_state] whose mutator
    leaves the meta block alone. *)
Lemma handle_ok_update clk rq w w' :
  handle clk rq w = (true, w') ->
  exists (R : Type) (mutator : State -> option (State * R)) st r,
    keeps_meta mutator
    /\ update_state clk mutator (state_file w) = (Some (st, r), state_file w').
Proof.
  destruct rq as [p | p | p | p]; simpl.
  - unfold host_domain. destruct (_ && _); [done |].
    destruct (_normalize_domain _) as [host | msg]; [| done].
    destruct (update_state _ _ _) as [[[st r] |] f'] eqn:Hu; [| done].
    intros [= <-]. simpl. eexists _, _, st, r. split; [| exact Hu].
    apply host_domain_mut_keeps_meta.
  - unfold setup_date_storage.
    destruct (update_state _ _ _) as [[[st r] |] f'] eqn:Hu; [| done].
    intros [= <-]. simpl. eexists _, _, st, r. split; [| exact Hu].
    apply setup_date_storage_mut_keeps_meta.
  - unfold register_agent. destruct (negb _); [done |].
    destruct (update_state _ _ _) as [[[st r] |] f'] eqn:Hu; [| done].
    intros [= <-]. simpl. eexists _, _, st, r. split; [| exact Hu].
    apply register_agent_mut_keeps_meta.
  - unfold agents_create.
    destruct (update_state _ _ _) as [[[st r] |] f'] eqn:Hu; [| done].
    intros [= <-]. simpl. eexists _, _, st, r. split; [| exact Hu].
    apply agents_create_mut_keeps_meta.
Qed.

Lemma update_state_meta {R} clk (mutator : State -> option (State * R))
    f st r f' :
  update_state clk mutator f = (Some (st, r), f') ->
  meta_consistent (t_commit clk) st.
Proof.
  unfold update_state.
  destruct (_read_state_unlocked _ f) as [[s0 f1] |]; [| done].
  destruct (mutator s0) as [[s1 r1] |]; [| done].
  destruct (revision_of _); [| done].
  intros [= <- _ _]. eexists. repeat split.
Qed.

Lemma update_state_created_at {R} clk
    (mutator : State -> option (State * R)) st0 st r f' c :
  keeps_meta mutator ->
  meta_created_at st0 = Val c ->
  update_state clk mutator (Persisted st0) = (Some (st, r), f') ->
  meta_created_at st = Val c.
Proof.
  intros Hk Hc. unfold update_state. simpl.
  destruct (mutator st0) as [[s1 r1] |] eqn:Hm; [| done].
  apply Hk in Hm. destruct (revision_of _); [| done].
  intros [= <- _ _]. unfold meta_created_at in *. simpl.
  rewrite Hm. by rewrite Hc.
Qed.

(** X9. After every request that succeeds the meta block of the stored
    document agrees with the document: [updated_at] is the time of the
    commit, [domain_count] and [agent_count] are the sizes of the two
    collections, and [date_storage_status] is the status of the storage
    profile ([uninitialized] when the profile has none). The
    [created_at] of a stored document survives every such request. *)
Theorem meta_follows_document clk rq w w' :
  handle clk rq w = (true, w') ->
  exists st,
    state_file w' = Persisted st
    /\ meta_consistent (t_commit clk) st
    /\ forall st0 c,
        state_file w = Persisted st0 -> meta_created_at st0 = Val c ->
        meta_created_at st = Val c.
Proof.
  intros (R & mutator & st & r & Hk & Hu)%handle_ok_update.
  exists st. split; [by apply update_state_committed in Hu |].
  split; [by eapply update_state_meta |].
  intros st0 c Hw Hc. rewrite Hw in Hu.
  by eapply update_state_created_at.
Qed.

(** ** Start-up *)

(** X10. [_ensure_state_file] always leaves a document in the state
    file: a stored document is left as it is, a missing or unreadable
    file is replaced by the default document. Running it again changes
    nothing, and from then on every request, whatever its outcome,
    leaves a document in the state file. *)
Theorem state_file_stays_a_document :
  (forall now f,
      _ensure_state_file now f
      = match f with
        | Persisted st => Persisted st
        | _ => Persisted (_default_state now)
        end)
  /\ (forall now now' f,
        _ensure_state_file now' (_ensure_state_file now f)
        = _ensure_state_file now f)
  /\ (forall rqs w st,
        state_file w = Persisted st ->
        exists st', state_file (run rqs w).2 = Persisted st').
Proof.
  split; [by intros now [] |]. split; [by intros now now' [] |].
  induction rqs as [| [clk rq] rqs IH]; intros w st Hw; simpl; [eauto |].
  assert (exists st1, state_file (handle clk rq w).2 = Persisted st1)
    as [st1 Hw1].
  { destruct (handle clk rq w) as [[] w1] eqn:Hh; simpl.
    - apply handle_ok_update in Hh as (R & mutator & st1 & r & _ & Hu).
      apply update_state_committed in Hu. eauto.
    - destruct rq as [p | p | p | p]; simpl in Hh.
      + pose proof (host_domain_failed clk p w st Hw) as H.
        destruct (host_domain clk p w) as [r w2]. injection Hh as Hr <-.
        simpl in H. rewrite (H Hr). eauto.
      + pose proof (setup_date_storage_failed clk p w st Hw) as H.
        destruct (setup_date_storage clk p w) as [r w2].
        injection Hh as Hr <-. simpl in H. rewrite (H Hr). eauto.
      + pose proof (register_agent_failed clk p w st Hw) as H.
        destruct (register_agent clk p w) as [r w2]. injection Hh as Hr <-.
        simpl in H. rewrite (H Hr). eauto.
      + pose proof (agents_create_failed clk p w st Hw) as H.
        destruct (agents_create clk p w) as [r w2]. injection Hh as Hr <-.
        simpl in H. rewrite (H Hr). eauto. }
  destruct (handle clk rq w) as [ok w1]. simpl in Hw1.
  destruct (IH w1 st1 Hw1) as [st2 Hw2].
  destruct (run rqs w1) as [oks w2]. simpl in *. eauto.
Qed.

(** ** Hosting a domain *)

Lemma sorted_unique_find l i d host :
  sorted_unique l -> l !! i = Some d -> d_domain d = Val host ->
  find_domain host l = Some (i, d).
Proof.
  intros [Hall Hs] Hi Hd. unfold find_domain. apply list_find_Some.
  split; [done |]. split; [by rewrite Hd |].
  intros j y Hj Hlt Hy.
  pose proof (key_lt_NoDup domain_key l Hs) as Hnd.
  assert (j = i) as ->; [| lia].
  eapply NoDup_lookup; [exact Hnd | |].
  - rewrite list_lookup_fmap, Hj. reflexivity.
  - rewrite list_lookup_fmap, Hi. simpl. f_equal.
    rewrite (domain_key_host d host Hd).
    unfold domain_key. by rewrite Hy.
Qed.

Lemma host_entry_fields p ts tsv turl tport ex d r :
  host_entry p ts tsv turl tport ex d = Some r ->
  d_domain r = d_domain d /\ d_id r = d_id d
  /\ d_created_at r = d_created_at d
  /\ d_updated_at r = Val ts
  /\ d_history r
     = Val (match d_history d with Val h => h | _ => [] end
            ++ [ {| action := if ex then "updated" else "provisioned";
                    at_time := ts; target := put (or_str tsv turl) |} ]).
Proof.
  unfold host_entry.
  destruct (append_history _ _) as [h |] eqn:Hh; [| done]. simpl.
  destruct (if truthy_str (get (d_router_name d)) then _ else _)
    as [rn |]; [| done].
  simpl. intros [= <-]. simpl. repeat split.
  unfold append_history in Hh. destruct (d_history d); by simplify_eq.
Qed.

(** X11. On a collection in store order, [host_domain] for a hostname
    that has a record replaces that record in place and touches no other:
    the new record has the same [domain], [id] and [created_at], the time
    of the call as [updated_at], and the old history with exactly one
    [updated] entry appended. *)
Theorem host_domain_updates_in_place clk p w r v w' host i d :
  sorted_unique (file_domains (state_file w)) ->
  _normalize_domain (h_domain p) = Returns host ->
  file_domains (state_file w) !! i = Some d ->
  d_domain d = Val host ->
  host_domain clk p w = (Ok (r, v), w') ->
  file_domains (state_file w') = <[ i := r ]> (file_domains (state_file w))
  /\ d_domain r = Val host /\ d_id r = d_id d
  /\ d_created_at r = d_created_at d
  /\ d_updated_at r = Val (t_handler clk)
  /\ exists e,
      action e = "updated" /\ at_time e = t_handler clk
      /\ d_history r
         = Val (match d_history d with Val h => h | _ => [] end ++ [e]).
Proof.
  intros Hinv Hn Hi Hd
    (host' & s1 & st' & Hn' & Hm & Hf & Hdom & _)%host_domain_ok_inv.
  assert (host' = host) as -> by congruence.
  pose proof (sorted_unique_find _ _ _ _ Hinv Hi Hd) as Hfind.
  apply host_domain_mut_inv in Hm as (Hdr & _ & _ & l & _ & Hl & Hcase).
  rewrite read_domains, Hfind in Hcase. destruct Hcase as [-> He].
  destruct (host_entry_fields _ _ _ _ _ _ _ _ He)
    as (H1 & H2 & H3 & H4 & H5).
  split.
  - rewrite Hf. simpl. rewrite Hdom, Hl. simpl.
    apply sorted_by_fixed, key_lt_le.
    eapply sorted_insert_same_key; [exact Hi | | apply Hinv].
    apply domain_key_eq. congruence.
  - split; [done |]. split; [done |]. split; [done |]. split; [done |].
    eexists. split; [| split; [| exact H5]]; reflexivity.
Qed.

(** X12. [host_domain] for a hostname that has no record adds exactly
    one record and keeps the others: the new record has the canonical
    hostname, the fingerprint of the hostname as [id], the time of the
    call as [created_at], a history of the single entry [provisioned],
    and the hostname with its dots turned into hyphens as router name. *)
Theorem host_domain_adds_one clk p w r v w' host :
  _normalize_domain (h_domain p) = Returns host ->
  records_for host (file_domains (state_file w)) = [] ->
  host_domain clk p w = (Ok (r, v), w') ->
  file_domains (state_file w') ≡ₚ r :: file_domains (state_file w)
  /\ d_domain r = Val host
  /\ d_id r = Val (blake2s_hex6 host)
  /\ d_created_at r = Val (t_handler clk)
  /\ d_router_name r = Val (dashed host)
  /\ exists e,
      action e = "provisioned" /\ at_time e = t_handler clk
      /\ d_history r = Val [e].
Proof.
  intros Hn Hfresh
    (host' & s1 & st' & Hn' & Hm & Hf & Hdom & _)%host_domain_ok_inv.
  assert (host' = host) as -> by congruence.
  apply find_domain_None in Hfresh.
  apply host_domain_mut_inv in Hm as (Hdr & _ & _ & l & _ & Hl & Hcase).
  rewrite read_domains, Hfresh in Hcase. destruct Hcase as [-> He].
  destruct (host_entry_fields _ _ _ _ _ _ _ _ He)
    as (H1 & H2 & H3 & H4 & H5).
  split.
  - rewrite Hf. simpl. rewrite Hdom, Hl. simpl.
    rewrite sorted_by_perm. by rewrite Permutation_app_comm.
  - split; [done |]. split; [done |]. split; [done |]. split.
    + unfold host_entry in He. simpl in He. by injection He as <-.
    + eexists. split; [| split; [| exact H5]]; reflexivity.
Qed.

(** ** The backend of a hosted record *)

Lemma rstrip_by_idem p s :
  Py.rstrip_by p (Py.rstrip_by p s) = Py.rstrip_by p s.
Proof.
  induction s as [| c s IH]; [done |]. simpl.
  destruct (Py.rstrip_by p s) as [| x r] eqn:Hr.
  - destruct (p c) eqn:Hc; [done |]. simpl. by rewrite Hc.
  - simpl in *. by rewrite IH.
Qed.

Lemma host_entry_target p ts tsv turl tport ex d r :
  host_entry p ts tsv turl tport ex d = Some r ->
  d_target_service r = put tsv /\ d_target_port r = put tport
  /\ d_target_url r = put turl
  /\ d_target_scheme r
     = Val (if Py.nonempty (h_target_scheme p) then h_target_scheme p
            else "http").
Proof.
  unfold host_entry.
  destruct (append_history _ _) as [h |]; [| done]. simpl.
  destruct (if truthy_str (get (d_router_name d)) then _ else _)
    as [rn |]; [| done].
  simpl. by intros [= <-].
Qed.

Lemma host_domain_ok_entry clk p w r v w' :
  host_domain clk p w = (Ok (r, v), w') ->
  exists ex d,
    host_entry p (t_handler clk) (h_target_service p) (request_target_url p)
      (request_target_port p) ex d = Some r.
Proof.
  intros (host & s1 & st' & _ & Hm & _)%host_domain_ok_inv.
  apply host_domain_mut_inv in Hm as (_ & _ & _ & l & _ & _ & Hcase).
  destruct (find_domain _ _) as [[i d] |]; destruct Hcase as [_ He]; eauto.
Qed.

Lemma default_port_nonzero name : SERVICE_DEFAULT_PORTS_get name 80 <> 0.
Proof.
  unfold SERVICE_DEFAULT_PORTS_get.
  repeat case_match; done.
Qed.

(** X13. The server URL the generator gives a record written by
    [host_domain]. With a target URL that is not empty once its trailing
    slashes are gone, it is that URL without the trailing slashes.
    Otherwise, with a target service, it is [scheme://service:port]: the
    scheme of the request ([http] if empty), and the port of the request
    or, when that is missing or zero, the default port of the service
    (80 for a service without one). *)
Theorem hosted_record_url clk p w r v w' :
  host_domain clk p w = (Ok (r, v), w') ->
  (forall u,
      h_target_url p = Some u -> Py.nonempty (Py.rstrip_slash u) = true ->
      url_of r = Py.rstrip_slash u)
  /\ (forall s,
        truthy_str (request_target_url p) = false ->
        h_target_service p = Some s -> Py.nonempty s = true ->
        url_of r
        = (if Py.nonempty (h_target_scheme p) then h_target_scheme p
           else "http")
          +:+ "://" +:+ s +:+ ":"
          +:+ Py.str_int
                (match h_target_port p with
                 | Some n =>
                     if n =? 0 then SERVICE_DEFAULT_PORTS_get (Some s) 80
                     else n
                 | None => SERVICE_DEFAULT_PORTS_get (Some s) 80
                 end)).
Proof.
  intros (ex & d & He)%host_domain_ok_entry.
  apply host_entry_target in He as (Hs & Hp & Hu & Hsch).
  split.
  - intros u Hpu Hne. unfold url_of. rewrite Hu.
    unfold request_target_url. rewrite Hpu. simpl.
    assert (Py.nonempty u = true) as -> by (by destruct u).
    simpl. rewrite Hne. apply rstrip_by_idem.
  - intros s Hfalsy Hps Hne. unfold url_of. rewrite Hu, Hs, Hp, Hsch.
    unfold request_target_port. rewrite Hps. cbn [get_default put].
    pose proof (default_port_nonzero (Some s)) as Hnz.
    apply Z.eqb_neq in Hnz. revert Hnz.
    generalize (SERVICE_DEFAULT_PORTS_get (Some s) 80). intros dflt Hnz.
    assert (truthy_str (get (put (request_target_url p))) = false) as ->.
    { by destruct (request_target_url p). }
    cbn [truthy_str fmt_str]. rewrite Hne. do 4 f_equal.
    unfold or_int, truthy_int.
    destruct (h_target_port p) as [n |]; cbn [negb get put].
    + destruct (n =? 0) eqn:Hn; cbn [negb get put];
        [by rewrite Hnz | by rewrite Hn].
    + by rewrite Hnz.
Qed.

(** ** The artifact and the records *)

Lemma urls_step_sound m d n (S : gset string) u :
  urls_step m d !! n = Some S -> u ∈ S ->
  (exists S0, m !! n = Some S0 /\ u ∈ S0)
  \/ (truthy_str (get (d_domain d)) = true
      /\ service_name_of d (fmt_str (get (d_domain d))) = n
      /\ url_of d = u).
Proof.
  unfold urls_step. destruct (truthy_str (get (d_domain d))) eqn:Ht; simpl.
  2: { intros Hm Hu. left. eauto. }
  unfold add_url.
  destruct (decide (service_name_of d (fmt_str (get (d_domain d))) = n))
    as [<- | Hne].
  - rewrite lookup_insert_eq. intros [= <-] [Hu | Hu]%elem_of_union.
    + apply elem_of_singleton in Hu as ->. by right.
    + left. destruct (m !! _) as [S0 |]; simpl in Hu; [eauto |].
      by apply not_elem_of_empty in Hu.
  - rewrite lookup_insert_ne by done. intros Hm Hu. left. eauto.
Qed.

Lemma fold_urls_step_sound l m n (S : gset string) u :
  fold_left urls_step l m !! n = Some S -> u ∈ S ->
  (exists S0, m !! n = Some S0 /\ u ∈ S0)
  \/ exists d,
       d ∈ l /\ truthy_str (get (d_domain d)) = true
       /\ service_name_of d (fmt_str (get (d_domain d))) = n
       /\ url_of d = u.
Proof.
  revert m. induction l as [| x l IH]; intros m Hm Hu; simpl in Hm.
  - left. eauto.
  - destruct (IH _ Hm Hu) as [(S0 & H0 & Hu0) | (d & Hd & Hrest)].
    + destruct (urls_step_sound m x n S0 u H0 Hu0) as [? | (Ht & Hn & Hx)].
      * by left.
      * right. exists x. split; [by left | done].
    + right. exists d. split; [by right | done].
Qed.

(** The backends of a list of records are those of its records: a URL is
    in the set of a name exactly when some record with a hostname has
    that service name and that server URL. *)
Lemma backends_spec (l : list DomainRecord) name url :
  (exists S, backends l !! name = Some S /\ url ∈ S)
  <-> exists d,
        d ∈ l /\ truthy_str (get (d_domain d)) = true
        /\ service_name_of d (fmt_str (get (d_domain d))) = name
        /\ url_of d = url.
Proof.
  split.
  - intros (S & HS & Hu).
    destruct (fold_urls_step_sound l ∅ name S url HS Hu)
      as [(S0 & H0 & _) | Hd]; [| done].
    by rewrite lookup_empty in H0.
  - intros (d & Hd & Ht & <- & <-). by apply backends_member.
Qed.

(** Every set of [backends] has a URL. *)
Lemma urls_step_inhabited m d :
  map_Forall (fun _ (S : gset string) => S <> ∅) m ->
  map_Forall (fun _ (S : gset string) => S <> ∅) (urls_step m d).
Proof.
  intros Hm. unfold urls_step. destruct (negb _); [done |].
  unfold add_url. apply map_Forall_insert_2; [| done].
  intros He. assert (url_of d ∈ (∅ : gset string)) as Hin; [| set_solver].
  rewrite <- He. apply elem_of_union. left. by apply elem_of_singleton.
Qed.

Lemma backends_inhabited l name S :
  backends l !! name = Some S -> exists url, url ∈ S.
Proof.
  assert (map_Forall (fun _ (S : gset string) => S <> ∅) (backends l))
    as Hall.
  { unfold backends.
    assert (map_Forall (fun _ (S : gset string) => S <> ∅)
              (∅ : gmap string (gset string))) as H0
      by apply map_Forall_empty.
    revert H0. generalize (∅ : gmap string (gset string)).
    induction l as [| d l IH]; intros m Hm; [done |].
    simpl. apply IH. by apply urls_step_inhabited. }
  intros HS. apply Hall in HS. by apply set_choose_L.
Qed.

Lemma sorted_items_spec (m : gmap string (gset string)) :
  StronglySorted (strict String.le) (map fst (sorted_items m))
  /\ (forall name S, (name, S) ∈ sorted_items m <-> m !! name = Some S)
  /\ (forall S : gset string,
        StronglySorted (strict String.le) (sorted_set S)
        /\ forall url, url ∈ sorted_set S <-> url ∈ S).
Proof.
  split; [| split].
  - apply (StronglySorted_fmap fst (key_lt fst)); [done |].
    apply key_le_NoDup_lt; [apply sorted_by_sorted |].
    unfold sorted_items. rewrite sorted_by_perm.
    apply NoDup_fst_map_to_list.
  - intros name S. unfold sorted_items. rewrite sorted_by_perm.
    apply elem_of_map_to_list.
  - intros S. split; [| intros url; apply sorted_set_elem].
    apply sorted_nodup_strict; [apply sorted_strings |].
    unfold sorted_set. rewrite sorted_by_perm. apply NoDup_elements.
Qed.

Lemma listed_names (m : gmap string (gset string)) :
  map fst (listed m) = map fst (sorted_items m).
Proof. unfold listed. rewrite map_map. by apply map_ext. Qed.

Lemma listed_elem (m : gmap string (gset string)) name urls :
  (name, urls) ∈ listed m
  <-> exists S, m !! name = Some S /\ urls = sorted_set S.
Proof.
  unfold listed. rewrite list_elem_of_fmap. split.
  - intros ([n S] & [= -> ->] & Hin). exists S. split; [| done].
    by apply (proj1 (proj2 (sorted_items_spec m))).
  - intros (S & HS & ->). exists (name, S). split; [done |].
    by apply (proj1 (proj2 (sorted_items_spec m))).
Qed.

(** The lines of the artifact of a list in which some record has a
    hostname: the routers part, then the services part of the backends of
    the list. *)
Lemma gen_lines_listed l :
  existsb (fun d => truthy_str (get (d_domain d))) l = true ->
  gen_lines l = routers_part l ++ services_part (listed (backends l)).
Proof.
  intros Hh. rewrite gen_lines_parts, Hh.
  apply existsb_exists in Hh as (d & Hd%list_elem_of_In & Ht).
  destruct (backends_member l d Hd Ht) as (S & HS & Hu).
  destruct (decide (backends l = ∅)) as [Hempty | _].
  { rewrite Hempty in HS. by rewrite lookup_empty in HS. }
  unfold routers_part, services_part, listed.
  rewrite <- !app_assoc. do 4 f_equal. simpl. f_equal.
  rewrite flat_map_concat_map, map_map. reflexivity.
Qed.

(** X14. The artifact of a list in which some record has a hostname is
    the routers part (header, middleware block if a record asks for the
    redirect, the router entry of every record in list order) followed
    by a services part whose backends are those of the records, no more
    and no less: each name heads one block, and a URL is listed under a
    name exactly when some record with a hostname has that service name
    and that server URL. So records that share a service share one
    backend. *)
Theorem artifact_matches_records (l : list DomainRecord) :
  existsb (fun d => truthy_str (get (d_domain d))) l = true ->
  exists items : list (string * list string),
    gen_lines l = routers_part l ++ services_part items
    /\ NoDup (map fst items)
    /\ forall name url,
        (exists urls, (name, urls) ∈ items /\ url ∈ urls)
        <-> exists d,
              d ∈ l /\ truthy_str (get (d_domain d)) = true
              /\ service_name_of d (fmt_str (get (d_domain d))) = name
              /\ url_of d = url.
Proof.
  intros Hh. exists (listed (backends l)).
  split; [by apply gen_lines_listed |]. split.
  - rewrite listed_names. unfold sorted_items. rewrite sorted_by_perm.
    apply NoDup_fst_map_to_list.
  - intros name url. rewrite <- backends_spec. split.
    + intros (urls & (S & HS & ->)%listed_elem & Hu).
      exists S. split; [done |]. by apply sorted_set_elem.
    + intros (S & HS & Hu). exists (sorted_set S).
      split; [apply listed_elem; eauto | by apply sorted_set_elem].
Qed.

(** X15. In the artifact of a list in which some record has a hostname,
    the services part lists the backends in strictly ascending order of
    their names, each of them once, and under each backend its URLs in
    strictly ascending order, each of them once; the names are the
    service names of the records with a hostname, and no backend is
    without a URL. *)
Theorem services_sorted_once (l : list DomainRecord) :
  existsb (fun d => truthy_str (get (d_domain d))) l = true ->
  exists items : list (string * list string),
    gen_lines l = routers_part l ++ services_part items
    /\ StronglySorted (strict String.le) (map fst items)
    /\ Forall (fun item => StronglySorted (strict String.le) item.2
                           /\ item.2 <> []) items
    /\ forall name,
        name ∈ map fst items
        <-> exists d,
              d ∈ l /\ truthy_str (get (d_domain d)) = true
              /\ service_name_of d (fmt_str (get (d_domain d))) = name.
Proof.
  intros Hh. exists (listed (backends l)).
  split; [by apply gen_lines_listed |]. split.
  - rewrite listed_names. apply sorted_items_spec.
  - split.
    + apply Forall_forall. intros [name urls] (S & HS & ->)%listed_elem.
      simpl. split; [apply (sorted_items_spec (backends l)) |].
      destruct (backends_inhabited l name S HS) as [url Hu].
      apply sorted_set_elem in Hu. intros He. rewrite He in Hu. by inv Hu.
    + intros name. split.
      * intros ([n urls] & -> & (S & HS & ->)%listed_elem)%list_elem_of_fmap.
        simpl. destruct (backends_inhabited l n S HS) as [url Hu].
        destruct (proj1 (backends_spec l n url)) as (d & Hd & Ht & Hn & _);
          [eauto |]. eauto.
      * intros (d & Hd & Ht & <-).
        destruct (backends_member l d Hd Ht) as (S & HS & _).
        apply list_elem_of_fmap.
        exists (service_name_of d (fmt_str (get (d_domain d))), sorted_set S).
        split; [done |]. apply listed_elem. eauto.
Qed.

(** ** The shape of a slug *)

Lemma slug_char_image c :
  slug_char (if Py.isalnum (Py.lower_char c) then Py.lower_char c
             else "-"%char) = true.
Proof. destruct c as [[] [] [] [] [] [] [] []]; reflexivity. Qed.

Lemma slug_char_fixed c :
  slug_char c = true ->
  (if Py.isalnum (Py.lower_char c) then Py.lower_char c else "-"%char) = c.
Proof. ascii_cases c; discriminate. Qed.

Lemma map_chars_fixed (p : ascii -> bool) f s :
  (forall c, p c = true -> f c = c) ->
  all_chars p s = true -> Py.map_chars f s = s.
Proof.
  intros Hf. induction s as [| c s IH]; [done |]. simpl.
  intros [Hc Hs]%andb_true_iff. by rewrite (Hf c Hc), IH.
Qed.

Lemma map_chars_compose f g s :
  Py.map_chars f (Py.map_chars g s) = Py.map_chars (fun c => f (g c)) s.
Proof. induction s as [| c s IH]; [done |]. simpl. by rewrite IH. Qed.

Lemma split_chars (p : ascii -> bool) sep s :
  all_chars p s = true -> Forall (fun w => all_chars p w = true) (Py.split sep s).
Proof.
  induction s as [| c s IH]; [by repeat constructor |]. simpl.
  intros [Hc Hs]%andb_true_iff. specialize (IH Hs).
  destruct (Ascii.eqb c sep); [by constructor |].
  destruct (Py.split sep s) as [| w ws]; [by repeat constructor; simpl; rewrite Hc |].
  inv IH. constructor; [| done]. simpl. by rewrite Hc.
Qed.

Lemma split_no_sep sep s :
  Forall (fun w => Py.has_char sep w = false) (Py.split sep s).
Proof.
  induction s as [| c s IH]; [by repeat constructor |]. simpl.
  destruct (Ascii.eqb c sep) eqn:Hc; [by constructor |].
  destruct (Py.split sep s) as [| w ws].
  - repeat constructor. simpl. by rewrite Ascii.eqb_sym, Hc.
  - inv IH. constructor; [| done]. simpl. rewrite Ascii.eqb_sym, Hc. done.
Qed.

Lemma split_none sep w :
  Py.has_char sep w = false -> Py.split sep w = [w].
Proof.
  induction w as [| c w IH]; [done |]. simpl.
  intros [Hc Hw]%orb_false_iff. rewrite Ascii.eqb_sym, Hc.
  by rewrite (IH Hw).
Qed.

Lemma split_app sep w rest :
  Py.has_char sep w = false ->
  Py.split sep (w +:+ String sep rest) = w :: Py.split sep rest.
Proof.
  induction w as [| c w IH]; simpl.
  - intros _. by rewrite Ascii.eqb_refl.
  - intros [Hc Hw]%orb_false_iff. rewrite Ascii.eqb_sym, Hc.
    by rewrite (IH Hw).
Qed.

Lemma split_join sep parts :
  parts <> [] ->
  Forall (fun w => Py.has_char sep w = false) parts ->
  Py.split sep (Py.join (String sep "") parts) = parts.
Proof.
  induction parts as [| w parts IH]; [done |]. intros _ Hall.
  apply Forall_cons in Hall as [Hw Hall].
  destruct parts as [| w2 parts]; [by apply split_none |].
  change (Py.join (String sep "") (w :: w2 :: parts))
    with (w +:+ String sep "" +:+ Py.join (String sep "") (w2 :: parts)).
  change (String sep "" +:+ Py.join (String sep "") (w2 :: parts))
    with (String sep (Py.join (String sep "") (w2 :: parts))).
  rewrite split_app by done. f_equal. by apply IH.
Qed.

Lemma join_chars (p : ascii -> bool) sep parts :
  p sep = true ->
  Forall (fun w => all_chars p w = true) parts ->
  all_chars p (Py.join (String sep "") parts) = true.
Proof.
  intros Hsep. induction 1 as [| w parts Hw Hall IH]; [done |].
  destruct parts as [| w2 parts]; [done |].
  change (Py.join (String sep "") (w :: w2 :: parts))
    with (w +:+ String sep "" +:+ Py.join (String sep "") (w2 :: parts)).
  rewrite !all_chars_app, Hw, IH. simpl. by rewrite Hsep.
Qed.

Lemma filter_all {A} (P : A -> Prop) `{!forall x, Decision (P x)}
    (l : list A) :
  Forall P l -> filter P l = l.
Proof.
  induction 1 as [| x l Hx Hl IH]; [done |].
  by rewrite filter_cons_True, IH.
Qed.

(** The hyphen-joined segments are made of lower-case letters, digits
    and hyphens, and making them again of the result changes nothing. *)
Lemma slug_core_shape (name : string) :
  all_chars slug_char (slug_core name) = true
  /\ slug_core (slug_core name) = slug_core name.
Proof.
  set (raw s :=
         Py.map_chars (fun c => if Py.isalnum c then c else "-"%char)
           (Py.lower s)).
  set (parts s := filter (fun seg => Py.nonempty seg = true)
                    (Py.split "-" (raw s))).
  assert (forall s, slug_core s = Py.join "-" (parts s)) as Hcore by done.
  assert (forall s, all_chars slug_char (raw s) = true) as Hraw.
  { intros s. unfold raw, Py.lower. rewrite map_chars_compose.
    induction s as [| c s IH]; [done |]. simpl.
    by rewrite slug_char_image, IH. }
  assert (forall s, Forall (fun w => all_chars slug_char w = true) (parts s))
    as Hpc.
  { intros s. unfold parts. apply Forall_forall. intros w Hw.
    apply list_elem_of_filter in Hw as [_ Hw].
    pose proof (split_chars slug_char "-" (raw s) (Hraw s)) as Hall.
    rewrite Forall_forall in Hall. by apply Hall. }
  assert (all_chars slug_char (slug_core name) = true) as Hchars.
  { rewrite Hcore. by apply join_chars. }
  assert (slug_core (slug_core name) = slug_core name) as Hidem.
  { rewrite (Hcore (slug_core name)). unfold parts at 1.
    assert (raw (slug_core name) = slug_core name) as ->.
    { unfold raw, Py.lower. rewrite map_chars_compose.
      apply (map_chars_fixed slug_char); [| done].
      intros c. apply slug_char_fixed. }
    rewrite (Hcore name).
    assert (Forall (fun w => Py.has_char "-" w = false) (parts name)) as Hnd.
    { unfold parts. apply Forall_forall. intros w Hw.
      apply list_elem_of_filter in Hw as [_ Hw].
      pose proof (split_no_sep "-" (raw name)) as Hall.
      rewrite Forall_forall in Hall. by apply Hall. }
    assert (Forall (fun w => Py.nonempty w = true) (parts name)) as Hne.
    { unfold parts. apply Forall_forall. intros w Hw.
      by apply list_elem_of_filter in Hw as [? _]. }
    destruct (parts name) as [| w ws] eqn:Hp; [done |].
    rewrite split_join by done. by rewrite filter_all. }
  by split.
Qed.

(** X16. The slug [_slugify] makes of an ASCII name that has an
    alphanumeric character consists of lower-case letters, digits and
    hyphens, and slugging is idempotent: the slug of the slug is the slug
    itself, at any time. So such a name and the slug made from it lead to
    the same registry key. *)
Theorem slug_shape (name : string) (now : Z) :
  ascii_text name = true -> has_alnum name = true ->
  all_chars slug_char (_slugify now name) = true
  /\ forall now', _slugify now' (_slugify now name) = _slugify now name.
Proof.
  intros _ Hal. destruct (slug_core_shape name) as [Hchars Hidem].
  rewrite (_slugify_core now name Hal). split; [done |].
  intros now'. rewrite (_slugify_core now' (slug_core name)); [exact Hidem |].
  by rewrite <- slug_core_nonempty, Hidem, slug_core_nonempty.
Qed.

(** ** Ensuring an administrator *)

(** What a successful [agents_create] call did. *)
Lemma agents_create_ok_inv clk body w r w' :
  agents_create clk body w = (Ok r, w') ->
  let n := created_name clk body in
  let slug := _slugify (t_unix clk) n in
  let old := agent_or_new (t_handler clk) (file_agents (state_file w) !! slug) in
  exists h,
    append_history (a_history old)
      {| action := "ensure-admin"; at_time := t_handler clk;
         target := Absent |} = Some h
    /\ r = {| a_created_at := a_created_at old;
              a_history := Val h;
              a_name := Val n;
              a_slug := Val slug;
              a_role := Val "generalist";
              a_rights := Val "admin";
              a_status := Val "ready";
              a_endpoint := a_endpoint old;
              a_capabilities := put (get_default [] (a_capabilities old));
              a_domains := put (get_default [] (a_domains old));
              a_updated_at := Val (t_handler clk) |}
    /\ file_agents (state_file w') = <[ slug := r ]> (file_agents (state_file w))
    /\ dynamic_file w' = dynamic_file w.
Proof.
  unfold agents_create. fold (created_name clk body).
  destruct (update_state _ _ _) as [[[st' r'] |] f'] eqn:Hu; [| done].
  intros [= <- <-]. simpl.
  pose proof (update_state_committed _ _ _ _ _ _ Hu) as ->.
  apply update_state_inv in Hu as (s1 & Hm & _ & _ & Ha).
  unfold agents_create_mut in Hm. rewrite read_agents in Hm. simpl in Hm.
  destruct (append_history _ _) as [h |] eqn:Hh; [| done].
  simpl in Hm. injection Hm as <- <-. simpl in Ha.
  exists h. split; [done |]. split; [done |]. simpl. by rewrite Ha.
Qed.

(** X17. [agents_create] makes the agent an administrator ([rights]
    [admin], [status] [ready], [role] [generalist]) under the slug of its
    name and never drops what the registry knows of it: a record found
    under the slug keeps its capabilities, domains, endpoint and
    [created_at], and its history gains one [ensure-admin] entry. Without
    such a record the new one has no capabilities, no domains, and the
    time of the call as [created_at]. *)
Theorem agents_create_keeps_profile clk body w r w' :
  agents_create clk body w = (Ok r, w') ->
  let slug := _slugify (t_unix clk) (created_name clk body) in
  (a_rights r = Val "admin" /\ a_status r = Val "ready"
   /\ a_role r = Val "generalist" /\ a_slug r = Val slug
   /\ file_agents (state_file w') !! slug = Some r)
  /\ (forall old,
        file_agents (state_file w) !! slug = Some old ->
        agent_truthy old = true ->
        a_created_at r = a_created_at old
        /\ a_endpoint r = a_endpoint old
        /\ (forall caps, a_capabilities old = Val caps ->
                         a_capabilities r = Val caps)
        /\ (forall doms, a_domains old = Val doms -> a_domains r = Val doms)
        /\ exists e,
            action e = "ensure-admin"
            /\ a_history r
               = Val (match a_history old with Val h => h | _ => [] end
                      ++ [e]))
  /\ (file_agents (state_file w) !! slug = None ->
      a_created_at r = Val (t_handler clk)
      /\ a_capabilities r = Val [] /\ a_domains r = Val []
      /\ exists e, action e = "ensure-admin" /\ a_history r = Val [e]).
Proof.
  intros (h & Hh & -> & Hw & _)%agents_create_ok_inv. cbn zeta. simpl.
  split.
  - repeat (split; [reflexivity |]). rewrite Hw. apply lookup_insert_eq.
  - split.
    + intros old Hold Ht. rewrite Hold in Hh |- *.
      rewrite agent_or_new_truthy in Hh |- * by done.
      split; [done |]. split; [done |].
      split; [intros caps Hc; by rewrite Hc |].
      split; [intros doms Hd; by rewrite Hd |].
      exists {| action := "ensure-admin"; at_time := t_handler clk;
                target := Absent |}.
      split; [reflexivity |]. f_equal.
      unfold append_history in Hh. destruct (a_history old); by simplify_eq.
    + intros Hnone. rewrite Hnone in Hh |- *. simpl in *.
      injection Hh as <-. repeat (split; [reflexivity |]).
      exists {| action := "ensure-admin"; at_time := t_handler clk;
                target := Absent |}.
      split; reflexivity.
Qed.

(** X18. Registering an agent under an ASCII name and then ensuring it
    as administrator under an ASCII name of the same slug keeps one
    record: the capabilities,
    the domains, the endpoint and [created_at] are those of the
    registration, while rights, status and role become [admin], [ready]
    and [generalist]. *)
Theorem register_then_create clk1 clk2 p body w r1 w1 r2 w2 :
  ascii_text (r_name p) = true -> ascii_text (c_name body) = true ->
  has_alnum (Py.strip (r_name p)) = true ->
  Py.nonempty (Py.strip (c_name body)) = true ->
  slug_core (Py.strip (c_name body)) = slug_core (Py.strip (r_name p)) ->
  register_agent clk1 p w = (Ok r1, w1) ->
  agents_create clk2 body w1 = (Ok r2, w2) ->
  a_slug r2 = a_slug r1
  /\ a_capabilities r2 = a_capabilities r1
  /\ a_domains r2 = a_domains r1
  /\ a_endpoint r2 = a_endpoint r1
  /\ a_created_at r2 = a_created_at r1
  /\ a_rights r2 = Val "admin" /\ a_status r2 = Val "ready"
  /\ a_role r2 = Val "generalist"
  /\ dom (file_agents (state_file w2)) = dom (file_agents (state_file w1)).
Proof.
  intros _ _ Hal Hne Hcore
    (h1 & Hh1 & Hr1 & Hw1)%register_agent_ok_inv
    (h2 & Hh2 & Hr2 & Hw2 & _)%agents_create_ok_inv.
  assert (created_name clk2 body = Py.strip (c_name body)) as Hn.
  { unfold created_name. by rewrite Hne. }
  assert (has_alnum (Py.strip (c_name body)) = true) as Hal2.
  { by rewrite <- slug_core_nonempty, Hcore, slug_core_nonempty. }
  rewrite Hn in Hh2, Hr2, Hw2.
  rewrite _slugify_core in Hh1, Hr1, Hw1 by done.
  rewrite _slugify_core in Hh2, Hr2, Hw2 by done.
  rewrite Hcore in Hh2, Hr2, Hw2.
  set (slug := slug_core (Py.strip (r_name p))) in *.
  rewrite Hw1, lookup_insert_eq in Hh2, Hr2.
  assert (agent_truthy r1 = true) as Ht.
  { rewrite Hr1. unfold agent_truthy. simpl. by rewrite orb_true_r. }
  rewrite agent_or_new_truthy in Hh2, Hr2 by done.
  rewrite Hr2, Hr1. simpl.
  repeat (split; [reflexivity |]).
  by rewrite Hw2, Hw1, !dom_insert_L, (assoc_L (∪)), (idemp_L (∪)).
Qed.

(** ** What a request leaves alone *)

(** What a committed [update_state] on a stored document did. *)
Lemma update_state_stored {R} clk (mutator : State -> option (State * R))
    st st' r f' :
  update_state clk mutator (Persisted st) = (Some (st', r), f') ->
  exists s1 n,
    mutator st = Some (s1, r)
    /\ domains st' = domains s1 /\ storage st' = storage s1
    /\ agents st' = agents s1
    /\ revision_of (default empty_meta (meta s1)) = Some n
    /\ revision_slot st' = Val (n + 1)
    /\ f' = Persisted st'.
Proof.
  unfold update_state. simpl.
  destruct (mutator st) as [[s1 r1] |]; [| congruence].
  destruct (revision_of _) as [n |] eqn:Hn; [| congruence].
  intros [= <- <- <-]. by exists s1, n.
Qed.

Lemma host_domain_mut_frame p host ts tsv turl tport s s' r :
  host_domain_mut p host ts tsv turl tport s = Some (s', r) ->
  storage s' = storage s /\ agents s' = agents s.
Proof.
  unfold host_domain_mut. intros H.
  repeat (simplify_option_eq || case_match); done.
Qed.

Lemma register_agent_mut_frame p now name ts caps doms s s' r :
  register_agent_mut p now name ts caps doms s = Some (s', r) ->
  domains s' = domains s /\ storage s' = storage s
  /\ default ∅ (agents s')
     = <[ _slugify now name := r ]> (default ∅ (agents s)).
Proof.
  unfold register_agent_mut. intros H. by simplify_option_eq.
Qed.

Lemma agents_create_mut_frame now n ts s s' r :
  agents_create_mut now n ts s = Some (s', r) ->
  domains s' = domains s /\ storage s' = storage s
  /\ default ∅ (agents s')
     = <[ _slugify now n := r ]> (default ∅ (agents s)).
Proof.
  unfold agents_create_mut. intros H. by simplify_option_eq.
Qed.

(** X19. A request that succeeds on a stored document writes to its own
    collection only. [host_domain] leaves the agents and the storage
    table as they are; [setup_date_storage] leaves the domains, the
    agents, the routing artifact and every storage entry but [date_app];
    [register_agent] and [agents_create] leave the domains, the storage
    table, the routing artifact and every agent but the one of the slug. *)
Theorem requests_touch_one_collection clk rq w w' st :
  state_file w = Persisted st ->
  handle clk rq w = (true, w') ->
  match rq with
  | HostDomain _ =>
      file_agents (state_file w') = file_agents (state_file w)
      /\ file_storage (state_file w') = file_storage (state_file w)
  | SetupStorage _ =>
      file_domains (state_file w') = file_domains (state_file w)
      /\ file_agents (state_file w') = file_agents (state_file w)
      /\ dynamic_file w' = dynamic_file w
      /\ forall k, k <> "date_app" ->
           file_storage (state_file w') !! k = file_storage (state_file w) !! k
  | RegisterAgent p =>
      file_domains (state_file w') = file_domains (state_file w)
      /\ file_storage (state_file w') = file_storage (state_file w)
      /\ dynamic_file w' = dynamic_file w
      /\ forall k, k <> _slugify (t_unix clk) (Py.strip (r_name p)) ->
           file_agents (state_file w') !! k = file_agents (state_file w) !! k
  | AgentsCreate body =>
      file_domains (state_file w') = file_domains (state_file w)
      /\ file_storage (state_file w') = file_storage (state_file w)
      /\ dynamic_file w' = dynamic_file w
      /\ forall k, k <> _slugify (t_unix clk) (created_name clk body) ->
           file_agents (state_file w') !! k = file_agents (state_file w) !! k
  end.
Proof.
  intros Hf. destruct rq as [p | p | p | p]; simpl.
  - unfold host_domain.
    destruct (_ && _); [by intros [= ] |].
    destruct (_normalize_domain _) as [host | msg]; [| by intros [= ]].
    rewrite Hf.
    destruct (update_state _ _ _) as [[[st' r] |] f'] eqn:Hu;
      [| by intros [= ]].
    intros [= <-]. simpl.
    apply update_state_stored in Hu
      as (s1 & n & Hm & _ & Hs & Ha & _ & _ & ->).
    apply host_domain_mut_frame in Hm as [Hs1 Ha1].
    simpl. by rewrite Ha, Ha1, Hs, Hs1.
  - unfold setup_date_storage. rewrite Hf.
    destruct (update_state _ _ _) as [[[st' r] |] f'] eqn:Hu;
      [| by intros [= ]].
    intros [= <-]. simpl.
    apply update_state_stored in Hu
      as (s1 & n & Hm & Hd & Hs & Ha & _ & _ & ->).
    unfold setup_date_storage_mut in Hm. injection Hm as <- _.
    simpl in *. rewrite Hd, Ha, Hs. simpl.
    repeat (split; [done |]).
    intros k Hk. by apply lookup_insert_ne.
  - unfold register_agent.
    destruct (negb _); [by intros [= ] |]. rewrite Hf.
    destruct (update_state _ _ _) as [[[st' r] |] f'] eqn:Hu;
      [| by intros [= ]].
    intros [= <-]. simpl.
    apply update_state_stored in Hu
      as (s1 & n & Hm & Hd & Hs & Ha & _ & _ & ->).
    apply register_agent_mut_frame in Hm as (Hd1 & Hs1 & Ha1).
    simpl. rewrite Hd, Hd1, Hs, Hs1, Ha, Ha1.
    repeat (split; [done |]).
    intros k Hk. by apply lookup_insert_ne.
  - unfold agents_create. fold (created_name clk p). rewrite Hf.
    destruct (update_state _ _ _) as [[[st' r] |] f'] eqn:Hu;
      [| by intros [= ]].
    intros [= <-]. simpl.
    apply update_state_stored in Hu
      as (s1 & n & Hm & Hd & Hs & Ha & _ & _ & ->).
    apply agents_create_mut_frame in Hm as (Hd1 & Hs1 & Ha1).
    simpl. rewrite Hd, Hd1, Hs, Hs1, Ha, Ha1.
    repeat (split; [done |]).
    intros k Hk. by apply lookup_insert_ne.
Qed.

(** ** Setting the date storage up again *)

(** The document a committed [update_state] stores has a revision. *)
Lemma update_state_ok_revision {R} clk
    (mutator : State -> option (State * R)) f st r f' :
  update_state clk mutator f = (Some (st, r), f') ->
  exists n, revision_slot st = Val n.
Proof.
  unfold update_state.
  destruct (_read_state_unlocked _ f) as [[s0 f1] |]; [| done].
  destruct (mutator s0) as [[s1 r1] |]; [| congruence].
  destruct (revision_of _) as [n |]; [| congruence].
  intros [= <- _ _]. by exists (n + 1).
Qed.

(** X20. After a [setup_date_storage] call that succeeded, another one
    always succeeds; the revision goes up by one, the profile keeps its
    [created_at] whatever the new settings are, and with the same
    settings the profile differs from the first one in its [updated_at]
    only. *)
Theorem setup_date_storage_again clk1 clk2 p q w r1 v1 w1 :
  setup_date_storage clk1 p w = (Ok (r1, v1), w1) ->
  exists r2 n w2,
    setup_date_storage clk2 q w1 = (Ok (r2, Val (n + 1)), w2)
    /\ v1 = Val n
    /\ s_created_at r2 = s_created_at r1
    /\ (q = p -> r2 = retimed (t_handler clk2) r1)
    /\ file_profile (state_file w2) = Some r2.
Proof.
  unfold setup_date_storage at 1.
  destruct (update_state _ _ _) as [[[st1 r] |] f1] eqn:Hu; [| done].
  intros [= <- <- <-].
  pose proof (update_state_committed _ _ _ _ _ _ Hu) as ->.
  pose proof (update_state_ok_revision _ _ _ _ _ _ Hu) as [n Hn].
  apply update_state_inv in Hu as (s1 & Hm & _ & Hs & _).
  pose proof (setup_date_storage_mut_created_at _ _ _ _ _ Hm)
    as (Hst & Hlook & _).
  rewrite <- Hs in Hlook.
  assert (profile_truthy r = true) as Ht.
  { unfold profile_truthy. rewrite Hst. simpl. by rewrite !orb_true_r. }
  unfold setup_date_storage_mut in Hm. injection Hm as _ Hr.
  unfold setup_date_storage, update_state, setup_date_storage_mut. simpl.
  rewrite Hlook, Ht.
  unfold revision_slot in Hn. unfold revision_of. rewrite Hn.
  eexists _, n, _. split; [reflexivity |]. split; [done |].
  split; [done |]. split.
  - intros ->. rewrite <- Hr. reflexivity.
  - simpl. apply lookup_insert_eq.
Qed.

(** ** The capabilities of a registration *)

(** The list [normalize_capabilities] makes: the non-blank entries,
    stripped and in lower case, each once and in ascending order. *)
Lemma normalize_capabilities_elem (caps : list string) :
  StronglySorted (strict String.le) (normalize_capabilities caps)
  /\ forall c,
      c ∈ normalize_capabilities caps
      <-> exists cap,
            cap ∈ caps /\ Py.nonempty (Py.strip cap) = true
            /\ c = Py.lower (Py.strip cap).
Proof.
  unfold normalize_capabilities. split.
  - apply sorted_nodup_strict; [apply sorted_strings |].
    unfold sorted_set. rewrite sorted_by_perm. apply NoDup_elements.
  - intros c. rewrite sorted_set_elem, elem_of_list_to_set. split.
    + intros (cap & -> & Hcap)%list_elem_of_fmap.
      apply list_elem_of_filter in Hcap as [Hne Hcap]. by exists cap.
    + intros (cap & Hcap & Hne & ->).
      apply (list_elem_of_fmap_2 (fun cap => Py.lower (Py.strip cap))).
      by apply list_elem_of_filter.
Qed.

(** X21. The capabilities a successful [register_agent] call stores and
    returns, when those of the request are ASCII text, are the non-blank
    ones of the request, stripped and in lower case, each once and in
    ascending order. *)
Theorem registered_capabilities clk p w r w' :
  Forall (fun cap => ascii_text cap = true) (r_capabilities p) ->
  register_agent clk p w = (Ok r, w') ->
  exists caps,
    a_capabilities r = Val caps
    /\ file_agents (state_file w') !! _slugify (t_unix clk)
                                        (Py.strip (r_name p)) = Some r
    /\ StronglySorted (strict String.le) caps
    /\ forall c,
        c ∈ caps
        <-> exists cap,
              cap ∈ r_capabilities p /\ Py.nonempty (Py.strip cap) = true
              /\ c = Py.lower (Py.strip cap).
Proof.
  intros _ (h & _ & -> & Hw)%register_agent_ok_inv.
  destruct (normalize_capabilities_elem (r_capabilities p)) as [Hs He].
  eexists. split; [reflexivity |].
  split; [rewrite Hw; apply lookup_insert_eq |]. by split.
Qed.

(** ** Reading after writing *)

Lemma read_state_stored now w st :
  state_file w = Persisted st -> read_state now w = Some (st, w).
Proof. destruct w as [f d]. simpl. by intros ->. Qed.

(** X22. After a [host_domain] call that succeeded, [list_domains]
    answers the stored collection with the revision the call returned;
    the record returned is in it, the routing artifact on disk is the one
    generated from it, and the reading changes nothing. *)
Theorem listing_after_host clk now p w r v w' :
  host_domain clk p w = (Ok (r, v), w') ->
  exists l,
    list_domains now w' = (Ok (l, v), w')
    /\ r ∈ l
    /\ dynamic_file w' = Some (_write_domain_dynamic_config l).
Proof.
  intros Hh.
  pose proof Hh as (host & s1 & st' & Hn & _ & Hf & _ & Hdyn)%host_domain_ok_inv.
  pose proof (host_domain_ok_present _ _ _ _ _ _ _ Hn Hh) as [_ Hin].
  assert (v = revision_slot st') as ->.
  { revert Hh Hf. unfold host_domain.
    destruct (_ && _); [done |].
    destruct (_normalize_domain _); [| done].
    destruct (update_state _ _ _) as [[[st2 r2] |] f2] eqn:Hu; [| done].
    intros [= <- <- <-]. simpl.
    pose proof (update_state_committed _ _ _ _ _ _ Hu) as ->.
    by intros [= ->]. }
  exists (default [] (domains st')). unfold list_domains.
  rewrite (read_state_stored now w' st' Hf). split; [done |].
  split; [| done].
  rewrite Hf in Hin. simpl in Hin. unfold records_for in Hin.
  by apply list_elem_of_filter in Hin as [_ Hin].
Qed.

(** X23. After a [setup_date_storage] call that succeeded,
    [get_date_storage] answers the profile the call returned, and the
    reading changes nothing. *)
Theorem storage_after_setup clk now p w r v w' :
  setup_date_storage clk p w = (Ok (r, v), w') ->
  get_date_storage now w' = (Ok r, w').
Proof.
  unfold setup_date_storage.
  destruct (update_state _ _ _) as [[[st' r'] |] f'] eqn:Hu; [| done].
  intros [= <- <- <-].
  pose proof (update_state_committed _ _ _ _ _ _ Hu) as ->.
  apply update_state_inv in Hu as (s1 & Hm & _ & Hs & _).
  apply setup_date_storage_mut_created_at in Hm as (_ & Hlook & _).
  unfold get_date_storage.
  rewrite (read_state_stored now (world_with (Persisted st') w) st')
    by done.
  by rewrite Hs, Hlook.
Qed.

(** ** No uncaught exception *)

Lemma default_state_workable now : workable (Persisted (_default_state now)).
Proof.
  split; [done |]. split; [constructor |]. simpl. apply map_Forall_empty.
Qed.

Lemma read_workable now f :
  workable f -> workable (Persisted (document_of now f)).
Proof. destruct f; [intros _; apply default_state_workable .. | done]. Qed.

(** On a workable document a mutator that returns, keeps the meta block
    and leaves a workable document makes [update_state] commit. *)
Lemma update_state_workable {R} clk (mutator : State -> option (State * R))
    f :
  workable f ->
  (forall s, workable (Persisted s) ->
     exists s' r, mutator s = Some (s', r) /\ meta s' = meta s
                  /\ workable (Persisted s')) ->
  exists st r,
    update_state clk mutator f = (Some (st, r), Persisted st)
    /\ workable (Persisted st).
Proof.
  intros Hf Hm. pose proof (read_workable (t_boot clk) f Hf) as Hf1.
  unfold update_state. unfold document_of in Hf1.
  destruct (_read_state_unlocked _ f) as [[s0 f1] |] eqn:Hread;
    [| by destruct f].
  destruct (Hm s0 Hf1) as (s' & r & -> & Hmeta & Hrev & Hd & Ha).
  unfold revision_of.
  destruct (m_revision (default empty_meta (meta s'))) as [| | n] eqn:Hr;
    [| done |]; eexists _, _; (split; [reflexivity |]); simpl;
    by rewrite ?Hr.
Qed.

Lemma host_entry_total p ts tsv turl tport ex d :
  has_host d -> d_history d <> Null ->
  exists r,
    host_entry p ts tsv turl tport ex d = Some r
    /\ has_host r /\ d_history r <> Null.
Proof.
  intros [h Hh] Hn. unfold host_entry, has_host.
  destruct (d_domain d) as [| | x]; try done.
  destruct (truthy_str (get (d_router_name d)));
    destruct (d_history d); try done; simpl; eexists; eauto.
Qed.

Lemma sort_domains_total l :
  Forall has_host l -> exists l', sort_domains l = Some l' /\ l' ≡ₚ l.
Proof.
  intros Hl. unfold sort_domains.
  assert (forallb (fun d => present (d_domain d)) l = true) as ->.
  { apply Is_true_true_1, forallb_True. eapply Forall_impl; [exact Hl |].
    intros d [h Hh]. by destruct (d_domain d). }
  simpl. destruct (length l <=? 1)%nat; [by exists l |].
  assert (forallb (fun d => bool_decide (is_Some (get (d_domain d)))) l
          = true) as ->.
  { apply Is_true_true_1, forallb_True. eapply Forall_impl; [exact Hl |].
    intros d Hd. by apply bool_decide_pack. }
  eexists. split; [reflexivity |]. apply sorted_by_perm.
Qed.

Lemma host_domain_mut_workable p host ts tsv turl tport s :
  workable (Persisted s) ->
  exists s' r,
    host_domain_mut p host ts tsv turl tport s = Some (s', r)
    /\ meta s' = meta s /\ workable (Persisted s').
Proof.
  intros (Hrev & Hd & Ha). unfold host_domain_mut.
  assert (forall l,
             Forall (fun d => has_host d /\ d_history d <> Null) l ->
             exists l',
               sort_domains l = Some l'
               /\ workable
                    (Persisted {| meta := meta s; domains := Some l';
                                  storage := storage s;
                                  agents := agents s |})) as Hsort.
  { intros l Hl.
    destruct (sort_domains_total l) as (l' & Hs & Hp).
    { eapply Forall_impl; [exact Hl |]. by intros d [? _]. }
    exists l'. split; [done |]. split; [done |]. split; [| done].
    simpl. eapply Permutation_Forall; [symmetry; exact Hp | exact Hl]. }
  destruct (find_domain host (default [] (domains s))) as [[i d] |] eqn:Hfind.
  - apply find_domain_Some in Hfind as [Hi _].
    pose proof (Forall_lookup_1 _ _ _ _ Hd Hi) as [Hh Hn].
    destruct (host_entry_total p ts tsv turl tport true d Hh Hn)
      as (r & -> & Hrh & Hrn).
    simpl.
    destruct (Hsort (<[ i := r ]> (default [] (domains s))))
      as (l' & -> & Hw).
    { by apply Forall_insert. }
    simpl. by eexists _, _.
  - destruct (host_entry_total p ts tsv turl tport false
                (new_domain_record host ts)) as (r & -> & Hrh & Hrn).
    { by eexists. }
    { done. }
    simpl.
    destruct (Hsort (default [] (domains s) ++ [r])) as (l' & -> & Hw).
    { apply Forall_app. split; [done |]. by repeat constructor. }
    simpl. by eexists _, _.
Qed.

Lemma setup_date_storage_mut_workable p ts s :
  workable (Persisted s) ->
  exists s' r,
    setup_date_storage_mut p ts s = Some (s', r)
    /\ meta s' = meta s /\ workable (Persisted s').
Proof. intros Hw. unfold setup_date_storage_mut. by eexists _, _. Qed.

Lemma agent_or_new_history ts (m : gmap string AgentRecord) slug :
  map_Forall (fun _ a => a_history a <> Null) m ->
  a_history (agent_or_new ts (m !! slug)) <> Null.
Proof.
  intros Hm. unfold agent_or_new.
  destruct (m !! slug) as [a |] eqn:Hl; [| done].
  destruct (agent_truthy a); [| done]. exact (Hm _ _ Hl).
Qed.

Lemma append_history_total h e :
  h <> Null -> exists l, append_history h e = Some l.
Proof. destruct h; [by eexists | done | by eexists]. Qed.

Lemma register_agent_mut_workable p now name ts caps doms s :
  workable (Persisted s) ->
  exists s' r,
    register_agent_mut p now name ts caps doms s = Some (s', r)
    /\ meta s' = meta s /\ workable (Persisted s').
Proof.
  intros (Hrev & Hd & Ha). unfold register_agent_mut.
  destruct (append_history_total
              (a_history (agent_or_new ts
                            (default ∅ (agents s) !! _slugify now name)))
              {| action := "registered"; at_time := ts; target := Absent |})
    as [h ->]; [by apply agent_or_new_history |].
  simpl. eexists _, _. split; [reflexivity |]. split; [done |].
  split; [done |]. split; [done |]. simpl.
  by apply map_Forall_insert_2.
Qed.

Lemma agents_create_mut_workable now n ts s :
  workable (Persisted s) ->
  exists s' r,
    agents_create_mut now n ts s = Some (s', r)
    /\ meta s' = meta s /\ workable (Persisted s').
Proof.
  intros (Hrev & Hd & Ha). unfold agents_create_mut. cbn zeta. simpl.
  destruct (append_history_total
              (a_history (agent_or_new ts
                            (default ∅ (agents s) !! _slugify now n)))
              {| action := "ensure-admin"; at_time := ts; target := Absent |})
    as [h ->]; [by apply agent_or_new_history |].
  simpl. eexists _, _. split; [reflexivity |]. split; [done |].
  split; [done |]. split; [done |]. simpl.
  by apply map_Forall_insert_2.
Qed.

Lemma handle_workable clk rq w :
  workable (state_file w) ->
  request_crashes clk rq w = false
  /\ workable (state_file (handle clk rq w).2).
Proof.
  intros Hw. destruct rq as [p | p | p | p]; simpl.
  - unfold host_domain.
    destruct (_ && _); [done |].
    destruct (_normalize_domain _) as [host | msg]; [| done].
    destruct (update_state_workable clk
                (host_domain_mut p host (t_handler clk) (h_target_service p)
                   (request_target_url p) (request_target_port p))
                (state_file w) Hw) as (st & r & -> & Hst).
    { intros s. apply host_domain_mut_workable. }
    done.
  - unfold setup_date_storage.
    destruct (update_state_workable clk
                (setup_date_storage_mut p (t_handler clk))
                (state_file w) Hw) as (st & r & -> & Hst).
    { intros s. apply setup_date_storage_mut_workable. }
    done.
  - unfold register_agent.
    destruct (negb _); [done |].
    destruct (update_state_workable clk
                (register_agent_mut p (t_unix clk) (Py.strip (r_name p))
                   (t_handler clk) (normalize_capabilities (r_capabilities p))
                   (_normalize_domains (r_domains p)))
                (state_file w) Hw) as (st & r & -> & Hst).
    { intros s. apply register_agent_mut_workable. }
    done.
  - unfold agents_create. fold (created_name clk p).
    destruct (update_state_workable clk
                (agents_create_mut (t_unix clk) (created_name clk p)
                   (t_handler clk))
                (state_file w) Hw) as (st & r & -> & Hst).
    { intros s. apply agents_create_mut_workable. }
    done.
Qed.

(** On a workable store no request of a sequence ends in an uncaught
    exception, and the store stays workable. *)
Lemma run_workable rqs w :
  workable (state_file w) ->
  crash_free rqs w = true /\ workable (state_file (run rqs w).2).
Proof.
  revert w. induction rqs as [| [clk rq] rest IH]; intros w Hw; [done |].
  destruct (handle_workable clk rq w Hw) as [Hc Hw1].
  simpl. rewrite Hc. simpl.
  destruct (handle clk rq w) as [ok w1]. simpl in *.
  destruct (IH w1 Hw1) as [Hfree Hw2]. split; [done |].
  by destruct (run rest w1).
Qed.

(** X24. A store that starts from the bootstrap (no state file yet, a
    state file whose text is not valid JSON, or the default document)
    never answers a request of the four mutation handlers with an
    uncaught exception: whatever the requests and their order, their
    text being ASCII, each one either succeeds or is rejected. *)
Theorem bootstrapped_store_never_crashes rqs w :
  bootstrapped (state_file w) ->
  Forall (fun item => ascii_request item.2 = true) rqs ->
  crash_free rqs w = true.
Proof.
  intros Hb _. apply run_workable.
  destruct Hb as [-> | [-> | [now ->]]]; [done | done |].
  apply default_state_workable.
Qed.

End Model.

(** * The properties at sample inputs *)

(** Three requests on a booted store reach revision 3; a request without
    a target is rejected and changes nothing. *)
Lemma revision_monotonicity_witness :
  (exists st',
      state_file (run sample_digest no_bracket_error sample_requests
                    booted_world).2 = Persisted st'
      /\ revision_slot st' = Val (0 + Z.of_nat (length sample_requests)))
  /\ (exists detail,
        host_domain sample_digest no_bracket_error sample_clock
          (DomainHostRequest_defaults "shop.example.com") booted_world
        = (Rejected detail, booted_world)).
Proof.
  split.
  - apply (proj1 (revision_monotonicity sample_digest no_bracket_error)
             sample_requests booted_world _
             (_default_state "2024-05-01T09:00:00Z") 0);
      reflexivity.
  - apply (proj2 (revision_monotonicity sample_digest no_bracket_error));
      reflexivity.
Defined.

(** [HTTPS://A.example.com/] and then [a.example.com] on a fresh store:
    one record. *)
Lemma domains_sorted_unique_witness :
  exists r2,
    records_for "a.example.com"
      (file_domains
         (state_file
            (host_domain sample_digest no_bracket_error later_clock
               (host_request "a.example.com")
               (host_domain sample_digest no_bracket_error sample_clock
                  (host_request "HTTPS://A.example.com/") fresh_world).2).2))
    = [r2]
    /\ d_domain r2 = Val "a.example.com".
Proof.
  eexists.
  eapply (proj1 (proj2 (proj2 (proj2
            (domains_sorted_unique sample_digest no_bracket_error))))
            sample_clock later_clock (host_request "HTTPS://A.example.com/")
            (host_request "a.example.com") fresh_world).
  - split; constructor.
  - reflexivity.
  - reflexivity.
  - reflexivity.
  - reflexivity.
Defined.

(** The scenario request issued twice on a fresh store. *)
Lemma host_domain_idempotent_witness :
  exists r1 r2,
    records_for "shop.example.com"
      (file_domains
         (state_file
            (host_domain sample_digest no_bracket_error sample_clock
               shop_request fresh_world).2)) = [r1]
    /\ records_for "shop.example.com"
         (file_domains
            (state_file
               (host_domain sample_digest no_bracket_error later_clock
                  shop_request
                  (host_domain sample_digest no_bracket_error sample_clock
                     shop_request fresh_world).2).2)) = [r2]
    /\ exists e1 e2,
        d_history r1 = Val [e1] /\ d_history r2 = Val [e1; e2]
        /\ r2 = touched "2024-05-01T10:00:06Z" [e1; e2] r1
        /\ action e1 = "provisioned" /\ action e2 = "updated".
Proof.
  do 2 eexists.
  eapply (host_domain_idempotent sample_digest no_bracket_error sample_clock
            later_clock shop_request fresh_world);
    reflexivity.
Defined.

(** One record without a hostname, which asks for the redirect. *)
Lemma placeholder_artifact_witness :
  gen_lines [nameless_record]
  = placeholder_lines (middleware_needed [nameless_record])
  /\ _write_domain_dynamic_config [nameless_record]
     = Py.join Py.nl (placeholder_lines (middleware_needed [nameless_record]))
       +:+ Py.nl.
Proof.
  apply placeholder_artifact. repeat constructor.
Defined.

(** The first storage setup on a booted store. *)
Lemma first_setup_has_no_created_at_witness :
  exists r v w',
    setup_date_storage sample_clock DateStorageRequest_defaults booted_world
    = (Ok (r, v), w')
    /\ s_status r = Val "ready"
    /\ s_created_at r = Absent
    /\ file_profile (state_file w') = Some r.
Proof.
  apply (proj1 first_setup_has_no_created_at).
  right. right. eexists. reflexivity.
Defined.



(** The scenario request on a fresh store: the router is bound to [web],
    and [websecure] occurs nowhere in the artifact. *)
Lemma shop_scenario_counterexample :
  exists r v w',
    host_domain sample_digest no_bracket_error sample_clock shop_request
      fresh_world = (Ok (r, v), w')
    /\ d_entrypoint r = Val "web"
    /\ dynamic_file w' = Some shop_artifact
    /\ In "        - web" shop_lines
    /\ ~ In "        - websecure" shop_lines
    /\ Py.contains "websecure" shop_artifact = false.
Proof.
  do 3 eexists. split; [reflexivity |]. split; [reflexivity |].
  split; [vm_compute; reflexivity |]. split; [simpl; tauto |].
  split; [| vm_compute; reflexivity].
  simpl. intros H. repeat (destruct H as [H | H]; [discriminate H |]).
  exact H.
Qed.

(** The scenario request after another hostname was hosted. *)
Lemma shop_scenario_witness :
  exists lines0 router_name urls,
    dynamic_file
      (host_domain sample_digest no_bracket_error later_clock shop_request
         (host_domain sample_digest no_bracket_error sample_clock
            (host_request "a.example.com") fresh_world).2).2
    = Some (Py.join Py.nl lines0 +:+ Py.nl)
    /\ infix_of middleware_block lines0
    /\ infix_of (shop_router_block router_name) lines0
    /\ infix_of (backend_block "twinboss_api" urls) lines0
    /\ "http://twinboss_api:9000" ∈ urls.
Proof.
  eapply (proj2 (shop_scenario sample_digest no_bracket_error) later_clock
            (host_domain sample_digest no_bracket_error sample_clock
               (host_request "a.example.com") fresh_world).2).
  reflexivity.
Defined.

(** Re-registering an agent with other capabilities and domains: the
    stored ones are gone, the result is not the union. *)
Lemma register_agent_union_counterexample :
  exists r1 w1 r2 w2,
    register_agent no_bracket_error sample_clock
      (registration "Ops Bot" ["deploy"] ["a.example.com"]) fresh_world
    = (Ok r1, w1)
    /\ register_agent no_bracket_error later_clock
         (registration "Ops Bot" ["monitor"] ["b.example.com"]) w1
       = (Ok r2, w2)
    /\ a_capabilities r1 = Val ["deploy"]
    /\ a_domains r1 = Val ["a.example.com"]
    /\ a_capabilities r2 = Val ["monitor"]
    /\ a_domains r2 = Val ["b.example.com"]
    /\ sorted_union ["deploy"] ["monitor"] = ["deploy"; "monitor"]
    /\ a_capabilities r2 <> Val (sorted_union ["deploy"] ["monitor"])
    /\ a_domains r2
       <> Val (sorted_union ["a.example.com"] ["b.example.com"]).
Proof.
  do 4 eexists. split; [reflexivity |]. split; [reflexivity |].
  split; [vm_compute; reflexivity |]. split; [vm_compute; reflexivity |].
  split; [vm_compute; reflexivity |]. split; [vm_compute; reflexivity |].
  split; [vm_compute; reflexivity |].
  split; intros H; vm_compute in H; discriminate H.
Qed.

(** A registration with capabilities and domains to normalize. *)
Lemma register_agent_replaces_witness :
  exists r,
    a_capabilities r = Val (normalize_capabilities [" Deploy "; "deploy"; ""])
    /\ a_domains r
       = Val (_normalize_domains no_bracket_error
                ["HTTPS://A.example.com/"; "not a host//"])
    /\ a_name r = Val (Py.strip " Ops Bot ")
    /\ a_role r = Val "generalist" /\ a_rights r = Val "member"
    /\ a_status r = Val "active" /\ a_endpoint r = put None
    /\ file_agents
         (state_file
            (register_agent no_bracket_error sample_clock
               (registration " Ops Bot " [" Deploy "; "deploy"; ""]
                  ["HTTPS://A.example.com/"; "not a host//"])
               booted_world).2)
         !! _slugify 1714557600 (Py.strip " Ops Bot ") = Some r.
Proof.
  eexists.
  eapply (register_agent_replaces no_bracket_error sample_clock
            (registration " Ops Bot " [" Deploy "; "deploy"; ""]
               ["HTTPS://A.example.com/"; "not a host//"]) booted_world).
  reflexivity.
Defined.

(** The name [!!!] registered twice, five seconds apart: two slugs, two
    records. *)
Lemma slug_time_counterexample :
  _slugify 1714557600 "!!!" = "agent-1714557600"
  /\ _slugify 1714557605 "!!!" = "agent-1714557605"
  /\ exists r1 w1 r2 w2,
      register_agent no_bracket_error sample_clock
        (registration "!!!" [] []) fresh_world = (Ok r1, w1)
      /\ register_agent no_bracket_error later_clock
           (registration "!!!" [] []) w1 = (Ok r2, w2)
      /\ a_slug r1 = Val "agent-1714557600"
      /\ a_slug r2 = Val "agent-1714557605"
      /\ size (file_agents (state_file w1)) = 1%nat
      /\ size (file_agents (state_file w2)) = 2%nat.
Proof.
  split; [vm_compute; reflexivity |]. split; [vm_compute; reflexivity |].
  do 4 eexists. split; [reflexivity |]. split; [reflexivity |].
  repeat split; vm_compute; reflexivity.
Qed.

(** [Ops Bot!] and then [ops bot] on a fresh store: one record. *)
Lemma slug_stable_single_record_witness :
  exists r1 r2,
    a_slug r1 = Val "ops-bot" /\ a_slug r2 = Val "ops-bot"
    /\ dom (file_agents
              (state_file
                 (register_agent no_bracket_error later_clock
                    (registration "ops bot" [] [])
                    (register_agent no_bracket_error sample_clock
                       (registration "Ops Bot!" [] []) fresh_world).2).2))
       = dom (file_agents
                (state_file
                   (register_agent no_bracket_error sample_clock
                      (registration "Ops Bot!" [] []) fresh_world).2))
    /\ a_created_at r2 = a_created_at r1.
Proof.
  destruct (proj2 (proj2 (proj2
                (slug_stable_single_record no_bracket_error)))
              sample_clock later_clock (registration "Ops Bot!" [] [])
              (registration "ops bot" [] []) fresh_world _ _ _ _
              eq_refl eq_refl eq_refl eq_refl eq_refl eq_refl)
    as (H1 & H2 & _ & H4 & _ & H6 & _).
  eexists _, _. split; [exact H1 |]. split; [exact H2 |].
  split; [exact H4 | exact H6].
Defined.

(** ** Further properties at sample inputs *)

(** A URL in upper case becomes a canonical hostname. *)
Lemma normalize_canonical_witness :
  Py.nonempty "a.example.com" = true
  /\ Py.lower "a.example.com" = "a.example.com"
  /\ delimiter_free "a.example.com" = true.
Proof.
  apply (normalize_canonical no_bracket_error "HTTPS://A.example.com/").
  reflexivity.
Defined.

(** Two blanks. *)
Lemma normalize_rejects_blank_witness :
  _normalize_domain no_bracket_error "  "
  = ValueError ("invalid domain '" +:+ "  " +:+ "'").
Proof.
  apply (proj2 (normalize_rejects_blank no_bracket_error) "  ");
    reflexivity.
Defined.

(** [Shop.Example.com] behind a scheme and before a path. *)
Lemma normalize_plain_host_witness :
  _normalize_domain no_bracket_error
    ("https" +:+ "://" +:+ "Shop.Example.com" +:+ "/path")
  = Returns (Py.lower "Shop.Example.com").
Proof.
  apply (proj1 (proj2 (normalize_plain_host no_bracket_error
                         "Shop.Example.com" eq_refl)) "https" "/path");
    reflexivity.
Defined.

(** Seeding a fresh store twice from the same environment. *)
Lemma seed_idempotent_witness :
  exists w1,
    seed_domains_from_env sample_digest no_bracket_error sample_clock
      {| env_DOMAINS := "a.example.com, B.example.com";
         env_DOMAIN_values := ["https://c.example.com/"] |} fresh_world
    = (Ok (), w1)
    /\ seed_domains_from_env sample_digest no_bracket_error later_clock
         {| env_DOMAINS := "a.example.com, B.example.com";
            env_DOMAIN_values := ["https://c.example.com/"] |} w1
       = (Ok (), w1).
Proof.
  eexists. split; [vm_compute; reflexivity |].
  refine (proj1 (seed_idempotent sample_digest no_bracket_error sample_clock
                   later_clock _ fresh_world _ _)).
  vm_compute. reflexivity.
Defined.

(** A registration under a blank name on a booted store. *)
Lemma failed_request_changes_nothing_witness :
  (handle sample_digest no_bracket_error sample_clock
     (RegisterAgent (registration "  " [] [])) booted_world).2
  = booted_world.
Proof.
  apply (failed_request_changes_nothing sample_digest no_bracket_error
           sample_clock (RegisterAgent (registration "  " [] []))
           booted_world (_default_state "2024-05-01T09:00:00Z"));
    reflexivity.
Defined.

(** Three requests that succeed and one that is rejected. *)
Lemma revision_counts_successes_witness :
  exists st',
    state_file
      (run sample_digest no_bracket_error
         ((sample_clock,
           HostDomain (DomainHostRequest_defaults "shop.example.com"))
          :: sample_requests) booted_world).2 = Persisted st'
    /\ revision_slot st'
       = Val (0 + Z.of_nat
                    (count_ok sample_digest no_bracket_error
                       ((sample_clock,
                         HostDomain
                           (DomainHostRequest_defaults "shop.example.com"))
                        :: sample_requests) booted_world))
    /\ (count_ok sample_digest no_bracket_error
          ((sample_clock,
            HostDomain (DomainHostRequest_defaults "shop.example.com"))
           :: sample_requests) booted_world
        <= length
             ((sample_clock,
               HostDomain (DomainHostRequest_defaults "shop.example.com"))
              :: sample_requests))%nat.
Proof.
  apply (revision_counts_successes sample_digest no_bracket_error _
           booted_world (_default_state "2024-05-01T09:00:00Z") 0);
    reflexivity.
Defined.

(** The scenario request on a booted store. *)
Lemma meta_follows_document_witness :
  exists st,
    state_file
      (handle sample_digest no_bracket_error sample_clock
         (HostDomain shop_request) booted_world).2 = Persisted st
    /\ meta_consistent (t_commit sample_clock) st
    /\ forall st0 c,
        state_file booted_world = Persisted st0 ->
        meta_created_at st0 = Val c ->
        meta_created_at st = Val c.
Proof.
  apply (meta_follows_document sample_digest no_bracket_error sample_clock
           (HostDomain shop_request) booted_world).
  reflexivity.
Defined.

(** Three requests on a booted store. *)
Lemma state_file_stays_a_document_witness :
  exists st',
    state_file
      (run sample_digest no_bracket_error sample_requests booted_world).2
    = Persisted st'.
Proof.
  apply (proj2 (proj2
           (state_file_stays_a_document sample_digest no_bracket_error))
           sample_requests booted_world
           (_default_state "2024-05-01T09:00:00Z")).
  reflexivity.
Defined.

(** The scenario request issued again. *)
Lemma host_domain_updates_in_place_witness :
  exists d v1 w1 r v2 w2,
    host_domain sample_digest no_bracket_error sample_clock shop_request
      fresh_world = (Ok (d, v1), w1)
    /\ host_domain sample_digest no_bracket_error later_clock shop_request
         w1 = (Ok (r, v2), w2)
    /\ file_domains (state_file w2)
       = <[ 0%nat := r ]> (file_domains (state_file w1))
    /\ d_domain r = Val "shop.example.com" /\ d_id r = d_id d
    /\ d_created_at r = d_created_at d
    /\ d_updated_at r = Val (t_handler later_clock)
    /\ exists e,
        action e = "updated" /\ at_time e = t_handler later_clock
        /\ d_history r
           = Val (match d_history d with Val h => h | _ => [] end ++ [e]).
Proof.
  eexists _, _, _, _, _, _. split; [vm_compute; reflexivity |].
  split; [vm_compute; reflexivity |].
  refine (host_domain_updates_in_place sample_digest no_bracket_error
            later_clock shop_request _ _ _ _ "shop.example.com" 0%nat _
            _ _ _ _ _).
  - split; repeat constructor. by eexists.
  - vm_compute. reflexivity.
  - vm_compute. reflexivity.
  - vm_compute. reflexivity.
  - vm_compute. reflexivity.
Defined.

(** The scenario request on a fresh store. *)
Lemma host_domain_adds_one_witness :
  exists r,
    file_domains
      (state_file
         (host_domain sample_digest no_bracket_error sample_clock
            shop_request fresh_world).2)
    ≡ₚ r :: file_domains (state_file fresh_world)
    /\ d_domain r = Val "shop.example.com"
    /\ d_id r = Val (sample_digest "shop.example.com")
    /\ d_created_at r = Val (t_handler sample_clock)
    /\ d_router_name r = Val (dashed "shop.example.com")
    /\ exists e,
        action e = "provisioned" /\ at_time e = t_handler sample_clock
        /\ d_history r = Val [e].
Proof.
  eexists.
  eapply (host_domain_adds_one sample_digest no_bracket_error sample_clock
            shop_request fresh_world);
    reflexivity.
Defined.

(** The scenario request: no URL, the service [twinboss_api], no port. *)
Lemma hosted_record_url_witness :
  exists r,
    url_of r
    = (if Py.nonempty (h_target_scheme shop_request)
       then h_target_scheme shop_request else "http")
      +:+ "://" +:+ "twinboss_api" +:+ ":"
      +:+ Py.str_int
            (match h_target_port shop_request with
             | Some n =>
                 if n =? 0
                 then SERVICE_DEFAULT_PORTS_get (Some "twinboss_api") 80
                 else n
             | None => SERVICE_DEFAULT_PORTS_get (Some "twinboss_api") 80
             end).
Proof.
  eexists.
  eapply (proj2 (hosted_record_url sample_digest no_bracket_error
                   sample_clock shop_request fresh_world _ _ _ eq_refl)
            "twinboss_api");
    reflexivity.
Defined.

(** Two records of two services. *)
Lemma artifact_matches_records_witness :
  exists items : list (string * list string),
    gen_lines [record_a; record_b]
    = routers_part [record_a; record_b] ++ services_part items
    /\ NoDup (map fst items)
    /\ forall name url,
        (exists urls, (name, urls) ∈ items /\ url ∈ urls)
        <-> exists d,
              d ∈ [record_a; record_b]
              /\ truthy_str (get (d_domain d)) = true
              /\ service_name_of d (fmt_str (get (d_domain d))) = name
              /\ url_of d = url.
Proof.
  apply (artifact_matches_records sample_digest no_bracket_error
           [record_a; record_b]).
  reflexivity.
Defined.

(** The name [Ops Bot!]. *)
Lemma slug_shape_witness :
  all_chars slug_char (_slugify 1714557600 "Ops Bot!") = true
  /\ forall now',
      _slugify now' (_slugify 1714557600 "Ops Bot!")
      = _slugify 1714557600 "Ops Bot!".
Proof.
  apply (slug_shape "Ops Bot!" 1714557600); reflexivity.
Defined.

(** An agent registered with a capability, then ensured as
    administrator. *)
Lemma agents_create_keeps_profile_witness :
  exists r w',
    agents_create later_clock {| c_name := "ops bot" |}
      (register_agent no_bracket_error sample_clock
         (registration "Ops Bot!" ["deploy"] []) fresh_world).2
    = (Ok r, w')
    /\ a_rights r = Val "admin" /\ a_status r = Val "ready"
    /\ a_role r = Val "generalist"
    /\ a_slug r
       = Val (_slugify (t_unix later_clock)
                (created_name later_clock {| c_name := "ops bot" |}))
    /\ file_agents (state_file w')
       !! _slugify (t_unix later_clock)
            (created_name later_clock {| c_name := "ops bot" |})
       = Some r.
Proof.
  eexists _, _. split; [vm_compute; reflexivity |].
  refine (proj1 (agents_create_keeps_profile later_clock
                   {| c_name := "ops bot" |}
                   (register_agent no_bracket_error sample_clock
                      (registration "Ops Bot!" ["deploy"] []) fresh_world).2
                   _ _ _)).
  vm_compute. reflexivity.
Defined.

(** [Ops Bot!] registered, then [ops bot] ensured as administrator. *)
Lemma register_then_create_witness :
  exists r1 w1 r2 w2,
    register_agent no_bracket_error sample_clock
      (registration "Ops Bot!" ["deploy"] []) fresh_world = (Ok r1, w1)
    /\ agents_create later_clock {| c_name := "ops bot" |} w1 = (Ok r2, w2)
    /\ a_slug r2 = a_slug r1
    /\ a_capabilities r2 = a_capabilities r1
    /\ a_domains r2 = a_domains r1
    /\ a_endpoint r2 = a_endpoint r1
    /\ a_created_at r2 = a_created_at r1
    /\ a_rights r2 = Val "admin" /\ a_status r2 = Val "ready"
    /\ a_role r2 = Val "generalist"
    /\ dom (file_agents (state_file w2)) = dom (file_agents (state_file w1)).
Proof.
  eexists _, _, _, _. split; [vm_compute; reflexivity |].
  split; [vm_compute; reflexivity |].
  refine (register_then_create no_bracket_error sample_clock later_clock
            (registration "Ops Bot!" ["deploy"] [])
            {| c_name := "ops bot" |} fresh_world _ _ _ _ _ _ _ _ _ _ _);
    vm_compute; reflexivity.
Defined.

(** A registration on a booted store. *)
Lemma requests_touch_one_collection_witness :
  file_domains
    (state_file
       (handle sample_digest no_bracket_error sample_clock
          (RegisterAgent (registration "Ops Bot!" [] [])) booted_world).2)
  = file_domains (state_file booted_world)
  /\ file_storage
       (state_file
          (handle sample_digest no_bracket_error sample_clock
             (RegisterAgent (registration "Ops Bot!" [] []))
             booted_world).2)
     = file_storage (state_file booted_world)
  /\ dynamic_file
       (handle sample_digest no_bracket_error sample_clock
          (RegisterAgent (registration "Ops Bot!" [] [])) booted_world).2
     = dynamic_file booted_world
  /\ forall k,
      k <> _slugify (t_unix sample_clock)
             (Py.strip (r_name (registration "Ops Bot!" [] []))) ->
      file_agents
        (state_file
           (handle sample_digest no_bracket_error sample_clock
              (RegisterAgent (registration "Ops Bot!" [] []))
              booted_world).2) !! k
      = file_agents (state_file booted_world) !! k.
Proof.
  apply (requests_touch_one_collection sample_digest no_bracket_error
           sample_clock (RegisterAgent (registration "Ops Bot!" [] []))
           booted_world _ (_default_state "2024-05-01T09:00:00Z"));
    reflexivity.
Defined.

(** The default settings applied twice to a booted store. *)
Lemma setup_date_storage_again_witness :
  exists r1 r2 n w2,
    setup_date_storage later_clock DateStorageRequest_defaults
      (setup_date_storage sample_clock DateStorageRequest_defaults
         booted_world).2
    = (Ok (r2, Val (n + 1)), w2)
    /\ s_created_at r2 = s_created_at r1
    /\ r2 = retimed (t_handler later_clock) r1
    /\ file_profile (state_file w2) = Some r2.
Proof.
  destruct (setup_date_storage_again sample_clock later_clock
              DateStorageRequest_defaults DateStorageRequest_defaults
              booted_world _ _ _ eq_refl)
    as (r2 & n & w2 & H1 & _ & H3 & H4 & H5).
  eexists _, r2, n, w2. split; [exact H1 |]. split; [exact H3 |].
  split; [exact (H4 eq_refl) | exact H5].
Defined.

(** The scenario request on a fresh store, then the listing. *)
Lemma listing_after_host_witness :
  exists r l v,
    list_domains "2024-05-01T10:00:09Z"
      (host_domain sample_digest no_bracket_error sample_clock shop_request
         fresh_world).2
    = (Ok (l, v),
       (host_domain sample_digest no_bracket_error sample_clock shop_request
          fresh_world).2)
    /\ r ∈ l
    /\ dynamic_file
         (host_domain sample_digest no_bracket_error sample_clock
            shop_request fresh_world).2
       = Some (_write_domain_dynamic_config l).
Proof.
  destruct (listing_after_host sample_digest no_bracket_error sample_clock
              "2024-05-01T10:00:09Z" shop_request fresh_world _ _ _ eq_refl)
    as (l & H1 & H2 & H3).
  eexists _, l, _. split; [exact H1 |]. split; [exact H2 | exact H3].
Defined.

(** The default settings on a booted store, then the reading. *)
Lemma storage_after_setup_witness :
  exists r,
    get_date_storage "2024-05-01T10:00:09Z"
      (setup_date_storage sample_clock DateStorageRequest_defaults
         booted_world).2
    = (Ok r,
       (setup_date_storage sample_clock DateStorageRequest_defaults
          booted_world).2).
Proof.
  eexists.
  eapply (storage_after_setup sample_clock "2024-05-01T10:00:09Z"
            DateStorageRequest_defaults booted_world).
  reflexivity.
Defined.

(** A URL that normalizes beside a string that does not. *)
Lemma normalize_domains_spec_witness :
  "a.example.com"
  ∈ _normalize_domains no_bracket_error
      ["HTTPS://A.example.com/"; "not a host//"].
Proof.
  apply (proj2 (normalize_domains_spec no_bracket_error
                  ["HTTPS://A.example.com/"; "not a host//"])).
  exists "HTTPS://A.example.com/". split; [constructor | reflexivity].
Defined.

(** A [DOMAIN_*] value beside a [DOMAINS] list. *)
Lemma collect_domains_spec_witness :
  "c.example.com"
  ∈ _collect_domains_from_env no_bracket_error
      {| env_DOMAINS := "a.example.com, B.example.com";
         env_DOMAIN_values := ["https://c.example.com/"] |}.
Proof.
  apply (proj2 (collect_domains_spec no_bracket_error
                  {| env_DOMAINS := "a.example.com, B.example.com";
                     env_DOMAIN_values := ["https://c.example.com/"] |})).
  exists "https://c.example.com/". split; [right; constructor |].
  split; reflexivity.
Defined.

(** The backends of two records of two services. *)
Lemma services_sorted_once_witness :
  exists items : list (string * list string),
    gen_lines [record_a; record_b]
    = routers_part [record_a; record_b] ++ services_part items
    /\ StronglySorted (strict String.le) (map fst items)
    /\ Forall (fun item => StronglySorted (strict String.le) item.2
                           /\ item.2 <> []) items
    /\ forall name,
        name ∈ map fst items
        <-> exists d,
              d ∈ [record_a; record_b]
              /\ truthy_str (get (d_domain d)) = true
              /\ service_name_of d (fmt_str (get (d_domain d))) = name.
Proof.
  apply (services_sorted_once sample_digest no_bracket_error
           [record_a; record_b]).
  reflexivity.
Defined.

(** A capability given twice, in two spellings, and a blank one. *)
Lemma registered_capabilities_witness :
  exists r w',
    register_agent no_bracket_error sample_clock
      (registration "Ops Bot" [" Deploy "; "deploy"; ""] []) fresh_world
    = (Ok r, w')
    /\ exists caps,
        a_capabilities r = Val caps
        /\ file_agents (state_file w')
           !! _slugify (t_unix sample_clock)
                (Py.strip
                   (r_name
                      (registration "Ops Bot" [" Deploy "; "deploy"; ""] [])))
           = Some r
        /\ StronglySorted (strict String.le) caps
        /\ forall c,
            c ∈ caps
            <-> exists cap,
                  cap
                  ∈ r_capabilities
                      (registration "Ops Bot" [" Deploy "; "deploy"; ""] [])
                  /\ Py.nonempty (Py.strip cap) = true
                  /\ c = Py.lower (Py.strip cap).
Proof.
  eexists _, _. split; [vm_compute; reflexivity |].
  refine (registered_capabilities no_bracket_error sample_clock
            (registration "Ops Bot" [" Deploy "; "deploy"; ""] [])
            fresh_world _ _ _ _).
  - repeat constructor.
  - vm_compute. reflexivity.
Defined.

(** Three requests on a fresh store. *)
Lemma bootstrapped_store_never_crashes_witness :
  crash_free sample_digest no_bracket_error sample_requests fresh_world
  = true.
Proof.
  apply (bootstrapped_store_never_crashes sample_digest no_bracket_error
           sample_requests fresh_world).
  - left. reflexivity.
  - repeat constructor.
Defined.
